(** * DRF-school: student enrolment and the transaction ledger

    A shallow embedding of [core_apps/student/utils.py],
    [core_apps/student/models.py], [core_apps/student/admin.py],
    [core_apps/common/permissions.py] and the profile detail view of
    [core_apps/user_profile/views.py], followed by the properties the
    specification states about them and by further properties of the
    code. *)

From Stdlib Require Import ZArith NArith List Bool Lia.
From Stdlib Require Import Ascii String Decimal DecimalString.
From stdpp Require Import base option list gmap strings.

Local Open Scope Z_scope.

(** ** Python values *)

(** A Python [str] is a sequence of Unicode code points. *)
Abbreviation codepoint := N (only parsing).
Abbreviation str := (list N) (only parsing).

(** An ASCII literal of the source, as a [str]. *)
Definition lit (s : string) : str := N_of_ascii <$> list_ascii_of_string s.

(** The part of the interpreter's character database that the sources
    consult.  [numeric_digit] is the per-character test behind
    [str.isdigit]; [decimal_value c] is [int(c)] on the one-character
    string [c], with [None] standing for the [ValueError] that [int]
    raises.  Every character [int] accepts is one [isdigit] accepts; the
    converse fails in CPython (superscript two, for one).  [str_strip] and
    [str_title] are [str.strip] and [str.title]. *)
Class Unicode := {
  numeric_digit : codepoint → bool;
  decimal_value : codepoint → option Z;
  decimal_value_range : ∀ c v, decimal_value c = Some v → 0 ≤ v ≤ 9;
  decimal_is_digit : ∀ c v, decimal_value c = Some v → numeric_digit c = true;
  decimal_value_ascii :
    ∀ k : N, (k < 10)%N → decimal_value (48 + k)%N = Some (Z.of_N k);
  str_strip : str → str;
  str_title : str → str
}.

(** ** Exceptions and results *)

Inductive exn :=
| ValueError (msg : string)
| IndexError
| NameError (name : string)
| IntegrityError
| TransactionManagementError
| ValidationError (errors : gmap string string)
| SerializerValidationError
| DoesNotExist
| Http404 (msg : string).

(** A computation without side effects that may raise. *)
Definition result (A : Type) : Type := exn + A.

#[global] Instance result_ret : MRet result := λ A a, inr a.
#[global] Instance result_bind : MBind result := λ A B f m,
  match m with inl e => inl e | inr a => f a end.

(** A [for x in l:] loop that updates one local variable. *)
Fixpoint for_in `{MBind M, MRet M} {A S}
    (l : list A) (body : S → A → M S) (s : S) : M S :=
  match l with
  | [] => mret s
  | x :: r => s' ← body s x; for_in r body s'
  end.

Section Python.
Context {U : Unicode}.

(** [s.isdigit()]: non-empty and every character passes the test. *)
Definition isdigit (s : str) : bool :=
  negb (bool_decide (s = [])) && forallb numeric_digit s.

(** [int(c)] for a one-character string. *)
Definition int_char (c : codepoint) : result Z :=
  match decimal_value c with
  | Some v => inr v
  | None => inl (ValueError "invalid literal for int() with base 10")
  end.

(** [str(n)] for an [int]. *)
Definition str_of_int (n : Z) : str := lit (NilZero.string_of_int (Z.to_int n)).

(** [str(x)] for [x : Union[str, int]]. *)
Definition py_str (x : str + Z) : str :=
  match x with inl s => s | inr n => str_of_int n end.

(** [sum(l)] on a list of [int]. *)
Definition py_sum (l : list Z) : Z := fold_left Z.add l 0.

(** Every [k]-th element of a list, starting with the first. *)
Fixpoint stride_from {A} (k skip : nat) (l : list A) : list A :=
  match l with
  | [] => []
  | x :: r =>
      match skip with
      | O => x :: stride_from k (Nat.pred k) r
      | S skip' => stride_from k skip' r
      end
  end.

(** The extended slice [l[start::step]] for a negative [step]: the start
    index is taken from the end when negative and clamped to the list,
    then the list is walked down to its first element. *)
Definition slice_down {A} (l : list A) (start step : Z) : list A :=
  let n := Z.of_nat (length l) in
  let s0 := if start <? 0 then start + n else start in
  let s := if s0 <? 0 then -1 else if n <=? s0 then n - 1 else s0 in
  stride_from (Z.to_nat (- step)) 0 (reverse (take (Z.to_nat (s + 1)) l)).

(** ** [core_apps/student/utils.py]: the check digit *)

Definition split_into_digits (n : str + Z) : result (list Z) :=
  mapM int_char (py_str n).

Definition calculate_luhn_check_digit (number : str) : result Z :=
  digits ← split_into_digits (inl number);
  let odd_digits := slice_down digits (-1) (-2) in
  let even_digits := slice_down digits (-2) (-2) in
  let total := py_sum odd_digits in
  total ← for_in even_digits (λ total d,
             let doubled := d * 2 in
             ds ← split_into_digits (inr doubled);
             mret (total + py_sum ds)) total;
  mret ((10 - (total `mod` 10)) `mod` 10).

End Python.

(** ** [core_apps/student/models.py]: the data model

    Model instances are plain records.  A foreign key holds the row it
    points at; two instances of one model are equal, as in
    [django.db.models.Model.__eq__], when their primary keys are.  A
    [DecimalField] with [decimal_places=2] is an integer number of
    hundredths.  The columns inherited from [TimeStampedModel] are left
    out, except the primary key of a transaction, which [clean] tests. *)

Abbreviation Decimal := Z (only parsing).

(** [bool(instance)] for a model instance: [Model] defines neither
    [__bool__] nor [__len__]. *)
Definition model_truthy {A} (instance : A) : bool := true.

Module User.
Record t := {
  pk : Z;
  role : option str;        (* [getattr(user, "role", None)] *)
  last_name : option str    (* [getattr(user, "last_name", None)] *)
}.
Definition eq (a b : t) : bool := bool_decide (pk a = pk b).
End User.

(** Modelled from the spec: [User.RoleChoices] is declared with the user
    model, outside the sources; the payer's role must equal "parent",
    which is also the fallback [clean] passes to [getattr]. *)
Definition RoleChoices_PARENT : str := lit "parent".

Module Student.
Definition Gender_MALE : str := lit "male".
Definition Gender_FEMALE : str := lit "female".
Definition Gender_OTHER : str := lit "other".
Definition Gender_choices : list (str * string) :=
  [(Gender_MALE, "Male"); (Gender_FEMALE, "Female"); (Gender_OTHER, "Other")]%string.

Definition AccountStatus_ACTIVE : str := lit "active".
Definition AccountStatus_INACTIVE : str := lit "in-active".

Record t := {
  parent : User.t;
  admission_number : str;
  first_name : str;
  last_name : str;
  gender : str;
  account_status : str;
  has_sibling : bool;
  verified_by : option User.t;
  verification_date : option Z;
  verification_notes : str;
  fully_activated : bool;
  image : option str;
  image_url : option str
}.

(** [Student(parent=..., admission_number=..., has_sibling=...,
    first_name=..., last_name=..., gender=...)]: the columns that are not
    given take the defaults the fields declare ([blank] text is empty,
    [null] columns are [None]). *)
Definition init (parent : User.t) (admission_number : str) (has_sibling : bool)
    (first_name last_name gender : str) : t :=
  {| parent := parent;
     admission_number := admission_number;
     first_name := first_name;
     last_name := last_name;
     gender := gender;
     account_status := AccountStatus_INACTIVE;
     has_sibling := has_sibling;
     verified_by := None;
     verification_date := None;
     verification_notes := [];
     fully_activated := false;
     image := None;
     image_url := None |}.

(** [has_sibling=value] in a queryset [update]. *)
Definition set_has_sibling (value : bool) (s : t) : t :=
  {| parent := parent s; admission_number := admission_number s;
     first_name := first_name s; last_name := last_name s;
     gender := gender s; account_status := account_status s;
     has_sibling := value; verified_by := verified_by s;
     verification_date := verification_date s;
     verification_notes := verification_notes s;
     fully_activated := fully_activated s;
     image := image s; image_url := image_url s |}.
End Student.

Module Fees.
Record t := {
  student : Student.t;
  fee_type : str;
  amount : Decimal
}.
End Fees.

Module TransactionItem.
Record t := {
  transaction_id : Z;
  fee : Fees.t;
  amount : Decimal
}.
End TransactionItem.

(** [queryset.aggregate(total=Sum("amount")).get("total")]: SQL [SUM] is
    [NULL] over no rows. *)
Definition aggregate_Sum_amount (items : list TransactionItem.t) : option Decimal :=
  match items with
  | [] => None
  | _ => Some (foldr Z.add 0 (TransactionItem.amount <$> items))
  end.

Module Transaction.
Record t := {
  pk : option Z;
  payer : User.t;
  amount : Decimal;
  description : option str;
  status : str;
  transaction_type : str
}.

(** [if self.pk:] *)
Definition pk_truthy (self : t) : bool :=
  match pk self with Some k => negb (k =? 0) | None => false end.

(** [self.items.all()], the reverse side of [TransactionItem.transaction]. *)
Definition items (table : list TransactionItem.t) (self : t) : list TransactionItem.t :=
  filter (λ ti, Some (TransactionItem.transaction_id ti) = pk self) table.

(** The condition of the comprehension that builds [invalid]. *)
Definition owner_differs (self : t) (ti : TransactionItem.t) : bool :=
  model_truthy (TransactionItem.fee ti)
  && model_truthy (Fees.student (TransactionItem.fee ti))
  && negb (User.eq (Student.parent (Fees.student (TransactionItem.fee ti)))
                   (payer self)).

(** [clean], reading the table of transaction items.  [payer] and
    [amount] are non-null columns, so [self.payer] is an instance and
    [self.amount is not None] holds. *)
Definition clean (table : list TransactionItem.t) (self : t) : result unit :=
  let errors : gmap string string := ∅ in
  let errors :=
    if model_truthy (payer self)
       && bool_decide (User.role (payer self) ≠ Some RoleChoices_PARENT)
    then <["payer" := "Payer must have role 'Parent'."]> errors
    else errors in
  let errors :=
    if amount self <=? 0
    then <["amount" := "Amount must be greater than 0."]> errors
    else errors in
  let errors :=
    if pk_truthy self then
      let items := items table self in
      let errors :=
        if negb (bool_decide (items ≠ []))
        then <["items" := "At least one fee item must be added to the transaction."]> errors
        else errors in
      let total := aggregate_Sum_amount items in
      let errors :=
        if bool_decide (total = None) || bool_decide (total ≠ Some (amount self))
        then <["items_amount" := "Sum of item amounts must equal the transaction amount."]> errors
        else errors in
      let invalid := filter (λ ti, owner_differs self ti = true) items in
      let errors :=
        if bool_decide (invalid ≠ [])
        then <["items_owner" := "All fee items must belong to students of the payer."]> errors
        else errors in
      errors
    else errors in
  if bool_decide (errors ≠ ∅) then inl (ValidationError errors) else inr ().

End Transaction.

(** ** The process: environment, random source, database connection *)

(** Modelled from the spec: the profile model and its serializer live in
    [core_apps/user_profile/models.py] and [serializers.py], outside the
    sources.  A profile belongs to one user and carries the fields a
    profile update mutates. *)
Module Profile.
Record t := {
  id : Z;
  user : User.t;
  fields : gmap string str
}.
End Profile.

(** The rows [record_profile_view] writes.  The model is declared in
    [core_apps/common/models.py], outside the sources; the columns are the
    ones the view passes to [update_or_create]. *)
Module ContentView.
Record t := {
  object_id : Z;
  user : User.t;
  viewer_ip : option str;
  last_viewed : Z
}.
End ContentView.

Record Database := {
  students : list Student.t;
  transaction_items : list TransactionItem.t;
  profiles : list Profile.t;
  content_views : list ContentView.t
}.

(** The callbacks handed to [transaction.on_commit]. *)
Inductive callback :=
| lambda_send_account_creation_email (user : User.t) (student_account : Student.t).

Record World := {
  environ : gmap string str;            (* [os.environ] *)
  entropy : nat → nat;                  (* the draws of the system random source *)
  drawn : nat;                          (* how many draws were consumed *)
  clock : Z;                            (* [timezone.now()] *)
  db : Database;                        (* the rows as the connection sees them *)
  in_atomic_block : bool;
  needs_rollback : bool;
  run_on_commit : list callback
}.

Definition with_students (f : list Student.t → list Student.t) (d : Database) : Database :=
  {| students := f (students d); transaction_items := transaction_items d;
     profiles := profiles d; content_views := content_views d |}.
Definition with_profiles (f : list Profile.t → list Profile.t) (d : Database) : Database :=
  {| students := students d; transaction_items := transaction_items d;
     profiles := f (profiles d); content_views := content_views d |}.
Definition with_content_views (f : list ContentView.t → list ContentView.t) (d : Database) : Database :=
  {| students := students d; transaction_items := transaction_items d;
     profiles := profiles d; content_views := f (content_views d) |}.

Definition set_drawn (n : nat) (w : World) : World :=
  {| environ := environ w; entropy := entropy w; drawn := n; clock := clock w;
     db := db w; in_atomic_block := in_atomic_block w;
     needs_rollback := needs_rollback w; run_on_commit := run_on_commit w |}.
Definition set_db (d : Database) (w : World) : World :=
  {| environ := environ w; entropy := entropy w; drawn := drawn w; clock := clock w;
     db := d; in_atomic_block := in_atomic_block w;
     needs_rollback := needs_rollback w; run_on_commit := run_on_commit w |}.
Definition set_in_atomic_block (b : bool) (w : World) : World :=
  {| environ := environ w; entropy := entropy w; drawn := drawn w; clock := clock w;
     db := db w; in_atomic_block := b;
     needs_rollback := needs_rollback w; run_on_commit := run_on_commit w |}.
Definition set_needs_rollback (b : bool) (w : World) : World :=
  {| environ := environ w; entropy := entropy w; drawn := drawn w; clock := clock w;
     db := db w; in_atomic_block := in_atomic_block w;
     needs_rollback := b; run_on_commit := run_on_commit w |}.
Definition set_run_on_commit (l : list callback) (w : World) : World :=
  {| environ := environ w; entropy := entropy w; drawn := drawn w; clock := clock w;
     db := db w; in_atomic_block := in_atomic_block w;
     needs_rollback := needs_rollback w; run_on_commit := l |}.

(** How a call ends: it returns, it raises, or (for the unbounded loop of
    [create_student_account]) it is still running when the fuel is spent. *)
Inductive outcome (A : Type) :=
| Return (a : A)
| Raise (e : exn)
| Running.
Arguments Return {A} a.
Arguments Raise {A} e.
Arguments Running {A}.

Definition M (A : Type) : Type := World → outcome A * World.

#[global] Instance M_ret : MRet M := λ A a w, (Return a, w).
#[global] Instance M_bind : MBind M := λ A B f m w,
  match m w with
  | (Return a, w') => f a w'
  | (Raise e, w') => (Raise e, w')
  | (Running, w') => (Running, w')
  end.

Definition raise {A} (e : exn) : M A := λ w, (Raise e, w).
Definition get_world : M World := λ w, (Return w, w).
Definition modify_world (f : World → World) : M unit := λ w, (Return (), f w).
Definition lift_result {A} (r : result A) : M A :=
  match r with inl e => raise e | inr a => mret a end.

(** [try: body / except E: handler], where [handler e] is [None] for an
    exception no clause catches. *)
Definition try_except {A} (body : M A) (handler : exn → option (M A)) : M A := λ w,
  match body w with
  | (Raise e, w') =>
      match handler e with
      | Some h => h w'
      | None => (Raise e, w')
      end
  | r => r
  end.

(** [n] rounds of a generator expression. *)
Fixpoint repeat_M {A} (n : nat) (m : M A) : M (list A) :=
  match n with
  | O => mret []
  | S n' => x ← m; xs ← repeat_M n' m; mret (x :: xs)
  end.

(** [os.getenv(name)] *)
Definition getenv (name : string) : M (option str) :=
  w ← get_world; mret (environ w !! name).

(** [secrets.choice(seq)]: [seq[randbelow(len(seq))]], [IndexError] on an
    empty sequence. *)
Definition secrets_choice (seq : str) : M codepoint :=
  w ← get_world;
  match seq !! (entropy w (drawn w) `mod` length seq)%nat with
  | Some c => _ ← modify_world (set_drawn (S (drawn w))); mret c
  | None => raise IndexError
  end.

(** ** [django.db]: statements, [transaction.atomic], [transaction.on_commit] *)

(** Before a statement runs, the connection refuses it when an earlier
    database error left the enclosing atomic block broken
    ([validate_no_broken_transaction]). *)
Definition execute : M unit :=
  w ← get_world;
  if needs_rollback w then raise TransactionManagementError else mret ().

(** [Model.save] runs its statements under [mark_for_rollback_on_error]:
    an error inside an atomic block marks the block for rollback and is
    raised again. *)
Definition mark_for_rollback_on_error {A} (body : M A) : M A :=
  try_except body (λ e, Some (
    w ← get_world;
    _ ← (if in_atomic_block w then modify_world (set_needs_rollback true) else mret ());
    raise e)).

(** Calling a registered callback.  The lambda of
    [create_student_account] calls [send_account_creation_email], a name
    that [utils.py] never binds: the module imports
    [core_apps.student.emails] as [StudentEmails] only. *)
Definition call_callback (f : callback) : M unit :=
  match f with
  | lambda_send_account_creation_email user student_account =>
      raise (NameError "send_account_creation_email")
  end.

Fixpoint run_callbacks (l : list callback) : M unit :=
  match l with
  | [] => mret ()
  | f :: r => _ ← call_callback f; run_callbacks r
  end.

Definition run_and_clear_commit_hooks : M unit :=
  w ← get_world;
  _ ← modify_world (set_run_on_commit []);
  run_callbacks (run_on_commit w).

(** [transaction.on_commit(func)] *)
Definition on_commit (func : callback) : M unit :=
  w ← get_world;
  if in_atomic_block w
  then modify_world (set_run_on_commit (run_on_commit w ++ [func]))
  else call_callback func.

Definition is_Return {A} (r : outcome A) : bool :=
  match r with Return _ => true | _ => false end.

(** [Atomic.__enter__]: the outermost block starts from a clean state, a
    nested block keeps the state of the block around it. *)
Definition atomic_enter (w : World) : World :=
  set_in_atomic_block true
    (if in_atomic_block w then w else set_needs_rollback false w).

(** [with transaction.atomic(): body].  The outermost block commits on a
    clean exit and then runs the commit hooks; otherwise it rolls back.
    A nested block is a savepoint (none is taken once the enclosing block
    is marked for rollback): released on a clean exit, rolled back to
    otherwise. *)
Definition atomic {A} (body : M A) : M A := λ w0,
  let nested := in_atomic_block w0 in
  let savepoint := nested && negb (needs_rollback w0) in
  match body (atomic_enter w0) with
  | (Running, w1) => (Running, w1)
  | (r, w1) =>
      let w1 := set_in_atomic_block nested w1 in
      if is_Return r && negb (needs_rollback w1) then
        if nested then (r, w1)
        else
          match run_and_clear_commit_hooks w1 with
          | (Return _, w2) => (r, w2)
          | (Raise e, w2) => (Raise e, w2)
          | (Running, w2) => (Running, w2)
          end
      else
        let w2 := set_needs_rollback false w1 in
        if nested then
          if savepoint
          then (r, set_run_on_commit (run_on_commit w0) (set_db (db w0) w2))
          else (r, set_needs_rollback true w2)
        else (r, set_run_on_commit [] (set_db (db w0) w2))
  end.

(** [Student.objects.filter(parent=user)] *)
Definition Student_filter_parent (user : User.t) (rows : list Student.t) : list Student.t :=
  filter (λ s, User.pk (Student.parent s) = User.pk user) rows.

(** [queryset.exists()] *)
Definition Student_filter_parent_exists (user : User.t) : M bool :=
  _ ← execute;
  w ← get_world;
  mret (bool_decide (Student_filter_parent user (students (db w)) ≠ [])).

(** [queryset.count()] *)
Definition Student_filter_parent_count (user : User.t) : M Z :=
  _ ← execute;
  w ← get_world;
  mret (Z.of_nat (length (Student_filter_parent user (students (db w))))).

(** [queryset.update(has_sibling=value)] *)
Definition Student_filter_parent_update_has_sibling (user : User.t) (value : bool) : M unit :=
  _ ← execute;
  w ← get_world;
  modify_world (set_db (with_students
    (fmap (λ s, if bool_decide (User.pk (Student.parent s) = User.pk user)
                then Student.set_has_sibling value s else s)) (db w))).

(** [Student.objects.create(...)]: the instance is built and saved with
    an insert, which fails with [IntegrityError] when the unique
    [admission_number] is taken. *)
Definition Student_objects_create
    (parent : User.t) (admission_number : str) (has_sibling : bool)
    (first_name last_name gender : str) : M Student.t :=
  let obj :=
    Student.init parent admission_number has_sibling first_name last_name gender in
  mark_for_rollback_on_error (
    _ ← execute;
    w ← get_world;
    if bool_decide (admission_number ∈ Student.admission_number <$> students (db w))
    then raise IntegrityError
    else
      _ ← modify_world (set_db (with_students (λ rows, rows ++ [obj]) (db w)));
      mret obj).

Section Enrolment.
Context {U : Unicode}.

(** ** [core_apps/student/utils.py] *)

Definition generate_admission_number (total_length : Z) : M str :=
  school_code ← getenv "SCHOOL_CODE";
  match school_code with
  | None => raise (ValueError "SCHOOL_CODE must be set and numeric.")
  | Some school_code =>
      if bool_decide (school_code = []) || negb (isdigit school_code)
      then raise (ValueError "SCHOOL_CODE must be set and numeric.")
      else
        let prefix := school_code in
        let remaining_digits := total_length - Z.of_nat (length prefix) - 1 in
        if remaining_digits <=? 0
        then raise (ValueError
               "SCHOOL_CODE too long for the configured admission number length.")
        else
          random_digits ← repeat_M (Z.to_nat remaining_digits)
                             (secrets_choice (lit "0123456789"));
          let partial_admission_number := prefix ++ random_digits in
          check_digit ← lift_result (calculate_luhn_check_digit partial_admission_number);
          mret (partial_admission_number ++ str_of_int check_digit)
  end.

(** [not s] for [s : str | None] *)
Definition falsy (s : option str) : bool :=
  match s with None => true | Some s => bool_decide (s = []) end.

(** The [while True:] loop of [create_student_account]; [fuel] bounds the
    number of rounds the model follows. *)
Fixpoint create_until_inserted (fuel : nat)
    (user : User.t) (has_sibling : bool) (first_name last_name gender : str)
    : M Student.t :=
  match fuel with
  | O => λ w, (Running, w)
  | S fuel' =>
      admission_number ← generate_admission_number 16;
      try_except
        (Student_objects_create user admission_number has_sibling
           (str_title (str_strip first_name)) (str_title (str_strip last_name)) gender)
        (λ e, match e with
              | IntegrityError =>
                  Some (create_until_inserted fuel' user has_sibling first_name last_name gender)
              | _ => None
              end)
  end.

Definition create_student_account (fuel : nat) (user : User.t)
    (first_name last_name gender : option str) : M Student.t :=
  let first_name := if falsy first_name then lit "Student" else default [] first_name in
  let last_name :=
    if falsy last_name
    then (if falsy (User.last_name user) then lit "Account"
          else default [] (User.last_name user))
    else default [] last_name in
  let gender := if falsy gender then Student.Gender_OTHER else default [] gender in
  let gender_values := fst <$> Student.Gender_choices in
  if negb (bool_decide (gender ∈ gender_values))
  then raise (ValueError "Invalid gender value. Allowed: ['female', 'male', 'other']")
  else
    student_account ← atomic (
      has_sibling ← Student_filter_parent_exists user;
      student_account ←
        create_until_inserted fuel user has_sibling first_name last_name gender;
      _ ← on_commit (lambda_send_account_creation_email user student_account);
      mret student_account);
    mret student_account.

End Enrolment.

(** ** [core_apps/user_profile/views.py]: [ProfileDetailAPIView] *)

Record Request := {
  request_user : User.t;
  data_profile : gmap string str;       (* the profile fields of [request.data] *)
  data_create_student : bool;           (* [bool(request.data.get("create_student", False))] *)
  data_student : gmap string str;       (* [request.data.get("student", {}) or {}] *)
  META_HTTP_X_FORWARDED_FOR : option str;
  META_REMOTE_ADDR : option str
}.

Inductive Response :=
| Response_200 (message : string) (data : gmap string str)
| Response_400_errors
| Response_400_error (e : exn).

(** Modelled from the spec: [ProfileSerializer] is declared in
    [core_apps/user_profile/serializers.py], outside the sources.
    [run_validation partial instance data] is the validated data, or
    [None] when [is_valid] raises. *)
Class ProfileSerializer := {
  run_validation : bool → Profile.t → gmap string str → option (gmap string str)
}.

Definition Profile_set_fields (fields : gmap string str) (p : Profile.t) : Profile.t :=
  {| Profile.id := Profile.id p; Profile.user := Profile.user p;
     Profile.fields := fields |}.

(** [Profile.objects.get(user=user)], a user having at most one profile. *)
Definition Profile_objects_get (user : User.t) : M Profile.t :=
  _ ← execute;
  w ← get_world;
  match filter (λ p, User.pk (Profile.user p) = User.pk user) (profiles (db w)) with
  | p :: _ => mret p
  | [] => raise DoesNotExist
  end.

(** [serializer.is_valid(raise_exception=True)] *)
Definition serializer_is_valid `{ProfileSerializer}
    (partial : bool) (instance : Profile.t) (data : gmap string str)
    : M (gmap string str) :=
  match run_validation partial instance data with
  | Some validated_data => mret validated_data
  | None => raise SerializerValidationError
  end.

(** [serializer.save()]: the validated fields are set on the instance,
    which is then saved. *)
Definition serializer_save (instance : Profile.t) (validated_data : gmap string str)
    : M Profile.t :=
  let updated_instance :=
    Profile_set_fields (validated_data ∪ Profile.fields instance) instance in
  mark_for_rollback_on_error (
    _ ← execute;
    w ← get_world;
    _ ← modify_world (set_db (with_profiles
           (fmap (λ p, if bool_decide (Profile.id p = Profile.id instance)
                       then updated_instance else p)) (db w)));
    mret updated_instance).

(** [x_forwarded_for.split(",")[0]] *)
Fixpoint before_comma (s : str) : str :=
  match s with
  | [] => []
  | c :: r => if bool_decide (c = 44%N) then [] else c :: before_comma r
  end.

Definition get_client_ip (request : Request) : option str :=
  let x_forwarded_for := META_HTTP_X_FORWARDED_FOR request in
  if negb (falsy x_forwarded_for)
  then Some (before_comma (default [] x_forwarded_for))
  else META_REMOTE_ADDR request.

(** [ContentView.objects.update_or_create(..., defaults={"last_viewed": now})] *)
Definition record_profile_view (request : Request) (profile : Profile.t) : M unit :=
  let viewer_ip := get_client_ip request in
  let user := request_user request in
  let same (v : ContentView.t) : bool :=
    bool_decide (ContentView.object_id v = Profile.id profile)
    && User.eq (ContentView.user v) user
    && bool_decide (ContentView.viewer_ip v = viewer_ip) in
  atomic (
    _ ← execute;
    w ← get_world;
    let stamped :=
      {| ContentView.object_id := Profile.id profile; ContentView.user := user;
         ContentView.viewer_ip := viewer_ip; ContentView.last_viewed := clock w |} in
    modify_world (set_db (with_content_views
      (λ rows, if existsb same rows
               then (λ v, if same v then stamped else v) <$> rows
               else rows ++ [stamped]) (db w)))).

Definition get_object (request : Request) : M Profile.t :=
  try_except
    (profile ← Profile_objects_get (request_user request);
     _ ← record_profile_view request profile;
     mret profile)
    (λ e, match e with
          | DoesNotExist => Some (raise (Http404 "Profile does not exist"))
          | _ => None
          end).

Section ProfileUpdate.
Context {U : Unicode} {PS : ProfileSerializer}.

Definition update (fuel : nat) (request : Request) (partial : bool) : M Response :=
  instance ← get_object request;
  try_except
    (validated_data ← serializer_is_valid partial instance (data_profile request);
     atomic (
       updated_instance ← serializer_save instance validated_data;
       let create_student := data_create_student request in
       let student_payload := data_student request in
       if create_student then
         let first_name := student_payload !! "first_name" in
         let last_name := student_payload !! "last_name" in
         let gender := student_payload !! "gender" in
         student_account ←
           create_student_account fuel (Profile.user updated_instance)
             first_name last_name gender;
         n ← Student_filter_parent_count (Profile.user updated_instance);
         _ ← (if 1 <? n
              then Student_filter_parent_update_has_sibling
                     (Profile.user updated_instance) true
              else mret ());
         let message :=
           "Profile updated and new student created successfully. An email has been sent to your account." in
         mret (Response_200 message (Profile.fields updated_instance))
       else
         let message := "Profile updated successfully." in
         mret (Response_200 message (Profile.fields updated_instance))))
    (λ e, match e with
          | SerializerValidationError => Some (mret Response_400_errors)
          | _ => Some (mret (Response_400_error e))
          end).

Definition partial_update (fuel : nat) (request : Request) : M Response :=
  update fuel request true.

End ProfileUpdate.

(** ** [core_apps/common/permissions.py] *)

(** [request.user] as the permission classes read it: whether it is
    authenticated, and its [role] attribute, [None] when
    [hasattr(request.user, "role")] is false (an anonymous user). *)
Module RequestUser.
Record t := {
  is_authenticated : bool;
  role : option str
}.
End RequestUser.

Module IsParent.
Definition has_permission (request_user : RequestUser.t) : bool :=
  let is_authenticated := RequestUser.is_authenticated request_user in
  let has_role_attr := bool_decide (is_Some (RequestUser.role request_user)) in
  is_authenticated
  && has_role_attr
  && bool_decide (RequestUser.role request_user = Some (lit "parent")).
End IsParent.

Module IsTeacher.
Definition has_permission (request_user : RequestUser.t) : bool :=
  let is_authenticated := RequestUser.is_authenticated request_user in
  let has_role_attr := bool_decide (is_Some (RequestUser.role request_user)) in
  is_authenticated
  && has_role_attr
  && bool_decide (RequestUser.role request_user = Some (lit "teacher")).
End IsTeacher.

Module IsOfficeStaff.
Definition has_permission (request_user : RequestUser.t) : bool :=
  let is_authenticated := RequestUser.is_authenticated request_user in
  let has_role_attr := bool_decide (is_Some (RequestUser.role request_user)) in
  is_authenticated
  && has_role_attr
  && bool_decide (RequestUser.role request_user = Some (lit "office_staff")).
End IsOfficeStaff.

(** ** [core_apps/student/admin.py]: [StudentAdmin] *)

(** [verified_by=value] and [verification_date=value] on an instance. *)
Definition Student_set_verified_by (value : option User.t) (s : Student.t) : Student.t :=
  {| Student.parent := Student.parent s;
     Student.admission_number := Student.admission_number s;
     Student.first_name := Student.first_name s;
     Student.last_name := Student.last_name s;
     Student.gender := Student.gender s;
     Student.account_status := Student.account_status s;
     Student.has_sibling := Student.has_sibling s;
     Student.verified_by := value;
     Student.verification_date := Student.verification_date s;
     Student.verification_notes := Student.verification_notes s;
     Student.fully_activated := Student.fully_activated s;
     Student.image := Student.image s;
     Student.image_url := Student.image_url s |}.

Definition Student_set_verification_date (value : option Z) (s : Student.t) : Student.t :=
  {| Student.parent := Student.parent s;
     Student.admission_number := Student.admission_number s;
     Student.first_name := Student.first_name s;
     Student.last_name := Student.last_name s;
     Student.gender := Student.gender s;
     Student.account_status := Student.account_status s;
     Student.has_sibling := Student.has_sibling s;
     Student.verified_by := Student.verified_by s;
     Student.verification_date := value;
     Student.verification_notes := Student.verification_notes s;
     Student.fully_activated := Student.fully_activated s;
     Student.image := Student.image s;
     Student.image_url := Student.image_url s |}.

(** [a == b] for [a, b : User | None]: equal keys, or both [None]. *)
Definition optional_user_eq (a b : option User.t) : bool :=
  match a, b with
  | Some a, Some b => User.eq a b
  | None, None => true
  | _, _ => false
  end.

Module StudentAdmin.

(** The admin addresses student rows by primary key: here the table is
    the map from keys to rows, with the last key its sequence gave out. *)
Record Table := {
  rows : gmap Z Student.t;
  sequence : Z
}.

(** The request, with the flags of [request.user] the admin reads. *)
Record HttpRequest := {
  user : User.t;
  user_is_superuser : bool;
  user_is_staff : bool
}.

(** A student instance: its key, [None] until it is saved, and its
    columns. *)
Record Instance := {
  pk : option Z;
  columns : Student.t
}.

(** [if obj.pk:] *)
Definition pk_truthy (obj : Instance) : bool :=
  match pk obj with Some k => negb (k =? 0) | None => false end.

(** [qs.filter(verified_by=request.user)] *)
Definition filter_verified_by (user : User.t) (qs : gmap Z Student.t) : gmap Z Student.t :=
  filter (λ kv, optional_user_eq (Student.verified_by kv.2) (Some user) = true) qs.

Definition get_queryset (request : HttpRequest) (table : Table) : gmap Z Student.t :=
  let qs := rows table in
  if user_is_superuser request then qs
  else filter_verified_by (user request) qs.

Definition has_change_permission (request : HttpRequest) (obj : option Instance) : bool :=
  match obj with
  | None => true
  | Some obj =>
      user_is_superuser request
      || optional_user_eq (Student.verified_by (columns obj)) (Some (user request))
  end.

(** [obj.save()]: an update of the row with the key of [obj], or an
    insert (under the next key of the sequence when [obj] has none).
    [IntegrityError] when another row holds the admission number, or
    when the key of an insert is taken. *)
Definition save (obj : Instance) (table : Table) : result (Instance * Table) :=
  let taken (key : Z) :=
    bool_decide (map_Exists (λ k s, k ≠ key
                                    ∧ Student.admission_number s
                                      = Student.admission_number (columns obj))
                            (rows table)) in
  match pk obj with
  | Some k =>
      if taken k then inl IntegrityError
      else inr (obj, {| rows := <[k := columns obj]> (rows table);
                        sequence := sequence table |})
  | None =>
      let k := sequence table + 1 in
      if taken k || bool_decide (is_Some (rows table !! k)) then inl IntegrityError
      else inr ({| pk := Some k; columns := columns obj |},
                {| rows := <[k := columns obj]> (rows table); sequence := k |})
  end.

Definition save_model (request : HttpRequest) (obj : Instance) (change : bool)
    (now : Z) (table : Table) : result (Instance * Table) :=
  (* Determine if verified_by changed or needs setting *)
  let prev_verified_by :=
    if change && pk_truthy obj then
      match pk obj ≫= (rows table !!.) with
      | Some prev => Student.verified_by prev
      | None => None
      end
    else None in
  (* Auto-set verified_by to current staff user if not provided *)
  let obj :=
    if negb (bool_decide (is_Some (Student.verified_by (columns obj))))
       && user_is_staff request
    then {| pk := pk obj;
            columns := Student_set_verified_by (Some (user request)) (columns obj) |}
    else obj in
  (* If verified_by was newly set or changed, update verification_date *)
  let should_set_date :=
    bool_decide (is_Some (Student.verified_by (columns obj)))
    && (negb change
        || negb (optional_user_eq prev_verified_by (Student.verified_by (columns obj)))) in
  let obj :=
    if should_set_date
    then {| pk := pk obj;
            columns := Student_set_verification_date (Some now) (columns obj) |}
    else obj in
  save obj table.

End StudentAdmin.

(** ** The check digit as the specification words it *)

(** A doubled digit, with a two-digit result replaced by the sum of its
    digits. *)
Definition doubled_digit_sum (d : Z) : Z :=
  let doubled := 2 * d in
  if 10 <=? doubled then doubled / 10 + doubled `mod` 10 else doubled.

(** The total over digits listed right to left; [odd] tells whether the
    head stands at an odd position from the right. *)
Fixpoint luhn_total (odd : bool) (right_to_left : list Z) : Z :=
  match right_to_left with
  | [] => 0
  | d :: rest =>
      (if odd then d else doubled_digit_sum d) + luhn_total (negb odd) rest
  end.

Definition luhn_check_digit (digits : list Z) : Z :=
  (10 - luhn_total true (reverse digits) `mod` 10) `mod` 10.

(** ** Concrete instances, for evaluating the model *)

(** An excerpt of the character database: the ASCII digits and the
    Arabic-Indic digits U+0660..U+0669 are decimal digits; superscript
    two, U+00B2, passes [isdigit] and is refused by [int]. *)
Definition ucd_excerpt : Unicode.
Proof.
  refine
    {| numeric_digit := λ c,
         ((48 <=? c) && (c <=? 57) || (1632 <=? c) && (c <=? 1641) || (c =? 178))%N;
       decimal_value := λ c,
         if ((48 <=? c) && (c <=? 57))%N then Some (Z.of_N (c - 48))
         else if ((1632 <=? c) && (c <=? 1641))%N then Some (Z.of_N (c - 1632))
         else None;
       str_strip := id;
       str_title := id |}.
  - intros c v.
    destruct ((48 <=? c) && (c <=? 57))%N eqn:E1;
      [|destruct ((1632 <=? c) && (c <=? 1641))%N eqn:E2; [|done]];
      intros [= <-];
      match goal with H : (_ && _)%N = true |- _ =>
        apply andb_true_iff in H as [Ha Hb]; apply N.leb_le in Ha, Hb; lia end.
  - intros c v.
    destruct ((48 <=? c) && (c <=? 57))%N eqn:E1; [done|].
    destruct ((1632 <=? c) && (c <=? 1641))%N eqn:E2; done.
  - intros k Hk.
    replace ((48 <=? 48 + k) && (48 + k <=? 57))%N with true
      by (symmetry; apply andb_true_iff; split; apply N.leb_le; lia).
    f_equal. lia.
Defined.

Definition empty_database : Database :=
  {| students := []; transaction_items := []; profiles := []; content_views := [] |}.

(** A process with [SCHOOL_CODE] set to [code], a random source whose
    [k]-th draw is [draws k], and the given rows. *)
Definition world_of (code : option str) (draws : nat → nat) (d : Database) : World :=
  {| environ := match code with Some c => {["SCHOOL_CODE" := c]} | None => ∅ end;
     entropy := draws; drawn := 0; clock := 0; db := d;
     in_atomic_block := false; needs_rollback := false; run_on_commit := [] |}.

Definition sample_parent : User.t :=
  {| User.pk := 1; User.role := Some (lit "parent"); User.last_name := Some (lit "Mathews") |}.

Definition other_parent : User.t :=
  {| User.pk := 2; User.role := Some (lit "parent"); User.last_name := Some (lit "Varghese") |}.

Definition student_of (parent : User.t) (admission_number : string) : Student.t :=
  {| Student.parent := parent;
     Student.admission_number := lit admission_number;
     Student.first_name := lit "Student";
     Student.last_name := default [] (User.last_name parent);
     Student.gender := Student.Gender_OTHER;
     Student.account_status := Student.AccountStatus_INACTIVE;
     Student.has_sibling := false;
     Student.verified_by := None;
     Student.verification_date := None;
     Student.verification_notes := [];
     Student.fully_activated := false;
     Student.image := None;
     Student.image_url := None |}.

Definition fee_of (parent : User.t) (fee_type : string) (amount : Decimal) : Fees.t :=
  {| Fees.student := student_of parent "4021000000000002";
     Fees.fee_type := lit fee_type; Fees.amount := amount |}.

Definition item_of (transaction_id : Z) (fee : Fees.t) (amount : Decimal) : TransactionItem.t :=
  {| TransactionItem.transaction_id := transaction_id;
     TransactionItem.fee := fee; TransactionItem.amount := amount |}.

(** A stored transaction of [sample_parent]. *)
Definition transaction_of (pk : Z) (amount : Decimal) : Transaction.t :=
  {| Transaction.pk := Some pk; Transaction.payer := sample_parent;
     Transaction.amount := amount; Transaction.description := None;
     Transaction.status := lit "pending"; Transaction.transaction_type := lit "upi" |}.

(** Transaction 7 bills a fee of another parent's student next to one of
    the payer's own; transaction 8 bills a different fee of another
    parent's student. *)
Definition foreign_tuition_item : TransactionItem.t :=
  item_of 7 (fee_of other_parent "tution_fee" 4000) 4000.
Definition foreign_bus_item : TransactionItem.t :=
  item_of 8 (fee_of other_parent "bus_fee" 10000) 10000.
Definition sample_items : list TransactionItem.t :=
  [ foreign_tuition_item;
    item_of 7 (fee_of sample_parent "bus_fee" 6000) 6000;
    foreign_bus_item ].

(** A serializer that accepts every payload. *)
Definition accept_all : ProfileSerializer :=
  {| run_validation := λ _ _ data, Some data |}.

Definition sample_profile : Profile.t :=
  {| Profile.id := 10; Profile.user := sample_parent;
     Profile.fields := {["city" := lit "Kochi"]} |}.

Definition sample_database : Database :=
  {| students := [student_of sample_parent "4021000000000002"];
     transaction_items := sample_items;
     profiles := [sample_profile];
     content_views := [] |}.

Definition sample_world : World :=
  world_of (Some (lit "4021")) (λ k, k) sample_database.

Definition request_with_child (gender : string) : Request :=
  {| request_user := sample_parent;
     data_profile := {["city" := lit "Thrissur"]};
     data_create_student := true;
     data_student := {["first_name" := lit "anu"; "gender" := lit gender]};
     META_HTTP_X_FORWARDED_FOR := None;
     META_REMOTE_ADDR := Some (lit "10.0.0.7") |}.

(** A member of staff, the request they send to the admin site, and a
    table with one student, whom nobody has verified. *)
Definition sample_staff : User.t :=
  {| User.pk := 5; User.role := Some (lit "office_staff");
     User.last_name := Some (lit "Joseph") |}.

Definition staff_request : StudentAdmin.HttpRequest :=
  {| StudentAdmin.user := sample_staff;
     StudentAdmin.user_is_superuser := false;
     StudentAdmin.user_is_staff := true |}.

Definition sample_table : StudentAdmin.Table :=
  {| StudentAdmin.rows := {[ 1 := student_of sample_parent "4021000000000002" ]};
     StudentAdmin.sequence := 1 |}.

(** ** Vocabulary of the specification *)

Section Vocabulary.
Context {U : Unicode}.

(** A string of decimal digits: every character is one [int] reads. *)
Definition decimal_digits (s : str) : Prop :=
  Forall (λ c, is_Some (decimal_value c)) s.

(** A numeric institution code: set, non-empty, made of decimal digits. *)
Definition numeric (code : str) : Prop := code ≠ [] ∧ decimal_digits code.

(** The values of the digits of a string, in order. *)
Definition digit_values (s : str) (digits : list Z) : Prop :=
  Forall2 (λ c v, decimal_value c = Some v) s digits.

End Vocabulary.

(** The next [n] characters the random source picks from "0123456789". *)
Definition random_digits (w : World) (n : nat) : str :=
  (λ i, (48 + N.of_nat (entropy w (drawn w + i) `mod` 10))%N) <$> seq 0 n.

(** A gender [create_student_account] accepts: absent or empty, or one of
    the three choices. *)
Definition valid_gender (gender : option str) : Prop :=
  falsy gender = true
  ∨ ∃ g, gender = Some g
         ∧ g ∈ [Student.Gender_MALE; Student.Gender_FEMALE; Student.Gender_OTHER].

(** A row as [create_student_account] inserts it for [user], given the
    rows the table held before the insert. *)
Definition enrolled (user : User.t) (before : list Student.t) (s : Student.t) : Prop :=
  Student.parent s = user
  ∧ Student.has_sibling s = bool_decide (Student_filter_parent user before ≠ [])
  ∧ Student.account_status s = Student.AccountStatus_INACTIVE
  ∧ Student.fully_activated s = false
  ∧ Student.verified_by s = None.

(** A transaction whose row exists: its key is set (an automatic key is
    never 0). *)
Definition persisted (self : Transaction.t) : Prop :=
  ∃ k, Transaction.pk self = Some k ∧ k ≠ 0.

(** The sum of the amounts of the line items of a transaction. *)
Definition item_sum (table : list TransactionItem.t) (self : Transaction.t) : Z :=
  foldr Z.add 0 (TransactionItem.amount <$> Transaction.items table self).

(** The parent who owns the student that the fee of an item belongs to. *)
Definition item_owner (ti : TransactionItem.t) : User.t :=
  Student.parent (Fees.student (TransactionItem.fee ti)).

(** The items of a transaction that belong to another parent's student. *)
Definition violating_items (table : list TransactionItem.t) (self : Transaction.t)
    : list TransactionItem.t :=
  filter (λ ti, User.pk (item_owner ti) ≠ User.pk (Transaction.payer self))
         (Transaction.items table self).

(** The message validation reports on a field, if any. *)
Definition reported (r : result unit) (field : string) : option string :=
  match r with
  | inl (ValidationError errors) => errors !! field
  | _ => None
  end.

(** A connection that takes statements: it is not inside an atomic block
    marked for rollback, and outside every block no callback waits for a
    commit. *)
Definition usable (w : World) : Prop :=
  needs_rollback w = false ∧ (in_atomic_block w = false → run_on_commit w = []).

(** The rows that record the views of [profile] by the user of [request]
    from the address of the request: the rows the lookup of
    [update_or_create] selects. *)
Definition views_of (request : Request) (profile : Profile.t)
    (rows : list ContentView.t) : list ContentView.t :=
  filter (λ v, ContentView.object_id v = Profile.id profile
               ∧ User.pk (ContentView.user v) = User.pk (request_user request)
               ∧ ContentView.viewer_ip v = get_client_ip request) rows.

(** The rows that record other views. *)
Definition other_views (request : Request) (profile : Profile.t)
    (rows : list ContentView.t) : list ContentView.t :=
  filter (λ v, ¬ (ContentView.object_id v = Profile.id profile
                  ∧ User.pk (ContentView.user v) = User.pk (request_user request)
                  ∧ ContentView.viewer_ip v = get_client_ip request)) rows.


(** No two rows of the admin's table carry one admission number. *)
Definition distinct_numbers (rows : gmap Z Student.t) : Prop :=
  ∀ k1 k2 s1 s2,
    rows !! k1 = Some s1 → rows !! k2 = Some s2 →
    Student.admission_number s1 = Student.admission_number s2 → k1 = k2.

(** * Properties *)

(** ** Python values *)

Section PythonFacts.
Context {U : Unicode}.

Lemma decimal_value_ascii_digit (c : codepoint) :
  (48 ≤ c ≤ 57)%N → decimal_value c = Some (Z.of_N c - 48).
Proof.
  intros Hc. replace c with (48 + (c - 48))%N at 1 by lia.
  rewrite decimal_value_ascii by lia. f_equal. lia.
Qed.

Lemma py_sum_acc (l : list Z) (a : Z) : fold_left Z.add l a = a + py_sum l.
Proof.
  unfold py_sum. revert a. induction l as [|x l IH]; intros a; cbn [fold_left]; [lia|].
  rewrite (IH (a + x)), (IH (0 + x)). lia.
Qed.

Lemma py_sum_cons (x : Z) (l : list Z) : py_sum (x :: l) = x + py_sum l.
Proof. unfold py_sum at 1. simpl. apply py_sum_acc. Qed.

Lemma mapM_int_char (s : str) (vs : list Z) :
  Forall2 (λ c v, decimal_value c = Some v) s vs →
  mapM int_char s = inr vs.
Proof.
  induction 1 as [|c v s vs Hc _ IH]; [reflexivity|].
  simpl. rewrite IH. unfold int_char. rewrite Hc. reflexivity.
Qed.

Lemma mapM_int_char_fails (s : str) :
  Exists (λ c, decimal_value c = None) s →
  mapM int_char s = inl (ValueError "invalid literal for int() with base 10").
Proof.
  induction 1 as [c s Hc|c s _ IH]; simpl.
  - unfold int_char. rewrite Hc. reflexivity.
  - rewrite IH. unfold int_char. destruct (decimal_value c); reflexivity.
Qed.

Lemma slice_down_last {A} (l : list A) :
  slice_down l (-1) (-2) = stride_from 2 0 (reverse l).
Proof.
  unfold slice_down. change (-1 <? 0) with true. cbv iota.
  change (Z.to_nat (- -2)) with 2%nat. f_equal. f_equal.
  destruct l as [|x l]; [reflexivity|].
  assert (Hn : 0 < Z.of_nat (length (x :: l))) by (simpl; lia).
  set (n := Z.of_nat (length (x :: l))) in *.
  destruct (Z.ltb_spec (-1 + n) 0); [lia|].
  destruct (Z.leb_spec n (-1 + n)); [lia|].
  replace (Z.to_nat (-1 + n + 1)) with (length (x :: l)) by lia.
  apply firstn_all.
Qed.

Lemma slice_down_last_but_one {A} (l : list A) :
  slice_down l (-2) (-2) = stride_from 2 1 (reverse l).
Proof.
  unfold slice_down. change (-2 <? 0) with true. cbv iota.
  change (Z.to_nat (- -2)) with 2%nat.
  destruct l as [|x l _] using rev_ind; [reflexivity|].
  rewrite reverse_snoc, length_app. cbn [stride_from length].
  f_equal. f_equal.
  set (n := Z.of_nat (length l + 1)).
  assert (n = Z.of_nat (length l) + 1) by lia.
  destruct (Z.leb_spec n (-2 + n)); [lia|].
  destruct (Z.ltb_spec (-2 + n) 0).
  - destruct l; [reflexivity|simpl in *; lia].
  - replace (Z.to_nat (-2 + n + 1)) with (length l) by lia.
    apply take_app_length.
Qed.

(** The digits of a doubled digit add up as the specification says. *)
Lemma split_into_digits_doubled (d : Z) :
  0 ≤ d ≤ 9 →
  ∃ ds, split_into_digits (inr (d * 2)) = inr ds ∧ py_sum ds = doubled_digit_sum d.
Proof.
  intros Hd.
  assert (Hcases : d = 0 ∨ d = 1 ∨ d = 2 ∨ d = 3 ∨ d = 4 ∨ d = 5 ∨ d = 6
                   ∨ d = 7 ∨ d = 8 ∨ d = 9) by lia.
  unfold split_into_digits, py_str.
  destruct Hcases as [->|[->|[->|[->|[->|[->|[->|[->|[->| ->]]]]]]]]];
    eexists; (split; [apply mapM_int_char; vm_compute str_of_int;
      repeat (constructor; [apply decimal_value_ascii_digit; lia|]); constructor
                     | reflexivity]).
Qed.

Lemma for_in_doubled (evens : list Z) (total : Z) :
  Forall (λ d, 0 ≤ d ≤ 9) evens →
  for_in (M := result) evens
    (λ total d, ds ← split_into_digits (inr (d * 2)); mret (total + py_sum ds)) total
  = inr (total + py_sum (doubled_digit_sum <$> evens)).
Proof.
  intros Hall. revert total.
  induction Hall as [|d evens Hd _ IH]; intros total; cbn [for_in].
  - unfold py_sum. simpl. unfold mret, result_ret. f_equal. lia.
  - destruct (split_into_digits_doubled d Hd) as (ds & -> & Hds).
    cbn [mbind result_bind mret result_ret].
    rewrite IH, fmap_cons, py_sum_cons, Hds. f_equal. lia.
Qed.

(** The two slices of the source against the positions of the
    specification. *)
Lemma luhn_total_strides (r : list Z) :
  luhn_total true r
    = py_sum (stride_from 2 0 r) + py_sum (doubled_digit_sum <$> stride_from 2 1 r)
  ∧ luhn_total false r
    = py_sum (stride_from 2 1 r) + py_sum (doubled_digit_sum <$> stride_from 2 0 r).
Proof.
  induction r as [|d r [IHt IHf]]; [split; reflexivity|].
  cbn [luhn_total stride_from negb Nat.pred]. rewrite IHt, IHf.
  rewrite fmap_cons, !py_sum_cons. split; lia.
Qed.

Lemma Forall_stride_from {A} (P : A → Prop) (k skip : nat) (l : list A) :
  Forall P l → Forall P (stride_from k skip l).
Proof.
  intros Hall. revert skip.
  induction Hall as [|x l Hx _ IH]; intros skip; [constructor|].
  destruct skip; cbn [stride_from]; auto.
Qed.

(** [calculate_luhn_check_digit] computes the check digit of the
    specification. *)
Lemma calculate_luhn_check_digit_spec (number : str) (digits : list Z) :
  Forall2 (λ c v, decimal_value c = Some v) number digits →
  calculate_luhn_check_digit number = inr (luhn_check_digit digits).
Proof.
  intros Hdigits. unfold calculate_luhn_check_digit.
  replace (split_into_digits (inl number)) with (inr digits : result (list Z))
    by (symmetry; apply mapM_int_char, Hdigits).
  cbn [mbind result_bind].
  rewrite slice_down_last, slice_down_last_but_one.
  assert (Hrange : Forall (λ d, 0 ≤ d ≤ 9) digits).
  { clear -Hdigits. induction Hdigits; constructor; eauto using decimal_value_range. }
  rewrite for_in_doubled
    by (apply Forall_stride_from, Forall_reverse, Hrange).
  cbn. unfold luhn_check_digit.
  rewrite (proj1 (luhn_total_strides (reverse digits))). reflexivity.
Qed.

Lemma calculate_luhn_check_digit_fails (number : str) :
  Exists (λ c, decimal_value c = None) number →
  calculate_luhn_check_digit number
    = inl (ValueError "invalid literal for int() with base 10").
Proof.
  intros Hbad. unfold calculate_luhn_check_digit.
  replace (split_into_digits (inl number))
    with (inl (ValueError "invalid literal for int() with base 10") : result (list Z))
    by (symmetry; apply mapM_int_char_fails, Hbad).
  reflexivity.
Qed.

Lemma luhn_check_digit_range (digits : list Z) : 0 ≤ luhn_check_digit digits ≤ 9.
Proof.
  unfold luhn_check_digit.
  pose proof (Z.mod_pos_bound (10 - luhn_total true (reverse digits) `mod` 10) 10).
  lia.
Qed.

Lemma str_of_int_digit (d : Z) :
  0 ≤ d ≤ 9 → str_of_int d = [(48 + Z.to_N d)%N].
Proof.
  intros Hd.
  assert (Hcases : d = 0 ∨ d = 1 ∨ d = 2 ∨ d = 3 ∨ d = 4 ∨ d = 5 ∨ d = 6
                   ∨ d = 7 ∨ d = 8 ∨ d = 9) by lia.
  destruct Hcases as [->|[->|[->|[->|[->|[->|[->|[->|[->| ->]]]]]]]]]; reflexivity.
Qed.

End PythonFacts.

(** ** The identifier issuer *)

Lemma secrets_choice_digit (w : World) :
  secrets_choice (lit "0123456789") w
  = (Return (48 + N.of_nat (entropy w (drawn w) `mod` 10))%N, set_drawn (S (drawn w)) w).
Proof.
  unfold secrets_choice, get_world, mbind, M_bind.
  change (length (lit "0123456789")) with 10%nat.
  pose proof (Nat.mod_upper_bound (entropy w (drawn w)) 10) as Hlt.
  set (m := (entropy w (drawn w) `mod` 10)%nat) in *.
  do 10 (destruct m as [|m]; [reflexivity|]). lia.
Qed.

Lemma random_digits_S (w : World) (n : nat) :
  random_digits w (S n)
  = (48 + N.of_nat (entropy w (drawn w) `mod` 10))%N
      :: random_digits (set_drawn (S (drawn w)) w) n.
Proof.
  unfold random_digits. cbn [seq fmap list_fmap]. rewrite Nat.add_0_r. f_equal.
  rewrite <- fmap_S_seq, <- list_fmap_compose.
  apply list_fmap_ext. intros _ i _. cbn. rewrite Nat.add_succ_r. reflexivity.
Qed.

Lemma repeat_M_secrets_choice (n : nat) (w : World) :
  repeat_M n (secrets_choice (lit "0123456789")) w
  = (Return (random_digits w n), set_drawn (drawn w + n) w).
Proof.
  revert w. induction n as [|n IH]; intros w.
  - destruct w. cbn. rewrite Nat.add_0_r. reflexivity.
  - cbn [repeat_M]. unfold mbind, M_bind at 1.
    rewrite secrets_choice_digit. unfold M_bind at 1. rewrite IH.
    rewrite random_digits_S. cbn. rewrite Nat.add_succ_r. reflexivity.
Qed.

Lemma random_digits_length (w : World) (n : nat) : length (random_digits w n) = n.
Proof. unfold random_digits. rewrite length_fmap. apply length_seq. Qed.

Section Issuer.
Context {U : Unicode}.

Lemma random_digits_values (w : World) (n : nat) :
  ∃ digits, digit_values (random_digits w n) digits.
Proof.
  unfold random_digits, digit_values.
  induction (seq 0 n) as [|i l [digits IH]]; [exists []; constructor|].
  eexists (_ :: digits). rewrite fmap_cons. constructor; [|exact IH].
  apply decimal_value_ascii.
  pose proof (Nat.mod_upper_bound (entropy w (drawn w + i)) 10). lia.
Qed.

Lemma digit_values_decimal (s : str) (digits : list Z) :
  digit_values s digits → decimal_digits s.
Proof. induction 1; constructor; eauto. Qed.

Lemma decimal_digits_values (s : str) :
  decimal_digits s → ∃ digits, digit_values s digits.
Proof.
  induction 1 as [|c s [v Hv] _ [digits IH]]; [exists []; constructor|].
  exists (v :: digits). constructor; assumption.
Qed.

Lemma not_decimal_digits (s : str) :
  ¬ decimal_digits s → Exists (λ c, decimal_value c = None) s.
Proof.
  intros Hnot. apply not_Forall_Exists in Hnot; [|intros c; apply _].
  eapply Exists_impl; [exact Hnot|]. intros c Hc. cbn in Hc.
  destruct (decimal_value c); [exfalso; eauto|reflexivity].
Qed.

Lemma decimal_digits_isdigit (s : str) : numeric s → isdigit s = true.
Proof.
  intros [Hne Hall]. unfold isdigit.
  rewrite bool_decide_eq_false_2 by assumption. cbn.
  apply forallb_forall. intros c Hc.
  eapply Forall_forall in Hall as [v Hv]; [|apply list_elem_of_In, Hc].
  eapply decimal_is_digit, Hv.
Qed.

(** The source, with the monad unfolded. *)
Lemma generate_admission_number_eq (total_length : Z) (w : World) :
  generate_admission_number total_length w =
  match environ w !! "SCHOOL_CODE" with
  | None => (Raise (ValueError "SCHOOL_CODE must be set and numeric."), w)
  | Some code =>
      if bool_decide (code = []) || negb (isdigit code)
      then (Raise (ValueError "SCHOOL_CODE must be set and numeric."), w)
      else
        let remaining := total_length - Z.of_nat (length code) - 1 in
        if remaining <=? 0
        then (Raise (ValueError
                "SCHOOL_CODE too long for the configured admission number length."), w)
        else
          let w' := set_drawn (drawn w + Z.to_nat remaining) w in
          let partial := code ++ random_digits w (Z.to_nat remaining) in
          match calculate_luhn_check_digit partial with
          | inl e => (Raise e, w')
          | inr check_digit => (Return (partial ++ str_of_int check_digit), w')
          end
  end.
Proof.
  unfold generate_admission_number, getenv, get_world, mbind, M_bind.
  cbn [mret M_ret].
  destruct (environ w !! "SCHOOL_CODE") as [code|]; [|reflexivity].
  destruct (_ || _); [reflexivity|].
  cbv zeta. destruct (_ <=? 0); [reflexivity|].
  rewrite repeat_M_secrets_choice. unfold lift_result.
  destruct (calculate_luhn_check_digit _); reflexivity.
Qed.

(** What the call does once the code has passed the two checks. *)
Lemma generate_admission_number_checked (total_length : Z) (w : World) (code : str) :
  environ w !! "SCHOOL_CODE" = Some code →
  code ≠ [] → isdigit code = true →
  0 < total_length - Z.of_nat (length code) - 1 →
  let remaining := Z.to_nat (total_length - Z.of_nat (length code) - 1) in
  let partial := code ++ random_digits w remaining in
  generate_admission_number total_length w =
  match calculate_luhn_check_digit partial with
  | inl e => (Raise e, set_drawn (drawn w + remaining) w)
  | inr check_digit =>
      (Return (partial ++ str_of_int check_digit), set_drawn (drawn w + remaining) w)
  end.
Proof.
  intros Henv Hne Hdigit Hremaining remaining partial.
  rewrite generate_admission_number_eq, Henv.
  rewrite bool_decide_eq_false_2 by assumption. rewrite Hdigit. cbn [negb orb].
  cbv zeta. destruct (Z.leb_spec (total_length - Z.of_nat (length code) - 1) 0); [lia|].
  reflexivity.
Qed.

(** A numeric code that leaves room for a random digit gets a number. *)
Lemma generate_admission_number_issues (code : str) (total_length : Z) (w : World) :
  environ w !! "SCHOOL_CODE" = Some code →
  numeric code →
  0 < total_length - Z.of_nat (length code) - 1 →
  ∃ number, fst (generate_admission_number total_length w) = Return number.
Proof.
  intros Henv Hnumeric Hroom.
  rewrite (generate_admission_number_checked total_length w code)
    by (try apply Hnumeric; auto using decimal_digits_isdigit).
  destruct (decimal_digits_values code (proj2 Hnumeric)) as [code_digits Hcode].
  destruct (random_digits_values w
              (Z.to_nat (total_length - Z.of_nat (length code) - 1)))
    as [random_values Hrandom].
  rewrite (calculate_luhn_check_digit_spec _ (code_digits ++ random_values))
    by (apply Forall2_app; assumption).
  eexists. reflexivity.
Qed.

(** C1. For every numeric institution code and every [total_length] that
    leaves room for at least one random digit, [generate_admission_number]
    returns a string of exactly [total_length] characters, all of them
    digits, that begins with the institution code and whose last digit is
    the Luhn check digit of the digits before it. *)
Theorem generate_admission_number_luhn (code : str) (total_length : Z) (w : World) :
  environ w !! "SCHOOL_CODE" = Some code →
  numeric code →
  total_length - Z.of_nat (length code) - 1 > 0 →
  ∃ (number : str) (w' : World),
    generate_admission_number total_length w = (Return number, w')
    ∧ Z.of_nat (length number) = total_length
    ∧ decimal_digits number
    ∧ code `prefix_of` number
    ∧ ∃ (preceding : str) (last : codepoint) (digits : list Z),
        number = preceding ++ [last]
        ∧ digit_values preceding digits
        ∧ decimal_value last = Some (luhn_check_digit digits).
Proof.
  intros Henv Hnumeric Hroom.
  pose proof (decimal_digits_isdigit code Hnumeric) as Hisdigit.
  destruct Hnumeric as [Hne Hdecimal].
  rewrite (generate_admission_number_checked total_length w code)
    by (assumption || lia).
  set (remaining := Z.to_nat (total_length - Z.of_nat (length code) - 1)).
  destruct (decimal_digits_values code Hdecimal) as [code_digits Hcode].
  destruct (random_digits_values w remaining) as [random_values Hrandom].
  assert (Hpartial : digit_values (code ++ random_digits w remaining)
                       (code_digits ++ random_values))
    by (apply Forall2_app; assumption).
  rewrite (calculate_luhn_check_digit_spec _ _ Hpartial).
  set (check := luhn_check_digit (code_digits ++ random_values)).
  pose proof (luhn_check_digit_range (code_digits ++ random_values)) as Hcheck.
  fold check in Hcheck. rewrite (str_of_int_digit check Hcheck).
  assert (Hlast : decimal_value (48 + Z.to_N check)%N = Some check).
  { rewrite decimal_value_ascii by lia. f_equal. lia. }
  eexists _, _. split; [reflexivity|]. repeat split.
  - rewrite !length_app, random_digits_length. cbn [length]. lia.
  - apply Forall_app. split; [eapply digit_values_decimal, Hpartial|].
    constructor; [eauto|constructor].
  - exists (random_digits w remaining ++ [(48 + Z.to_N check)%N]).
    rewrite <- app_assoc. reflexivity.
  - exists (code ++ random_digits w remaining), (48 + Z.to_N check)%N,
      (code_digits ++ random_values).
    repeat split; assumption.
Qed.

(** A numeric code the first check lets through and [int] refuses makes
    the call raise while it computes the check digit. *)
Lemma generate_admission_number_refused_digit (total_length : Z) (w : World) (code : str) :
  environ w !! "SCHOOL_CODE" = Some code →
  code ≠ [] → isdigit code = true → ¬ decimal_digits code →
  0 < total_length - Z.of_nat (length code) - 1 →
  fst (generate_admission_number total_length w)
  = Raise (ValueError "invalid literal for int() with base 10").
Proof.
  intros Henv Hne Hisdigit Hnot Hroom.
  rewrite (generate_admission_number_checked total_length w code)
    by assumption.
  rewrite calculate_luhn_check_digit_fails; [reflexivity|].
  apply Exists_app. left. apply not_decimal_digits, Hnot.
Qed.

(** C8. [generate_admission_number] raises, and returns nothing, exactly
    when the institution code is unset or not numeric, or when
    [total_length - len(prefix) - 1 <= 0]; the exception is a [ValueError]
    (the configuration error of the specification), and the retry loop of
    [create_student_account] lets it through after this one call. *)
Theorem generate_admission_number_failure (total_length : Z) (w : World) :
  let code := environ w !! "SCHOOL_CODE" in
  ((∃ e, fst (generate_admission_number total_length w) = Raise e)
   ↔ (code = None
      ∨ (∃ c, code = Some c ∧ ¬ numeric c)
      ∨ (∃ c, code = Some c ∧ total_length - Z.of_nat (length c) - 1 ≤ 0)))
  ∧ (∀ e, fst (generate_admission_number total_length w) = Raise e →
          ∃ msg, e = ValueError msg)
  ∧ fst (generate_admission_number total_length w) ≠ Running
  ∧ (∀ e w' fuel user has_sibling first_name last_name gender,
       generate_admission_number 16 w = (Raise e, w') →
       create_until_inserted (S fuel) user has_sibling first_name last_name gender w
       = (Raise e, w')).
Proof.
  cbv zeta.
  assert (Hcases :
    (environ w !! "SCHOOL_CODE" = None
     ∨ (∃ c, environ w !! "SCHOOL_CODE" = Some c ∧ ¬ numeric c)
     ∨ (∃ c, environ w !! "SCHOOL_CODE" = Some c
             ∧ total_length - Z.of_nat (length c) - 1 ≤ 0))
    ∧ (∃ msg, fst (generate_admission_number total_length w) = Raise (ValueError msg))
    ∨ (∃ c, environ w !! "SCHOOL_CODE" = Some c ∧ numeric c
            ∧ total_length - Z.of_nat (length c) - 1 > 0)
      ∧ (∃ number, fst (generate_admission_number total_length w) = Return number)).
  { destruct (environ w !! "SCHOOL_CODE") as [code|] eqn:Henv.
    2:{ left. split; [by left|]. rewrite generate_admission_number_eq, Henv. eauto. }
    destruct (Z.le_gt_cases (total_length - Z.of_nat (length code) - 1) 0) as [Hle|Hgt].
    { left. split; [right; right; eauto|].
      rewrite generate_admission_number_eq, Henv.
      destruct (_ || _); [eauto|]. cbv zeta.
      destruct (Z.leb_spec (total_length - Z.of_nat (length code) - 1) 0); [eauto|lia]. }
    destruct (decide (code = [])) as [->|Hne].
    { left. split; [right; left; exists []; split; [done|by intros [? _]]|].
      rewrite generate_admission_number_eq, Henv. eauto. }
    destruct (isdigit code) eqn:Hisdigit.
    2:{ left. split.
        - right; left. exists code. split; [done|]. intros Hnum.
          apply decimal_digits_isdigit in Hnum. congruence.
        - rewrite generate_admission_number_eq, Henv, Hisdigit.
          rewrite orb_true_r. eauto. }
    destruct (decide (decimal_digits code)) as [Hdec|Hnot].
    - right. split; [exists code; repeat split; done || lia|].
      destruct (generate_admission_number_issues code total_length w)
        as [number Hrun]; [done|by split|lia|]. eauto.
    - left. split; [right; left; exists code; split; [done|by intros [_ ?]]|].
      erewrite generate_admission_number_refused_digit by (eassumption || lia).
      eauto. }
  split; [|split; [|split]].
  - split.
    + intros [e He]. destruct Hcases as [[Hwhy _]|[_ [number Hnumber]]]; [exact Hwhy|].
      congruence.
    + intros Hwhy. destruct Hcases as [[_ [msg Hmsg]]|[(c & Hc & Hnum & Hroom) _]]; [eauto|].
      exfalso. destruct Hwhy as [Hnone|[(c' & Hc' & Hnot)|(c' & Hc' & Hle)]];
        simplify_eq; [done|lia].
  - intros e He. destruct Hcases as [[_ [msg Hmsg]]|[_ [number Hnumber]]];
      [|congruence]. exists msg. congruence.
  - destruct Hcases as [[_ [msg Hmsg]]|[_ [number Hnumber]]]; congruence.
  - intros e w' fuel user has_sibling first_name last_name gender Hrun.
    cbn [create_until_inserted]. unfold mbind, M_bind. rewrite Hrun. reflexivity.
Qed.

End Issuer.

(** ** The transaction ledger *)

Lemma persisted_pk_truthy (self : Transaction.t) :
  persisted self ↔ Transaction.pk_truthy self = true.
Proof.
  unfold persisted, Transaction.pk_truthy. split.
  - intros (k & -> & Hk). apply negb_true_iff, Z.eqb_neq, Hk.
  - destruct (Transaction.pk self) as [k|]; [|done].
    intros Hk. exists k. split; [done|]. apply Z.eqb_neq, negb_true_iff, Hk.
Qed.

Lemma aggregate_Sum_amount_items (table : list TransactionItem.t) (self : Transaction.t) :
  aggregate_Sum_amount (Transaction.items table self)
  = if bool_decide (Transaction.items table self = []) then None
    else Some (item_sum table self).
Proof.
  unfold item_sum. destruct (Transaction.items table self); reflexivity.
Qed.

Lemma invalid_violating_items (table : list TransactionItem.t) (self : Transaction.t) :
  filter (λ ti, Transaction.owner_differs self ti = true) (Transaction.items table self)
  = violating_items table self.
Proof.
  unfold violating_items. apply list_filter_iff. intros ti.
  unfold Transaction.owner_differs, model_truthy, User.eq, item_owner. cbn [andb].
  rewrite negb_true_iff, bool_decide_eq_false. reflexivity.
Qed.

Lemma aggregate_mismatch (none : bool) (total amount : Z) :
  bool_decide ((if none then None else Some total) = None)
  || bool_decide ((if none then None else Some total) ≠ Some amount)
  = none || bool_decide (total ≠ amount).
Proof.
  destruct none; [reflexivity|]. cbn [orb].
  rewrite bool_decide_eq_false_2 by discriminate. cbn [orb].
  apply bool_decide_ext. split; congruence.
Qed.

(** [clean] with its tests in the vocabulary of the specification. *)
Lemma clean_eq (table : list TransactionItem.t) (self : Transaction.t) :
  Transaction.clean table self =
  let errors : gmap string string := ∅ in
  let errors :=
    if bool_decide (User.role (Transaction.payer self) ≠ Some RoleChoices_PARENT)
    then <["payer" := "Payer must have role 'Parent'."%string]> errors
    else errors in
  let errors :=
    if Transaction.amount self <=? 0
    then <["amount" := "Amount must be greater than 0."%string]> errors
    else errors in
  let errors :=
    if Transaction.pk_truthy self then
      let errors :=
        if bool_decide (Transaction.items table self = [])
        then <["items" := "At least one fee item must be added to the transaction."%string]> errors
        else errors in
      let errors :=
        if bool_decide (Transaction.items table self = [])
           || bool_decide (item_sum table self ≠ Transaction.amount self)
        then <["items_amount" := "Sum of item amounts must equal the transaction amount."%string]> errors
        else errors in
      let errors :=
        if bool_decide (violating_items table self ≠ [])
        then <["items_owner" := "All fee items must belong to students of the payer."%string]> errors
        else errors in
      errors
    else errors in
  if bool_decide (errors ≠ ∅) then inl (ValidationError errors) else inr ().
Proof.
  unfold Transaction.clean. cbv zeta.
  rewrite invalid_violating_items, aggregate_Sum_amount_items.
  rewrite aggregate_mismatch, (bool_decide_not (Transaction.items table self = [])).
  rewrite negb_involutive. unfold model_truthy. cbn [andb].
  reflexivity.
Qed.

(** What [clean] reports, field by field. *)
Lemma clean_reported (table : list TransactionItem.t) (self : Transaction.t) :
  let c_payer := bool_decide (User.role (Transaction.payer self) ≠ Some RoleChoices_PARENT) in
  let c_amount := Transaction.amount self <=? 0 in
  let c_row := Transaction.pk_truthy self in
  let c_items := c_row && bool_decide (Transaction.items table self = []) in
  let c_sum := c_row && (bool_decide (Transaction.items table self = [])
                         || bool_decide (item_sum table self ≠ Transaction.amount self)) in
  let c_owner := c_row && bool_decide (violating_items table self ≠ []) in
  let r := Transaction.clean table self in
  reported r "payer"
    = (if c_payer then Some "Payer must have role 'Parent'."%string else None)
  ∧ reported r "amount"
    = (if c_amount then Some "Amount must be greater than 0."%string else None)
  ∧ reported r "items"
    = (if c_items
       then Some "At least one fee item must be added to the transaction."%string
       else None)
  ∧ reported r "items_amount"
    = (if c_sum
       then Some "Sum of item amounts must equal the transaction amount."%string
       else None)
  ∧ reported r "items_owner"
    = (if c_owner
       then Some "All fee items must belong to students of the payer."%string
       else None)
  ∧ (if c_payer || c_amount || c_items || c_sum || c_owner
     then ∃ errors, r = inl (ValidationError errors)
     else r = inr ()).
Proof.
  rewrite clean_eq.
  generalize (bool_decide (User.role (Transaction.payer self) ≠ Some RoleChoices_PARENT)).
  generalize (Transaction.amount self <=? 0).
  generalize (Transaction.pk_truthy self).
  generalize (bool_decide (Transaction.items table self = [])).
  generalize (bool_decide (item_sum table self ≠ Transaction.amount self)).
  generalize (bool_decide (violating_items table self ≠ [])).
  intros [] [] [] [] [] []; cbv beta iota zeta; cbn [andb orb];
    (split; [|split; [|split; [|split; [|split]]]];
     [vm_compute; reflexivity ..
     |match goal with
      | |- ∃ _, (if ?b then _ else _) = _ =>
          eexists; replace b with true by (vm_compute; reflexivity); reflexivity
      | |- _ => vm_compute; reflexivity
      end]).
Qed.

Lemma violating_items_nonempty (table : list TransactionItem.t) (self : Transaction.t) :
  violating_items table self ≠ []
  ↔ ∃ ti, ti ∈ Transaction.items table self
          ∧ User.pk (item_owner ti) ≠ User.pk (Transaction.payer self).
Proof.
  unfold violating_items. split.
  - intros Hne. destruct (filter _ _) as [|ti l] eqn:Hfilter; [done|].
    assert (Hti : ti ∈ filter (λ ti, User.pk (item_owner ti)
                                      ≠ User.pk (Transaction.payer self))
                              (Transaction.items table self))
      by (rewrite Hfilter; left).
    apply list_elem_of_filter in Hti as [Hdiffers Hin]. eauto.
  - intros (ti & Hin & Hdiffers) Hnil.
    assert (Hti : ti ∈ filter (λ ti, User.pk (item_owner ti)
                                      ≠ User.pk (Transaction.payer self))
                              (Transaction.items table self))
      by (apply list_elem_of_filter; done).
    rewrite Hnil in Hti. by apply not_elem_of_nil in Hti.
Qed.

Lemma if_is_Some {A} (b : bool) (a : A) : is_Some (if b then Some a else None) ↔ b = true.
Proof.
  destruct b.
  - split; [reflexivity|]. intros _. exists a. reflexivity.
  - split; [intros [x Hx]; discriminate Hx|discriminate].
Qed.

(** C2. For a persisted transaction, an error is reported on
    [items_amount] exactly when the transaction has no line items or the
    sum of its line-item amounts differs from the declared amount (exact
    equality); whatever this check finds, each other check reports on its
    own condition alone. *)
Theorem items_amount_reported_iff (table : list TransactionItem.t) (self : Transaction.t) :
  persisted self →
  let r := Transaction.clean table self in
  (is_Some (reported r "items_amount")
   ↔ Transaction.items table self = []
     ∨ item_sum table self ≠ Transaction.amount self)
  ∧ (is_Some (reported r "payer")
     ↔ User.role (Transaction.payer self) ≠ Some (lit "parent"))
  ∧ (is_Some (reported r "amount") ↔ Transaction.amount self ≤ 0)
  ∧ (is_Some (reported r "items") ↔ Transaction.items table self = [])
  ∧ (is_Some (reported r "items_owner") ↔ violating_items table self ≠ []).
Proof.
  intros Hrow%persisted_pk_truthy r. subst r.
  destruct (clean_reported table self) as (Hpayer & Hamount & Hitems & Hsum & Howner & _).
  rewrite Hrow in Hitems, Hsum, Howner. cbn [andb] in Hitems, Hsum, Howner.
  rewrite Hpayer, Hamount, Hitems, Hsum, Howner, !if_is_Some.
  rewrite orb_true_iff, !bool_decide_eq_true, Z.leb_le. done.
Qed.

(** The example of the specification, with amounts in hundredths: items
    of 40.00 and 60.00 against a declared 90.00. *)
Lemma items_amount_reported_iff_witness :
  persisted (transaction_of 7 9000)
  ∧ (is_Some (reported (Transaction.clean sample_items (transaction_of 7 9000)) "items_amount")
     ↔ Transaction.items sample_items (transaction_of 7 9000) = []
       ∨ item_sum sample_items (transaction_of 7 9000) ≠ 9000).
Proof.
  assert (Hrow : persisted (transaction_of 7 9000)) by (exists 7; split; [reflexivity|lia]).
  split; [exact Hrow|].
  exact (proj1 (items_amount_reported_iff sample_items (transaction_of 7 9000) Hrow)).
Defined.

(** A persisted transaction with no line items and a declared amount of
    0.00, the default of the field: the item amounts sum to the declared
    amount, and an error is reported on [items_amount] all the same. *)
Lemma items_amount_reported_on_equal_sums :
  persisted (transaction_of 1 0)
  ∧ item_sum [] (transaction_of 1 0) = Transaction.amount (transaction_of 1 0)
  ∧ reported (Transaction.clean [] (transaction_of 1 0)) "items_amount"
    = Some "Sum of item amounts must equal the transaction amount."%string
  ∧ ¬ (is_Some (reported (Transaction.clean [] (transaction_of 1 0)) "items_amount")
       ↔ item_sum [] (transaction_of 1 0) ≠ Transaction.amount (transaction_of 1 0)).
Proof.
  assert (Hreported :
    reported (Transaction.clean [] (transaction_of 1 0)) "items_amount"
    = Some "Sum of item amounts must equal the transaction amount."%string)
    by (vm_compute; reflexivity).
  split; [exists 1; split; [reflexivity|lia]|].
  split; [reflexivity|]. split; [exact Hreported|].
  intros [Hclaim _]. apply Hclaim; [|reflexivity]. rewrite Hreported. eexists. reflexivity.
Qed.

(** C3. For a persisted transaction, an error is reported on
    [items_owner] exactly when some line item's fee belongs to a student
    whose parent is not the payer; the error is one fixed message,
    whichever items are at fault. *)
Theorem items_owner_reported_iff (table : list TransactionItem.t) (self : Transaction.t) :
  persisted self →
  let r := Transaction.clean table self in
  (is_Some (reported r "items_owner")
   ↔ ∃ ti, ti ∈ Transaction.items table self
           ∧ User.pk (item_owner ti) ≠ User.pk (Transaction.payer self))
  ∧ (∀ message, reported r "items_owner" = Some message →
       message = "All fee items must belong to students of the payer."%string).
Proof.
  intros Hrow%persisted_pk_truthy r. subst r.
  destruct (clean_reported table self) as (_ & _ & _ & _ & Howner & _).
  rewrite Hrow in Howner. cbn [andb] in Howner. rewrite Howner. split.
  - rewrite if_is_Some, bool_decide_eq_true. apply violating_items_nonempty.
  - intros message. destruct (bool_decide _); congruence.
Qed.

Lemma items_owner_reported_iff_witness :
  persisted (transaction_of 7 10000)
  ∧ (is_Some (reported (Transaction.clean sample_items (transaction_of 7 10000)) "items_owner")
     ↔ ∃ ti, ti ∈ Transaction.items sample_items (transaction_of 7 10000)
             ∧ User.pk (item_owner ti) ≠ User.pk (Transaction.payer (transaction_of 7 10000))).
Proof.
  assert (Hrow : persisted (transaction_of 7 10000)) by (exists 7; split; [reflexivity|lia]).
  split; [exact Hrow|].
  exact (proj1 (items_owner_reported_iff sample_items (transaction_of 7 10000) Hrow)).
Defined.

(** Two persisted transactions whose violating items differ are given the
    same [items_owner] error: the violating items cannot be read off the
    error. *)
Lemma items_owner_error_names_no_item :
  persisted (transaction_of 7 10000) ∧ persisted (transaction_of 8 10000)
  ∧ violating_items sample_items (transaction_of 7 10000) = [foreign_tuition_item]
  ∧ violating_items sample_items (transaction_of 8 10000) = [foreign_bus_item]
  ∧ reported (Transaction.clean sample_items (transaction_of 7 10000)) "items_owner"
    = Some "All fee items must belong to students of the payer."%string
  ∧ reported (Transaction.clean sample_items (transaction_of 8 10000)) "items_owner"
    = Some "All fee items must belong to students of the payer."%string
  ∧ ¬ ∃ listed : string → list TransactionItem.t,
        ∀ table self, persisted self → violating_items table self ≠ [] →
          ∃ message,
            reported (Transaction.clean table self) "items_owner" = Some message
            ∧ listed message = violating_items table self.
Proof.
  assert (Hrow7 : persisted (transaction_of 7 10000)) by (exists 7; split; [reflexivity|lia]).
  assert (Hrow8 : persisted (transaction_of 8 10000)) by (exists 8; split; [reflexivity|lia]).
  assert (Hitems7 : violating_items sample_items (transaction_of 7 10000)
                    = [foreign_tuition_item]) by (vm_compute; reflexivity).
  assert (Hitems8 : violating_items sample_items (transaction_of 8 10000)
                    = [foreign_bus_item]) by (vm_compute; reflexivity).
  assert (Hreported7 :
    reported (Transaction.clean sample_items (transaction_of 7 10000)) "items_owner"
    = Some "All fee items must belong to students of the payer."%string)
    by (vm_compute; reflexivity).
  assert (Hreported8 :
    reported (Transaction.clean sample_items (transaction_of 8 10000)) "items_owner"
    = Some "All fee items must belong to students of the payer."%string)
    by (vm_compute; reflexivity).
  repeat (split; [assumption|]).
  intros [listed Hlisted].
  destruct (Hlisted sample_items (transaction_of 7 10000) Hrow7)
    as (message7 & Hmessage7 & Hlisted7); [by rewrite Hitems7|].
  destruct (Hlisted sample_items (transaction_of 8 10000) Hrow8)
    as (message8 & Hmessage8 & Hlisted8); [by rewrite Hitems8|].
  rewrite Hreported7 in Hmessage7. rewrite Hreported8 in Hmessage8.
  injection Hmessage7 as <-. injection Hmessage8 as <-.
  rewrite Hlisted7, Hitems7 in Hlisted8. discriminate Hlisted8.
Qed.

(** C4. [clean] evaluates every rule: each violated rule has its field
    and message in the mapping of the one [ValidationError] raised, and
    nothing is raised when no rule is violated. *)
Theorem clean_collects_every_violation (table : list TransactionItem.t) (self : Transaction.t) :
  let r := Transaction.clean table self in
  let payer_violated := User.role (Transaction.payer self) ≠ Some (lit "parent") in
  let amount_violated := Transaction.amount self ≤ 0 in
  let items_violated := persisted self ∧ Transaction.items table self = [] in
  let sum_violated :=
    persisted self ∧ item_sum table self ≠ Transaction.amount self in
  let owner_violated :=
    persisted self
    ∧ ∃ ti, ti ∈ Transaction.items table self
            ∧ User.pk (item_owner ti) ≠ User.pk (Transaction.payer self) in
  (payer_violated →
     reported r "payer" = Some "Payer must have role 'Parent'."%string)
  ∧ (amount_violated →
     reported r "amount" = Some "Amount must be greater than 0."%string)
  ∧ (items_violated →
     reported r "items"
     = Some "At least one fee item must be added to the transaction."%string)
  ∧ (sum_violated →
     reported r "items_amount"
     = Some "Sum of item amounts must equal the transaction amount."%string)
  ∧ (owner_violated →
     reported r "items_owner"
     = Some "All fee items must belong to students of the payer."%string)
  ∧ (payer_violated ∨ amount_violated ∨ items_violated ∨ sum_violated ∨ owner_violated →
     ∃ errors, r = inl (ValidationError errors))
  ∧ (¬ (payer_violated ∨ amount_violated ∨ items_violated ∨ sum_violated ∨ owner_violated) →
     r = inr ()).
Proof.
  intros r payer_violated amount_violated items_violated sum_violated owner_violated.
  subst r payer_violated amount_violated items_violated sum_violated owner_violated.
  rewrite <- violating_items_nonempty, persisted_pk_truthy.
  destruct (clean_reported table self)
    as (Hpayer & Hamount & Hitems & Hsum & Howner & Hraise).
  rewrite Hpayer, Hamount, Hitems, Hsum, Howner. clear Hpayer Hamount Hitems Hsum Howner.
  change (lit "parent") with RoleChoices_PARENT.
  destruct (Transaction.pk_truthy self); cbn [andb] in *;
    repeat case_bool_decide; cbn [orb] in *;
    destruct (Z.leb_spec (Transaction.amount self) 0); cbn [orb] in *;
    (split; [|split; [|split; [|split; [|split; [|split]]]]]);
    first [ exact Hraise | tauto | intuition (first [congruence | lia]) ].
Qed.

(** C9. A persisted transaction with no line items has an error on
    [items] and an error on [items_amount], whatever amount it declares:
    the aggregate over no rows is null. *)
Theorem no_items_reported_twice (table : list TransactionItem.t) (self : Transaction.t) :
  persisted self →
  Transaction.items table self = [] →
  let r := Transaction.clean table self in
  aggregate_Sum_amount (Transaction.items table self) = None
  ∧ reported r "items"
    = Some "At least one fee item must be added to the transaction."%string
  ∧ reported r "items_amount"
    = Some "Sum of item amounts must equal the transaction amount."%string.
Proof.
  intros Hrow%persisted_pk_truthy Hnone r. subst r.
  destruct (clean_reported table self) as (_ & _ & Hitems & Hsum & _).
  rewrite Hitems, Hsum, Hrow, Hnone. split; [reflexivity|].
  rewrite bool_decide_eq_true_2 by reflexivity. split; reflexivity.
Qed.

Lemma no_items_reported_twice_witness :
  persisted (transaction_of 3 2500)
  ∧ Transaction.items sample_items (transaction_of 3 2500) = []
  ∧ reported (Transaction.clean sample_items (transaction_of 3 2500)) "items"
    = Some "At least one fee item must be added to the transaction."%string
  ∧ reported (Transaction.clean sample_items (transaction_of 3 2500)) "items_amount"
    = Some "Sum of item amounts must equal the transaction amount."%string.
Proof.
  assert (Hrow : persisted (transaction_of 3 2500)) by (exists 3; split; [reflexivity|lia]).
  assert (Hnone : Transaction.items sample_items (transaction_of 3 2500) = [])
    by reflexivity.
  split; [exact Hrow|]. split; [exact Hnone|].
  exact (proj2 (no_items_reported_twice sample_items (transaction_of 3 2500) Hrow Hnone)).
Defined.

(** ** Enrolment *)

Lemma set_drawn_same (w : World) : set_drawn (drawn w) w = w.
Proof. destruct w; reflexivity. Qed.

Lemma execute_eq (w : World) :
  execute w = if needs_rollback w then (Raise TransactionManagementError, w)
              else (Return (), w).
Proof. unfold execute, get_world, mbind, M_bind. destruct (needs_rollback w); reflexivity. Qed.

Lemma Student_objects_create_eq
    (parent : User.t) (n : str) (hs : bool) (fn ln g : str) (w : World) :
  Student_objects_create parent n hs fn ln g w =
  let marked := if in_atomic_block w then set_needs_rollback true w else w in
  if needs_rollback w then (Raise TransactionManagementError, marked)
  else if bool_decide (n ∈ Student.admission_number <$> students (db w))
       then (Raise IntegrityError, marked)
       else (Return (Student.init parent n hs fn ln g),
             set_db (with_students (λ rows, rows ++ [Student.init parent n hs fn ln g])
                                   (db w)) w).
Proof.
  unfold Student_objects_create, mark_for_rollback_on_error, try_except.
  unfold mbind, M_bind. rewrite execute_eq.
  destruct (needs_rollback w) eqn:Hbroken.
  - cbn. destruct (in_atomic_block w); reflexivity.
  - cbn. destruct (bool_decide _); [|reflexivity].
    cbn. destruct (in_atomic_block w); reflexivity.
Qed.

Lemma valid_gender_passes (gender : option str) :
  valid_gender gender →
  bool_decide ((if falsy gender then Student.Gender_OTHER else default [] gender)
               ∈ fst <$> Student.Gender_choices) = true.
Proof.
  intros [Hfalsy|(g & -> & Hg)].
  - rewrite Hfalsy. reflexivity.
  - apply bool_decide_eq_true_2.
    destruct (falsy (Some g)); [|exact Hg].
    apply list_elem_of_In. cbn. tauto.
Qed.

Section EnrolmentFacts.
Context {U : Unicode}.

(** The issuer reads the environment and the random source and moves the
    random source only; it always ends. *)
Lemma generate_admission_number_frame (total_length : Z) (w : World) :
  ∃ r k, generate_admission_number total_length w = (r, set_drawn k w) ∧ r ≠ Running.
Proof.
  rewrite generate_admission_number_eq.
  destruct (environ w !! "SCHOOL_CODE") as [code|].
  2:{ exists (Raise (ValueError "SCHOOL_CODE must be set and numeric.")), (drawn w).
      rewrite set_drawn_same. done. }
  destruct (_ || _).
  { eexists _, (drawn w). rewrite set_drawn_same. done. }
  cbv zeta. destruct (_ <=? 0).
  { eexists _, (drawn w). rewrite set_drawn_same. done. }
  destruct (calculate_luhn_check_digit _); eexists _, _; done.
Qed.

Lemma create_until_inserted_spec (fuel : nat) (user : User.t) (hs : bool)
    (fn ln g : str) (w : World) :
  in_atomic_block w = true →
  ∃ r w',
    create_until_inserted fuel user hs fn ln g w = (r, w')
    ∧ in_atomic_block w' = true
    ∧ run_on_commit w' = run_on_commit w
    ∧ match r with
      | Return s =>
          needs_rollback w = false ∧ needs_rollback w' = false
          ∧ db w' = with_students (λ rows, rows ++ [s]) (db w)
          ∧ ∃ n, s = Student.init user n hs (str_title (str_strip fn))
                       (str_title (str_strip ln)) g
      | Raise e => db w' = db w
      | Running => db w' = db w ∧ (fuel = 0%nat ∨ (fuel = 1%nat ∧ needs_rollback w = false))
      end.
Proof.
  revert w. induction fuel as [|fuel IH]; intros w Hatomic.
  - exists Running, w. cbn. repeat split; auto.
  - cbn [create_until_inserted]. unfold mbind, M_bind at 1.
    destruct (generate_admission_number_frame 16 w) as (r & k & -> & Hends).
    destruct r as [n|e|]; [|eexists _, _; split; [reflexivity|]; cbn; auto|done].
    unfold try_except. rewrite Student_objects_create_eq. cbn.
    rewrite Hatomic.
    destruct (needs_rollback w) eqn:Hbroken.
    { eexists _, _. split; [reflexivity|]. cbn. auto. }
    destruct (bool_decide _).
    2:{ eexists _, _. split; [reflexivity|]. cbn. repeat split; eauto. }
    destruct (IH (set_needs_rollback true (set_drawn k w))) as (r & w' & Hrun & Hin & Hhooks & Hr);
      [exact Hatomic|].
    exists r, w'. split; [exact Hrun|]. split; [exact Hin|]. split; [exact Hhooks|].
    destruct r as [s|e|]; cbn in Hr.
    + destruct Hr as [Hfalse _]. discriminate.
    + exact Hr.
    + destruct Hr as [Hdb [->|[_ Hfalse]]]; [|discriminate]. auto.
Qed.

Lemma Student_filter_parent_exists_eq (user : User.t) (w : World) :
  Student_filter_parent_exists user w =
  if needs_rollback w then (Raise TransactionManagementError, w)
  else (Return (bool_decide (Student_filter_parent user (students (db w)) ≠ [])), w).
Proof.
  unfold Student_filter_parent_exists, mbind, M_bind. rewrite execute_eq.
  destruct (needs_rollback w); reflexivity.
Qed.

Lemma run_callbacks_eq (l : list callback) (w : World) :
  run_callbacks l w =
  match l with
  | [] => (Return (), w)
  | _ :: _ => (Raise (NameError "send_account_creation_email"), w)
  end.
Proof. destruct l as [|[user s] l]; reflexivity. Qed.

Lemma on_commit_eq (func : callback) (w : World) :
  on_commit func w =
  if in_atomic_block w
  then (Return (), set_run_on_commit (run_on_commit w ++ [func]) w)
  else call_callback func w.
Proof.
  unfold on_commit, get_world, mbind, M_bind. destruct (in_atomic_block w); reflexivity.
Qed.

Lemma create_student_account_spec (fuel : nat) (user : User.t)
    (first_name last_name gender : option str) (w : World) :
  ∃ r w',
    create_student_account fuel user first_name last_name gender w = (r, w')
    ∧ match r with
      | Return s =>
          in_atomic_block w = true ∧ in_atomic_block w' = true
          ∧ needs_rollback w = false ∧ needs_rollback w' = false
          ∧ db w' = with_students (λ rows, rows ++ [s]) (db w)
          ∧ enrolled user (students (db w)) s
      | Raise e =>
          (db w' = db w ∧ in_atomic_block w' = in_atomic_block w
           ∧ (in_atomic_block w = true → needs_rollback w' = needs_rollback w))
          ∨ (in_atomic_block w = false ∧ in_atomic_block w' = false
             ∧ e = NameError "send_account_creation_email"
             ∧ ∃ s, db w' = with_students (λ rows, rows ++ [s]) (db w)
                    ∧ enrolled user (students (db w)) s)
      | Running => (fuel < 2)%nat ∧ db w' = db w
      end.
Proof.
  unfold create_student_account.
  destruct (negb _).
  { eexists _, _. split; [reflexivity|]. left. auto. }
  unfold mbind, M_bind at 1.
  match goal with |- context [atomic ?b w] => set (body := b) end.
  unfold atomic.
  set (wA := atomic_enter w).
  assert (Hbody : ∃ r w1, body wA = (r, w1) ∧ in_atomic_block w1 = true 
     ∧ match r with
       | Return s => needs_rollback wA = false ∧ needs_rollback w1 = false
            ∧ db w1 = with_students (λ rows, rows ++ [s]) (db wA)
            ∧ run_on_commit w1 ≠ []
            ∧ enrolled user (students (db wA)) s
       | Raise e => db w1 = db wA
       | Running => (fuel < 2)%nat ∧ db w1 = db wA
       end).
  { subst body. unfold mbind, M_bind at 1. rewrite Student_filter_parent_exists_eq.
    destruct (needs_rollback wA) eqn:Hbroken.
    { eexists _, _. split; [reflexivity|]. auto. }
    unfold M_bind at 1.
    edestruct (create_until_inserted_spec fuel user) as (r & w1 & -> & Hin & Hhooks & Hr);
      [reflexivity|].
    destruct r as [s|e|].
    - destruct Hr as (_ & Hok & Hdb & n & Hs).
      unfold mbind, M_bind. rewrite on_commit_eq, Hin. cbn.
      eexists _, _. split; [reflexivity|]. cbn. rewrite Hin, Hok, Hdb.
      repeat split; try done; try (subst s; reflexivity).
      intros Hnil. by apply app_eq_nil in Hnil as [_ ?].
    - eexists _, _. split; [reflexivity|]. auto.
    - eexists _, _. split; [reflexivity|]. split; [exact Hin|].
      destruct Hr as [Hdb [->|[-> _]]]; (split; [lia|exact Hdb]). }
  destruct Hbody as (r & w1 & -> & Hin & Hr). clearbody body.
  unfold run_and_clear_commit_hooks, get_world, modify_world, mbind, M_bind.
  subst wA. unfold atomic_enter in *.
  destruct r as [s|e|]; cbn [is_Return andb].
  - destruct Hr as (Hentry & Hok & Hdb & Hhooks & Hs).
    cbn [needs_rollback set_in_atomic_block]. rewrite Hok. cbn [negb].
    destruct (in_atomic_block w) eqn:Hnested.
    + eexists _, _. split; [reflexivity|]. cbn. cbn in Hentry, Hdb, Hs. auto 10.
    + rewrite run_callbacks_eq. cbn [run_on_commit set_in_atomic_block].
      destruct (run_on_commit w1) as [|f hooks]; [done|].
      eexists _, _. split; [reflexivity|]. right. cbn. cbn in Hdb, Hs.
      repeat split; eauto.
  - destruct (in_atomic_block w) eqn:Hnested.
    + destruct (needs_rollback w) eqn:Hbroken; cbn [negb andb];
        eexists _, _; (split; [reflexivity|]); left; cbn; cbn in Hr; auto.
    + eexists _, _. split; [reflexivity|]. left. cbn. repeat split; done.
  - eexists _, _. split; [reflexivity|]. destruct Hr as [Hfuel Hdb].
    split; [exact Hfuel|]. rewrite Hdb. destruct (in_atomic_block w); reflexivity.
Qed.

(** [create_student_account] ends: two rounds of the loop are all a
    connection allows inside an atomic block. *)
Lemma create_student_account_ends (fuel : nat) (user : User.t)
    (first_name last_name gender : option str) (w : World) :
  (2 ≤ fuel)%nat →
  fst (create_student_account fuel user first_name last_name gender w) ≠ Running.
Proof.
  intros Hfuel.
  destruct (create_student_account_spec fuel user first_name last_name gender w)
    as (r & w' & -> & Hr).
  destruct r; [done|done|cbn in Hr; lia].
Qed.

Lemma random_digits_same (w w2 : World) (n : nat) :
  entropy w2 = entropy w → drawn w2 = drawn w → random_digits w2 n = random_digits w n.
Proof. intros He Hd. unfold random_digits. rewrite He, Hd. reflexivity. Qed.

(** The issuer gives the same answer in two worlds that agree on the
    environment and on the random source. *)
Lemma generate_admission_number_same (total_length : Z) (w w2 : World) :
  environ w2 = environ w → entropy w2 = entropy w → drawn w2 = drawn w →
  ∃ r k, generate_admission_number total_length w = (r, set_drawn k w)
         ∧ generate_admission_number total_length w2 = (r, set_drawn k w2).
Proof.
  intros Henv Hentropy Hdrawn. rewrite !generate_admission_number_eq, Henv.
  destruct (environ w !! "SCHOOL_CODE") as [code|].
  2:{ eexists _, (drawn w). rewrite set_drawn_same, <- Hdrawn, set_drawn_same. done. }
  destruct (_ || _).
  { eexists _, (drawn w). rewrite set_drawn_same, <- Hdrawn, set_drawn_same. done. }
  cbv zeta. destruct (_ <=? 0).
  { eexists _, (drawn w). rewrite set_drawn_same, <- Hdrawn, set_drawn_same. done. }
  rewrite (random_digits_same w w2) by assumption. rewrite Hdrawn.
  destruct (calculate_luhn_check_digit _); eexists _, _; done.
Qed.

(** With a usable connection, a valid gender and a first number that is
    not taken, the call inserts a row carrying that number. *)
Lemma create_student_account_inserts (fuel : nat) (user : User.t)
    (first_name last_name gender : option str) (w w_issued : World) (number : str) :
  (1 ≤ fuel)%nat →
  valid_gender gender →
  (in_atomic_block w = true → needs_rollback w = false) →
  generate_admission_number 16 w = (Return number, w_issued) →
  number ∉ Student.admission_number <$> students (db w) →
  ∃ r w' s,
    create_student_account fuel user first_name last_name gender w = (r, w')
    ∧ students (db w') = students (db w) ++ [s]
    ∧ Student.admission_number s = number
    ∧ (in_atomic_block w = true → r = Return s).
Proof.
  intros Hfuel Hgender Husable Hissued Hfresh.
  destruct fuel as [|fuel]; [lia|].
  unfold create_student_account.
  rewrite (valid_gender_passes gender Hgender). cbn [negb].
  unfold mbind, M_bind at 1.
  match goal with |- context [atomic ?b w] => set (body := b) end.
  unfold atomic.
  set (wA := atomic_enter w).
  assert (Hclean : needs_rollback wA = false).
  { subst wA. unfold atomic_enter in *. destruct (in_atomic_block w); cbn; auto. }
  assert (Hdb : db wA = db w) by (subst wA; unfold atomic_enter in *; destruct (in_atomic_block w); reflexivity).
  assert (HinA : in_atomic_block wA = true) by reflexivity.
  destruct (generate_admission_number_same 16 w wA) as (r & k & Hw & HwA);
    [subst wA; unfold atomic_enter in *; destruct (in_atomic_block w); reflexivity ..|].
  rewrite Hissued in Hw. injection Hw as <- _.
  assert (Hbody : ∃ s w1, body wA = (Return s, w1)
            ∧ needs_rollback w1 = false ∧ run_on_commit w1 ≠ []
            ∧ students (db w1) = students (db w) ++ [s]
            ∧ Student.admission_number s = number).
  { subst body. clearbody wA. unfold mbind, M_bind at 1.
    rewrite Student_filter_parent_exists_eq, Hclean.
    unfold M_bind at 1. cbn [create_until_inserted]. unfold mbind, M_bind at 1.
    rewrite HwA. unfold try_except. rewrite Student_objects_create_eq.
    cbn [needs_rollback set_drawn db]. rewrite Hclean, Hdb.
    rewrite bool_decide_eq_false_2 by exact Hfresh.
    unfold M_bind. rewrite on_commit_eq.
    cbn [in_atomic_block set_db set_drawn]. rewrite HinA.
    eexists _, _. split; [reflexivity|].
    cbn [needs_rollback run_on_commit db students set_run_on_commit set_db set_drawn
         with_students Student.admission_number Student.init].
    rewrite Hclean.
    repeat split; try done. intros Hnil. by apply app_eq_nil in Hnil as [_ ?]. }
  destruct Hbody as (s & w1 & -> & Hok & Hhooks & Hrows & Hnumber).
  cbn [is_Return andb needs_rollback set_in_atomic_block]. rewrite Hok. cbn [negb].
  unfold run_and_clear_commit_hooks, get_world, modify_world, mbind, M_bind.
  destruct (in_atomic_block w) eqn:Hnested.
  - eexists _, _, s. split; [reflexivity|]. cbn. auto.
  - rewrite run_callbacks_eq. cbn [run_on_commit set_in_atomic_block].
    destruct (run_on_commit w1); [done|].
    eexists _, _, s. split; [reflexivity|]. cbn. repeat split; done.
Qed.

Lemma Student_filter_parent_nonempty (user : User.t) (rows : list Student.t) :
  Student_filter_parent user rows ≠ []
  ↔ ∃ s, s ∈ rows ∧ User.pk (Student.parent s) = User.pk user.
Proof.
  unfold Student_filter_parent. split.
  - intros Hne. destruct (filter _ rows) as [|s l] eqn:Hfilter; [done|].
    assert (Hs : s ∈ filter (λ s, User.pk (Student.parent s) = User.pk user) rows)
      by (rewrite Hfilter; left).
    apply list_elem_of_filter in Hs as [Hparent Hin]. eauto.
  - intros (s & Hin & Hparent) Hnil.
    assert (Hs : s ∈ filter (λ s, User.pk (Student.parent s) = User.pk user) rows)
      by (apply list_elem_of_filter; done).
    rewrite Hnil in Hs. by apply not_elem_of_nil in Hs.
Qed.

(** What one call does to the table of students. *)
Lemma create_student_account_rows (fuel : nat) (user : User.t)
    (first_name last_name gender : option str) (w : World) :
  let result := create_student_account fuel user first_name last_name gender w in
  (students (db (snd result)) = students (db w)
   ∧ ∀ s, fst result ≠ Return s)
  ∨ ∃ s, students (db (snd result)) = students (db w) ++ [s]
         ∧ enrolled user (students (db w)) s
         ∧ (fst result = Return s
            ∨ fst result = Raise (NameError "send_account_creation_email")).
Proof.
  destruct (create_student_account_spec fuel user first_name last_name gender w)
    as (r & w' & Hrun & Hr).
  cbv zeta. rewrite Hrun. cbn [fst snd].
  destruct r as [s|e|].
  - destruct Hr as (_ & _ & _ & _ & Hdb & Hs). right. exists s. rewrite Hdb. auto.
  - destruct Hr as [(Hdb & _)|(_ & _ & -> & s & Hdb & Hs)].
    + left. rewrite Hdb. done.
    + right. exists s. rewrite Hdb. auto.
  - destruct Hr as [_ Hdb]. left. rewrite Hdb. done.
Qed.

(** C5. The row inserted by [create_student_account] has [has_sibling]
    set exactly when the parent owned a student before the insert; the
    call touches no other row.  For a parent without students the first
    row gets [false], and the row of a second call gets [true] while the
    first row stays as it was.  The call ends, and it inserts whenever the
    connection is usable, the gender valid and the first number issued
    not taken. *)
Theorem has_sibling_is_a_snapshot (fuel : nat) (user : User.t)
    (first_name last_name gender : option str) (w : World) :
  let result := create_student_account fuel user first_name last_name gender w in
  let before := students (db w) in
  let after := students (db (snd result)) in
  let owns (rows : list Student.t) :=
    ∃ s0, s0 ∈ rows ∧ User.pk (Student.parent s0) = User.pk user in
  (after = before
   ∨ ∃ s, after = before ++ [s] ∧ Student.parent s = user
          ∧ (Student.has_sibling s = true ↔ owns before))
  ∧ (∀ s1, ¬ owns before → after = before ++ [s1] →
       Student.has_sibling s1 = false
       ∧ ∀ fuel2 first_name2 last_name2 gender2 w2,
           students (db w2) = after →
           let after2 :=
             students (db (snd (create_student_account fuel2 user
                                  first_name2 last_name2 gender2 w2))) in
           after2 = after
           ∨ ∃ s2, after2 = before ++ [s1; s2] ∧ Student.has_sibling s2 = true)
  ∧ (∀ s, fst result = Return s → after = before ++ [s])
  ∧ ((2 ≤ fuel)%nat → fst result ≠ Running)
  ∧ ((1 ≤ fuel)%nat → valid_gender gender →
     (in_atomic_block w = true → needs_rollback w = false) →
     (∃ number w_issued,
        generate_admission_number 16 w = (Return number, w_issued)
        ∧ number ∉ Student.admission_number <$> before) →
     ∃ s, after = before ++ [s]).
Proof.
  intros result before after owns.
  assert (Hflag : ∀ rows s, enrolled user rows s →
            Student.parent s = user
            ∧ (Student.has_sibling s = true
               ↔ ∃ s0, s0 ∈ rows ∧ User.pk (Student.parent s0) = User.pk user)).
  { intros rows s (Hparent & Hsibling & _). split; [exact Hparent|].
    rewrite Hsibling, bool_decide_eq_true. apply Student_filter_parent_nonempty. }
  assert (Hrows : after = before
                  ∨ ∃ s, after = before ++ [s] ∧ Student.parent s = user
                         ∧ (Student.has_sibling s = true ↔ owns before)).
  { destruct (create_student_account_rows fuel user first_name last_name gender w)
      as [[Hsame _]|(s & Happ & Hs & _)]; [left; exact Hsame|].
    right. exists s. split; [exact Happ|]. apply Hflag, Hs. }
  split; [exact Hrows|]. split; [|split; [|split]].
  - intros s1 Hnone Hafter.
    assert (Hs1 : Student.parent s1 = user ∧ Student.has_sibling s1 = false).
    { destruct Hrows as [Hsame|(s & Happ & Hparent & Hiff)].
      - rewrite Hsame in Hafter. apply (f_equal length) in Hafter.
        rewrite length_app in Hafter. cbn in Hafter. lia.
      - rewrite Happ in Hafter. apply app_inj_tail in Hafter as [_ ->].
        split; [exact Hparent|]. destruct (Student.has_sibling s1); [|reflexivity].
        exfalso. apply Hnone, Hiff. reflexivity. }
    split; [apply Hs1|].
    intros fuel2 first_name2 last_name2 gender2 w2 Hw2 after2. subst after2.
    destruct (create_student_account_rows fuel2 user first_name2 last_name2 gender2 w2)
      as [[Hsame _]|(s2 & Happ & Hs2 & _)]; cbv zeta in *.
    + left. rewrite Hsame. exact Hw2.
    + right. exists s2. rewrite Happ, Hw2, Hafter, <- app_assoc.
      split; [reflexivity|]. apply (Hflag _ _ Hs2).
      exists s1. rewrite Hw2, Hafter. split; [apply elem_of_app; right; left|].
      destruct Hs1 as [-> _]. reflexivity.
  - intros s Hs.
    destruct (create_student_account_rows fuel user first_name last_name gender w)
      as [[_ Hnever]|(s' & Happ & _ & [Hret|Hraise])];
      fold result in Hnever || fold result in Happ, Hret || fold result in Happ, Hraise.
    + by apply Hnever in Hs.
    + rewrite Hret in Hs. injection Hs as <-. exact Happ.
    + congruence.
  - apply create_student_account_ends.
  - intros Hfuel Hgender Husable (number & w_issued & Hissued & Hfresh).
    destruct (create_student_account_inserts fuel user first_name last_name gender
                w w_issued number) as (r & w' & s & Hrun & Hrows' & _); try assumption.
    exists s. subst after result. rewrite Hrun. exact Hrows'.
Qed.

(** C10. A row that [create_student_account] inserts has account status
    "in-active" and is not fully activated, and the call leaves every
    other row as it was: enrolment activates no account.  Nor does the
    sibling-flag update of the profile flow, which writes [has_sibling]
    only. *)
Theorem enrolment_activates_no_account (fuel : nat) (user : User.t)
    (first_name last_name gender : option str) (w : World) :
  let result := create_student_account fuel user first_name last_name gender w in
  let before := students (db w) in
  let after := students (db (snd result)) in
  (after = before
   ∨ ∃ s, after = before ++ [s]
          ∧ Student.account_status s = lit "in-active"
          ∧ Student.fully_activated s = false
          ∧ Student.verified_by s = None)
  ∧ (∀ s, fst result = Return s →
       s ∈ after
       ∧ Student.account_status s = lit "in-active"
       ∧ Student.fully_activated s = false)
  ∧ ((2 ≤ fuel)%nat → fst result ≠ Running)
  ∧ (∀ value s,
       Student.account_status (Student.set_has_sibling value s) = Student.account_status s
       ∧ Student.fully_activated (Student.set_has_sibling value s)
         = Student.fully_activated s).
Proof.
  intros result before after.
  cut ((after = before
        ∨ ∃ s, after = before ++ [s]
               ∧ Student.account_status s = lit "in-active"
               ∧ Student.fully_activated s = false
               ∧ Student.verified_by s = None)
       ∧ (∀ s, fst result = Return s →
            s ∈ after
            ∧ Student.account_status s = lit "in-active"
            ∧ Student.fully_activated s = false)
       ∧ ((2 ≤ fuel)%nat → fst result ≠ Running)).
  { intros (Hrows & Hreturned & Hends). repeat (split; [assumption|]).
    intros value s. split; reflexivity. }
  destruct (create_student_account_rows fuel user first_name last_name gender w)
    as [[Hsame Hnone]|(s & Happ & (_ & _ & Hstatus & Hactive & Hverified) & Hresult)];
    fold result in Hsame, Hnone || fold result in Happ, Hresult.
  - split; [left; exact Hsame|]. split; [|apply create_student_account_ends].
    intros s Hs. by apply Hnone in Hs.
  - split; [right; exists s; auto|]. split; [|apply create_student_account_ends].
    intros s' Hs'. destruct Hresult as [Hret|Hraise]; [|congruence].
    rewrite Hret in Hs'. injection Hs' as <-.
    subst after. rewrite Happ. split; [apply elem_of_app; right; left|auto].
Qed.

End EnrolmentFacts.

(** ** The profile update *)

Lemma serializer_save_eq (instance : Profile.t) (validated_data : gmap string (list N))
    (w : World) :
  serializer_save instance validated_data w =
  let updated_instance :=
    Profile_set_fields (validated_data ∪ Profile.fields instance) instance in
  if needs_rollback w
  then (Raise TransactionManagementError,
        if in_atomic_block w then set_needs_rollback true w else w)
  else (Return updated_instance,
        set_db (with_profiles
          (fmap (λ p, if bool_decide (Profile.id p = Profile.id instance)
                      then updated_instance else p)) (db w)) w).
Proof.
  unfold serializer_save, mark_for_rollback_on_error, try_except, mbind, M_bind.
  rewrite execute_eq. destruct (needs_rollback w); [|reflexivity].
  cbn. destruct (in_atomic_block w); reflexivity.
Qed.

Lemma Student_filter_parent_count_eq (user : User.t) (w : World) :
  Student_filter_parent_count user w =
  if needs_rollback w then (Raise TransactionManagementError, w)
  else (Return (Z.of_nat (length (Student_filter_parent user (students (db w))))), w).
Proof.
  unfold Student_filter_parent_count, mbind, M_bind. rewrite execute_eq.
  destruct (needs_rollback w); reflexivity.
Qed.

Lemma Student_filter_parent_update_has_sibling_eq (user : User.t) (value : bool) (w : World) :
  Student_filter_parent_update_has_sibling user value w =
  if needs_rollback w then (Raise TransactionManagementError, w)
  else (Return (),
        set_db (with_students
          (fmap (λ s, if bool_decide (User.pk (Student.parent s) = User.pk user)
                      then Student.set_has_sibling value s else s)) (db w)) w).
Proof.
  unfold Student_filter_parent_update_has_sibling, mbind, M_bind. rewrite execute_eq.
  destruct (needs_rollback w); reflexivity.
Qed.

(** Leaving an atomic block changes the rows in one way only: it puts
    back those the block was entered with. *)
Lemma atomic_rows {A} (body : M A) (w : World) :
  db (snd (atomic body w)) = db (snd (body (atomic_enter w)))
  ∨ db (snd (atomic body w)) = db w.
Proof.
  unfold atomic, run_and_clear_commit_hooks, get_world, modify_world, mbind, M_bind.
  destruct (body (atomic_enter w)) as [[a|e|] w1]; cbn [is_Return andb snd].
  - cbn [needs_rollback set_in_atomic_block].
    destruct (needs_rollback w1); cbn [negb].
    + destruct (in_atomic_block w); [destruct (_ && _)|]; cbn; auto.
    + destruct (in_atomic_block w); [cbn; auto|].
      rewrite run_callbacks_eq. cbn [run_on_commit set_in_atomic_block].
      destruct (run_on_commit w1); cbn; auto.
  - destruct (in_atomic_block w); [destruct (_ && _)|]; cbn; auto.
  - auto.
Qed.

(** [get_object] records the view and touches neither students nor
    profiles. *)
Lemma get_object_rows (request : Request) (w : World) :
  ∃ r wg, get_object request w = (r, wg)
          ∧ students (db wg) = students (db w)
          ∧ profiles (db wg) = profiles (db w).
Proof.
  unfold get_object, try_except, mbind, M_bind.
  unfold Profile_objects_get. unfold mbind, M_bind. rewrite execute_eq.
  unfold get_world.
  destruct (needs_rollback w) eqn:Hbroken; [eexists _, _; done|].
  destruct (filter _ (profiles (db w))) as [|profile l]; [eexists _, _; done|].
  cbn [mret M_ret].
  unfold record_profile_view.
  match goal with |- context [atomic ?b w] => set (body := b) end.
  assert (Hrows : students (db (snd (atomic body w))) = students (db w)
                  ∧ profiles (db (snd (atomic body w))) = profiles (db w)).
  { destruct (atomic_rows body w) as [-> | ->]; [|done].
    subst body. unfold mbind, M_bind, get_world, modify_world. rewrite execute_eq.
    destruct (needs_rollback (atomic_enter w));
      unfold atomic_enter; destruct (in_atomic_block w); done. }
  destruct (atomic body w) as [[[]|e|] w1]; cbn [snd] in Hrows;
    [eexists _, _; done| |eexists _, _; done].
  destruct e; eexists _, _; (split; [reflexivity|]); exact Hrows.
Qed.

Lemma Student_filter_parent_flagged (user : User.t) (rows : list Student.t) :
  let flag (s : Student.t) :=
    if bool_decide (User.pk (Student.parent s) = User.pk user)
    then Student.set_has_sibling true s else s in
  Student_filter_parent user (flag <$> rows) = flag <$> Student_filter_parent user rows
  ∧ ∀ x, x ∈ Student_filter_parent user (flag <$> rows) → Student.has_sibling x = true.
Proof.
  intros flag. unfold Student_filter_parent.
  assert (Hparent : ∀ s, Student.parent (flag s) = Student.parent s).
  { intros s. unfold flag. destruct (bool_decide _); reflexivity. }
  split.
  - induction rows as [|s rows IH]; [reflexivity|].
    rewrite fmap_cons, !filter_cons, Hparent, IH.
    destruct (decide _); reflexivity.
  - intros x [Hx Hin]%list_elem_of_filter.
    apply list_elem_of_fmap in Hin as (s & -> & _).
    rewrite Hparent in Hx. unfold flag.
    rewrite bool_decide_eq_true_2 by exact Hx. reflexivity.
Qed.

Section ProfileUpdateFacts.
Context {U : Unicode} {PS : ProfileSerializer}.

(** C7. When the nested enrolment raises, the view answers 400 and the
    atomic block is rolled back: the profiles and the students are the
    rows the request found. *)
Theorem failed_enrolment_rolls_back (fuel : nat) (request : Request) (partial : bool)
    (w wg w_saved w_failed : World) (instance updated_instance : Profile.t)
    (validated_data : gmap string (list N)) (e : exn) :
  get_object request w = (Return instance, wg) →
  run_validation partial instance (data_profile request) = Some validated_data →
  serializer_save instance validated_data (atomic_enter wg)
    = (Return updated_instance, w_saved) →
  data_create_student request = true →
  create_student_account fuel (Profile.user updated_instance)
    (data_student request !! "first_name") (data_student request !! "last_name")
    (data_student request !! "gender") w_saved = (Raise e, w_failed) →
  ∃ response w',
    update fuel request partial w = (Return response, w')
    ∧ response = match e with
                 | SerializerValidationError => Response_400_errors
                 | _ => Response_400_error e
                 end
    ∧ profiles (db w') = profiles (db w)
    ∧ students (db w') = students (db w).
Proof.
  intros Hget Hvalid Hsave Hflag Hcreate.
  destruct (get_object_rows request w) as (r0 & wg0 & Hget0 & Hstudents & Hprofiles).
  rewrite Hget in Hget0. injection Hget0 as <- <-.
  assert (Hclean : needs_rollback (atomic_enter wg) = false).
  { rewrite serializer_save_eq in Hsave.
    destruct (needs_rollback (atomic_enter wg)); [discriminate Hsave|reflexivity]. }
  unfold update. unfold mbind, M_bind at 1. rewrite Hget.
  unfold try_except, serializer_is_valid. unfold mbind, M_bind at 1. rewrite Hvalid.
  cbn [mret M_ret].
  match goal with |- context [atomic ?b wg] => set (body := b) end.
  assert (Hbody : body (atomic_enter wg) = (Raise e, w_failed)).
  { subst body. unfold mbind, M_bind at 1. rewrite Hsave, Hflag.
    unfold mbind, M_bind at 1. rewrite Hcreate. reflexivity. }
  clearbody body. unfold atomic. rewrite Hbody. cbn [is_Return andb].
  unfold atomic_enter in Hclean.
  destruct (in_atomic_block wg) eqn:Hnested.
  - cbn in Hclean. rewrite Hclean. cbn [negb andb].
    destruct e; eexists _, _; (split; [reflexivity|]); cbn; auto.
  - destruct e; eexists _, _; (split; [reflexivity|]); cbn; auto.
Qed.

(** C6. When the nested enrolment returns its student, the call ends
    with that student stored; if the parent then owns more than one
    student, every one of the parent's rows has [has_sibling] set, and if
    the parent owns exactly one, the table is the one the request found
    plus the new row, as inserted. *)
Theorem siblings_flagged_after_enrolment (fuel : nat) (request : Request) (partial : bool)
    (w wg w_saved w_created : World) (instance updated_instance : Profile.t)
    (validated_data : gmap string (list N)) (s : Student.t) :
  get_object request w = (Return instance, wg) →
  run_validation partial instance (data_profile request) = Some validated_data →
  serializer_save instance validated_data (atomic_enter wg)
    = (Return updated_instance, w_saved) →
  data_create_student request = true →
  create_student_account fuel (Profile.user updated_instance)
    (data_student request !! "first_name") (data_student request !! "last_name")
    (data_student request !! "gender") w_saved = (Return s, w_created) →
  ∃ response w',
    update fuel request partial w = (Return response, w')
    ∧ let mine :=
        Student_filter_parent (Profile.user updated_instance) (students (db w')) in
      (1 ≤ length mine)%nat
      ∧ ((1 < length mine)%nat → ∀ x, x ∈ mine → Student.has_sibling x = true)
      ∧ (length mine = 1%nat →
           students (db w') = students (db w) ++ [s]
           ∧ Student.has_sibling s = false).
Proof.
  intros Hget Hvalid Hsave Hflag Hcreate.
  set (user := Profile.user updated_instance).
  destruct (get_object_rows request w) as (r0 & wg0 & Hget0 & Hstudents & _).
  rewrite Hget in Hget0. injection Hget0 as <- <-.
  assert (Hsaved : students (db w_saved) = students (db w)).
  { rewrite serializer_save_eq in Hsave. cbv zeta in Hsave.
    destruct (needs_rollback (atomic_enter wg)); [discriminate Hsave|].
    injection Hsave as _ <-. rewrite <- Hstudents.
    unfold atomic_enter. destruct (in_atomic_block wg); reflexivity. }
  destruct (create_student_account_spec fuel user
              (data_student request !! "first_name") (data_student request !! "last_name")
              (data_student request !! "gender") w_saved) as (r & w1 & Hrun & Hr).
  fold user in Hcreate. rewrite Hcreate in Hrun. injection Hrun as <- <-.
  destruct Hr as (_ & Hin & _ & Hok & Hdb & Hs).
  rewrite Hsaved in Hs.
  set (rows := students (db w) ++ [s]).
  assert (Hrows : students (db w_created) = rows)
    by (rewrite Hdb; cbn; rewrite Hsaved; reflexivity).
  set (flag := λ x : Student.t,
         if bool_decide (User.pk (Student.parent x) = User.pk user)
         then Student.set_has_sibling true x else x).
  set (n := Z.of_nat (length (Student_filter_parent user rows))).
  set (final := if 1 <? n then flag <$> rows else rows).
  (* the state of the table when the block is left *)
  assert (Hupdate : ∃ response w', update fuel request partial w = (Return response, w')
                                   ∧ students (db w') = final).
  { unfold update. unfold mbind, M_bind at 1. rewrite Hget.
    unfold try_except, serializer_is_valid. unfold mbind, M_bind at 1. rewrite Hvalid.
    cbn [mret M_ret].
    match goal with |- context [atomic ?b wg] => set (body := b) end.
    assert (Hbody : ∃ response w2, body (atomic_enter wg) = (Return response, w2)
                      ∧ needs_rollback w2 = false ∧ students (db w2) = final).
    { subst body. unfold mbind, M_bind at 1. rewrite Hsave, Hflag.
      unfold mbind, M_bind at 1. fold user. rewrite Hcreate.
      unfold M_bind at 1. rewrite Student_filter_parent_count_eq, Hok, Hrows. fold n.
      subst final. destruct (1 <? n).
      - unfold M_bind. rewrite Student_filter_parent_update_has_sibling_eq, Hok.
        eexists _, _. split; [reflexivity|]. cbn. rewrite Hok, Hrows. done.
      - eexists _, _. split; [reflexivity|]. cbn. done. }
    destruct Hbody as (response & w2 & Hbody & Hok2 & Hfinal). clearbody body.
    unfold atomic. rewrite Hbody. cbn [is_Return andb needs_rollback set_in_atomic_block].
    rewrite Hok2. cbn [negb].
    destruct (in_atomic_block wg).
    - eexists _, _. split; [reflexivity|]. exact Hfinal.
    - unfold run_and_clear_commit_hooks, get_world, modify_world, mbind, M_bind.
      rewrite run_callbacks_eq.
      destruct (run_on_commit _); eexists _, _; (split; [reflexivity|]); exact Hfinal. }
  destruct Hupdate as (response & w' & Hupdate & Hfinal).
  exists response, w'. split; [exact Hupdate|]. cbv zeta. rewrite Hfinal.
  destruct (Student_filter_parent_flagged user rows) as [Hsame Hall].
  fold flag in Hsame, Hall.
  assert (Hlength : length (Student_filter_parent user final)
                    = length (Student_filter_parent user rows)).
  { subst final. destruct (1 <? n); [|reflexivity]. rewrite Hsame. apply length_fmap. }
  assert (Hmine : Student_filter_parent user rows
                  = Student_filter_parent user (students (db w)) ++ [s]).
  { subst rows. unfold Student_filter_parent. rewrite filter_app, filter_cons, filter_nil.
    destruct Hs as [-> _]. rewrite decide_True by reflexivity. reflexivity. }
  split; [|split].
  - rewrite Hlength, Hmine, length_app. cbn. lia.
  - intros Hmany x Hx. subst final.
    destruct (Z.ltb_spec 1 n); [apply Hall, Hx|]. subst n. lia.
  - intros Hone. subst final.
    destruct (Z.ltb_spec 1 n); [subst n; lia|]. split; [reflexivity|].
    destruct Hs as (_ & -> & _). apply bool_decide_eq_false_2. intros Hprior.
    rewrite Hmine, length_app in Hone. cbn in Hone.
    destruct (Student_filter_parent user (students (db w))); [done|cbn in Hone; lia].
Qed.

End ProfileUpdateFacts.

(** ** The properties at concrete inputs *)

Lemma generate_admission_number_luhn_witness :
  environ sample_world !! "SCHOOL_CODE" = Some (lit "4021")
  ∧ ∃ number w',
      @generate_admission_number ucd_excerpt 16 sample_world = (Return number, w')
      ∧ Z.of_nat (length number) = 16
      ∧ lit "4021" `prefix_of` number.
Proof.
  assert (Henv : environ sample_world !! "SCHOOL_CODE" = Some (lit "4021"))
    by (vm_compute; reflexivity).
  assert (Hnumeric : @numeric ucd_excerpt (lit "4021")).
  { split; [discriminate|]. repeat constructor; eexists; vm_compute; reflexivity. }
  assert (Hroom : 16 - Z.of_nat (length (lit "4021")) - 1 > 0) by (vm_compute; reflexivity).
  split; [exact Henv|].
  destruct (@generate_admission_number_luhn ucd_excerpt (lit "4021") 16 sample_world
              Henv Hnumeric Hroom) as (number & w' & Hrun & Hlength & _ & Hprefix & _).
  exists number, w'. auto.
Defined.

Lemma generate_admission_number_failure_witness :
  ∃ e, fst (@generate_admission_number ucd_excerpt 16
              (world_of None (λ k, k) empty_database)) = Raise e.
Proof.
  apply (proj1 (@generate_admission_number_failure ucd_excerpt 16
                  (world_of None (λ k, k) empty_database))).
  left. vm_compute. reflexivity.
Defined.

Lemma clean_collects_every_violation_witness :
  reported (Transaction.clean sample_items (transaction_of 7 9000)) "items_amount"
  = Some "Sum of item amounts must equal the transaction amount."%string
  ∧ reported (Transaction.clean sample_items (transaction_of 7 9000)) "items_owner"
    = Some "All fee items must belong to students of the payer."%string.
Proof.
  pose proof (clean_collects_every_violation sample_items (transaction_of 7 9000))
    as (_ & _ & _ & Hsum & Howner & _).
  assert (Hrow : persisted (transaction_of 7 9000)) by (exists 7; split; [reflexivity|lia]).
  split.
  - apply Hsum. split; [exact Hrow|]. vm_compute. discriminate.
  - apply Howner. split; [exact Hrow|]. exists foreign_tuition_item.
    split; [left|]. vm_compute. discriminate.
Defined.

Lemma has_sibling_is_a_snapshot_witness :
  ∃ s, students (db (snd (@create_student_account ucd_excerpt 2 sample_parent
                            None None None sample_world)))
       = students (db sample_world) ++ [s].
Proof.
  apply (@has_sibling_is_a_snapshot ucd_excerpt 2 sample_parent None None None sample_world).
  - lia.
  - left. reflexivity.
  - intros _. reflexivity.
  - eexists _, _. split; [vm_compute; reflexivity|].
    vm_compute. intros Hin. apply list_elem_of_In in Hin. cbn in Hin.
    destruct Hin as [Hin|[]]. discriminate Hin.
Defined.

Lemma enrolment_activates_no_account_witness :
  fst (@create_student_account ucd_excerpt 2 sample_parent None None None sample_world)
  ≠ Running.
Proof.
  apply (@enrolment_activates_no_account ucd_excerpt 2 sample_parent None None None
           sample_world).
  lia.
Defined.

Lemma failed_enrolment_rolls_back_witness :
  ∃ response w',
    @update ucd_excerpt accept_all 2 (request_with_child "robot") false sample_world
      = (Return response, w')
    ∧ profiles (db w') = profiles (db sample_world)
    ∧ students (db w') = students (db sample_world).
Proof.
  edestruct (@failed_enrolment_rolls_back ucd_excerpt accept_all 2
               (request_with_child "robot") false sample_world)
    as (response & w' & Hrun & _ & Hprofiles & Hstudents).
  - vm_compute. reflexivity.
  - reflexivity.
  - vm_compute. reflexivity.
  - reflexivity.
  - vm_compute. reflexivity.
  - exists response, w'. auto.
Defined.

Lemma siblings_flagged_after_enrolment_witness :
  ∃ response w',
    @update ucd_excerpt accept_all 2 (request_with_child "female") false sample_world
      = (Return response, w')
    ∧ ∀ x, x ∈ Student_filter_parent sample_parent (students (db w')) →
           Student.has_sibling x = true.
Proof.
  edestruct (@siblings_flagged_after_enrolment ucd_excerpt accept_all 2
               (request_with_child "female") false sample_world)
    as (response & w' & Hrun & Hsome & Hmany & _).
  - vm_compute. reflexivity.
  - reflexivity.
  - vm_compute. reflexivity.
  - reflexivity.
  - vm_compute. reflexivity.
  - exists response, w'. split; [exact Hrun|]. apply Hmany.
    vm_compute in Hrun. injection Hrun as _ <-. vm_compute. lia.
Defined.

(** * Further properties of the code *)


(** ** The check digit *)

Lemma luhn_total_app (odd : bool) (l1 l2 : list Z) :
  luhn_total odd (l1 ++ l2)
  = luhn_total odd l1
    + luhn_total (if Nat.even (length l1) then odd else negb odd) l2.
Proof.
  revert odd. induction l1 as [|d l1 IH]; intros odd; [cbn; lia|].
  cbn [app luhn_total length]. rewrite IH, Nat.even_succ, <- Nat.negb_even.
  destruct (Nat.even (length l1)); cbn [negb]; rewrite ?negb_involutive; lia.
Qed.

Lemma check_digits_agree (a b : Z) :
  (10 - a `mod` 10) `mod` 10 = (10 - b `mod` 10) `mod` 10 ↔ a `mod` 10 = b `mod` 10.
Proof.
  pose proof (Z.mod_pos_bound a 10). pose proof (Z.mod_pos_bound b 10).
  set (x := a `mod` 10) in *. set (y := b `mod` 10) in *.
  assert (Hx : x = 0 ∨ x = 1 ∨ x = 2 ∨ x = 3 ∨ x = 4 ∨ x = 5 ∨ x = 6
               ∨ x = 7 ∨ x = 8 ∨ x = 9) by lia.
  assert (Hy : y = 0 ∨ y = 1 ∨ y = 2 ∨ y = 3 ∨ y = 4 ∨ y = 5 ∨ y = 6
               ∨ y = 7 ∨ y = 8 ∨ y = 9) by lia.
  clearbody x y.
  destruct Hx as [->|[->|[->|[->|[->|[->|[->|[->|[->| ->]]]]]]]]];
    destruct Hy as [->|[->|[->|[->|[->|[->|[->|[->|[->| ->]]]]]]]]];
    vm_compute; split; congruence.
Qed.

Lemma sums_agree_mod (rest x y : Z) :
  (rest + x) `mod` 10 = (rest + y) `mod` 10 ↔ (x - y) `mod` 10 = 0.
Proof.
  rewrite <- (Z.sub_move_0_r ((rest + x) `mod` 10)).
  split; intros H.
  - replace (x - y) with ((rest + x) - (rest + y)) by lia.
    rewrite Zminus_mod, H. reflexivity.
  - replace (x - y) with ((rest + x) - (rest + y)) in H by lia.
    rewrite Zminus_mod in H.
    pose proof (Z.mod_pos_bound (rest + x) 10). pose proof (Z.mod_pos_bound (rest + y) 10).
    set (p := (rest + x) `mod` 10) in *. set (q := (rest + y) `mod` 10) in *.
    clearbody p q.
    assert (p - q = 0 ∨ p - q ≠ 0) as [|Hne] by lia; [assumption|].
    exfalso. apply Z.mod_divide in H; [|lia]. destruct H as [k Hk]. lia.
Qed.

Ltac digit_cases d :=
  let H := fresh in
  assert (H : d = 0 ∨ d = 1 ∨ d = 2 ∨ d = 3 ∨ d = 4 ∨ d = 5 ∨ d = 6
              ∨ d = 7 ∨ d = 8 ∨ d = 9) by lia;
  destruct H as [->|[->|[->|[->|[->|[->|[->|[->|[->| ->]]]]]]]]].

(** The weight of a digit at an odd or an even position. *)
Lemma luhn_weight_injective (odd : bool) (a b : Z) :
  0 ≤ a ≤ 9 → 0 ≤ b ≤ 9 →
  ((if odd then a else doubled_digit_sum a)
   - (if odd then b else doubled_digit_sum b)) `mod` 10 = 0 →
  a = b.
Proof.
  intros Ha Hb. digit_cases a; digit_cases b; destruct odd; vm_compute; congruence.
Qed.

Lemma luhn_weight_swap (odd : bool) (a b : Z) :
  0 ≤ a ≤ 9 → 0 ≤ b ≤ 9 →
  (((if odd then b else doubled_digit_sum b)
    + (if negb odd then a else doubled_digit_sum a))
   - ((if odd then a else doubled_digit_sum a)
      + (if negb odd then b else doubled_digit_sum b))) `mod` 10 = 0
  ↔ a = b ∨ (a = 0 ∧ b = 9) ∨ (a = 9 ∧ b = 0).
Proof.
  intros Ha Hb. digit_cases a; digit_cases b; destruct odd; vm_compute;
    split; intros; try congruence; try tauto; try lia.
Qed.

(** The total of a number, split at one of its digits; the digit stands
    at an odd position from the right when an even number of digits
    follow it. *)
Lemma luhn_total_split (pre post : list Z) (x : Z) :
  luhn_total true (reverse (pre ++ x :: post))
  = (luhn_total true (reverse post)
     + luhn_total (negb (Nat.even (length post))) (reverse pre))
    + (if Nat.even (length post) then x else doubled_digit_sum x).
Proof.
  rewrite reverse_app, reverse_cons, <- app_assoc, luhn_total_app.
  cbn [app luhn_total]. rewrite length_reverse.
  destruct (Nat.even (length post)); cbn [negb]; lia.
Qed.

Lemma luhn_total_split2 (pre post : list Z) (x y : Z) :
  luhn_total true (reverse (pre ++ x :: y :: post))
  = (luhn_total true (reverse post)
     + luhn_total (Nat.even (length post)) (reverse pre))
    + ((if Nat.even (length post) then y else doubled_digit_sum y)
       + (if negb (Nat.even (length post)) then x else doubled_digit_sum x)).
Proof.
  rewrite reverse_app, !reverse_cons, <- !app_assoc, luhn_total_app.
  cbn [app luhn_total]. rewrite length_reverse.
  destruct (Nat.even (length post)); cbn [negb]; lia.
Qed.

Section CheckDigitFacts.
Context {U : Unicode}.

Lemma digit_values_range (s : str) (digits : list Z) :
  digit_values s digits → Forall (λ d, 0 ≤ d ≤ 9) digits.
Proof. induction 1; constructor; eauto using decimal_value_range. Qed.

(** X1. A single wrong digit changes the check digit: two strings of
    decimal digits that differ in one position only have different check
    digits. *)
Theorem check_digit_detects_substitution (pre post : str) (a b : codepoint)
    (pre_digits post_digits : list Z) (va vb : Z) :
  digit_values pre pre_digits → digit_values post post_digits →
  decimal_value a = Some va → decimal_value b = Some vb →
  va ≠ vb →
  ∃ d1 d2,
    calculate_luhn_check_digit (pre ++ a :: post) = inr d1
    ∧ calculate_luhn_check_digit (pre ++ b :: post) = inr d2
    ∧ d1 ≠ d2.
Proof.
  intros Hpre Hpost Ha Hb Hdiffer.
  assert (Hfirst : digit_values (pre ++ a :: post) (pre_digits ++ va :: post_digits))
    by (apply Forall2_app; [|constructor]; assumption).
  assert (Hsecond : digit_values (pre ++ b :: post) (pre_digits ++ vb :: post_digits))
    by (apply Forall2_app; [|constructor]; assumption).
  rewrite (calculate_luhn_check_digit_spec _ _ Hfirst),
          (calculate_luhn_check_digit_spec _ _ Hsecond).
  eexists _, _. split; [reflexivity|]. split; [reflexivity|].
  unfold luhn_check_digit. rewrite !luhn_total_split.
  intros Hsame. apply (proj1 (check_digits_agree _ _)) in Hsame.
  apply (proj1 (sums_agree_mod _ _ _)) in Hsame.
  apply Hdiffer, (luhn_weight_injective (Nat.even (length post_digits)));
    eauto using decimal_value_range.
Qed.

(** X2. Swapping two neighbouring digits changes the check digit, except
    when the digits are equal or are 0 and 9: the one transposition the
    scheme is blind to. *)
Theorem check_digit_detects_transposition (pre post : str) (a b : codepoint)
    (pre_digits post_digits : list Z) (va vb : Z) :
  digit_values pre pre_digits → digit_values post post_digits →
  decimal_value a = Some va → decimal_value b = Some vb →
  ∃ d1 d2,
    calculate_luhn_check_digit (pre ++ a :: b :: post) = inr d1
    ∧ calculate_luhn_check_digit (pre ++ b :: a :: post) = inr d2
    ∧ (d1 = d2 ↔ va = vb ∨ (va = 0 ∧ vb = 9) ∨ (va = 9 ∧ vb = 0)).
Proof.
  intros Hpre Hpost Ha Hb.
  assert (Hfirst : digit_values (pre ++ a :: b :: post)
                     (pre_digits ++ va :: vb :: post_digits))
    by (apply Forall2_app; [|constructor; [|constructor]]; assumption).
  assert (Hsecond : digit_values (pre ++ b :: a :: post)
                      (pre_digits ++ vb :: va :: post_digits))
    by (apply Forall2_app; [|constructor; [|constructor]]; assumption).
  rewrite (calculate_luhn_check_digit_spec _ _ Hfirst),
          (calculate_luhn_check_digit_spec _ _ Hsecond).
  eexists _, _. split; [reflexivity|]. split; [reflexivity|].
  unfold luhn_check_digit. rewrite !luhn_total_split2.
  rewrite check_digits_agree, sums_agree_mod.
  apply luhn_weight_swap; eauto using decimal_value_range.
Qed.

(** The two ways the call can end. *)
Lemma calculate_luhn_check_digit_cases (number : str) :
  match calculate_luhn_check_digit number with
  | inr d => decimal_digits number ∧ 0 ≤ d ≤ 9
  | inl e => ¬ decimal_digits number
             ∧ e = ValueError "invalid literal for int() with base 10"
  end.
Proof.
  destruct (decide (Forall (λ c, is_Some (decimal_value c)) number)) as [Hall|Hnot].
  - destruct (decimal_digits_values number Hall) as [digits Hdigits].
    rewrite (calculate_luhn_check_digit_spec _ _ Hdigits).
    split; [exact Hall|apply luhn_check_digit_range].
  - rewrite (calculate_luhn_check_digit_fails number (not_decimal_digits number Hnot)).
    split; [exact Hnot|reflexivity].
Qed.

(** X3. The check digit is computed for the strings of decimal digits and
    for no others: on such a string, the empty one included, the call
    returns a digit from 0 to 9; on any other it raises the [ValueError]
    of [int]. *)
Theorem check_digit_domain (number : str) :
  (decimal_digits number
   ↔ ∃ d, calculate_luhn_check_digit number = inr d ∧ 0 ≤ d ≤ 9)
  ∧ (¬ decimal_digits number
     ↔ calculate_luhn_check_digit number
       = inl (ValueError "invalid literal for int() with base 10"))
  ∧ calculate_luhn_check_digit [] = inr 0.
Proof.
  pose proof (calculate_luhn_check_digit_cases number) as Hcases.
  destruct (calculate_luhn_check_digit number) as [e|d].
  - destruct Hcases as [Hnot ->]. split; [|split; [|reflexivity]].
    + split; [done|]. intros (d & Hd & _). discriminate Hd.
    + split; done.
  - destruct Hcases as [Hall Hrange]. split; [|split; [|reflexivity]].
    + split; [eauto|done].
    + split; [done|discriminate].
Qed.

End CheckDigitFacts.

Lemma check_digit_detects_substitution_witness :
  ∃ d1 d2,
    @calculate_luhn_check_digit ucd_excerpt (lit "402" ++ 49%N :: lit "5") = inr d1
    ∧ @calculate_luhn_check_digit ucd_excerpt (lit "402" ++ 55%N :: lit "5") = inr d2
    ∧ d1 ≠ d2.
Proof.
  apply (@check_digit_detects_substitution ucd_excerpt
           (lit "402") (lit "5") 49%N 55%N [4; 0; 2] [5] 1 7).
  - repeat constructor.
  - repeat constructor.
  - reflexivity.
  - reflexivity.
  - lia.
Defined.

Lemma check_digit_detects_transposition_witness :
  ∃ d1 d2,
    @calculate_luhn_check_digit ucd_excerpt (lit "40" ++ 48%N :: 57%N :: lit "5") = inr d1
    ∧ @calculate_luhn_check_digit ucd_excerpt (lit "40" ++ 57%N :: 48%N :: lit "5") = inr d2
    ∧ (d1 = d2 ↔ 0 = 9 ∨ (0 = 0 ∧ 9 = 9) ∨ (0 = 9 ∧ 9 = 0)).
Proof.
  apply (@check_digit_detects_transposition ucd_excerpt
           (lit "40") (lit "5") 48%N 57%N [4; 0] [5] 0 9).
  - repeat constructor.
  - repeat constructor.
  - reflexivity.
  - reflexivity.
Defined.

(** ** Enrolment, continued *)

Lemma valid_gender_iff (gender : option str) :
  valid_gender gender
  ↔ bool_decide ((if falsy gender then Student.Gender_OTHER else default [] gender)
                 ∈ fst <$> Student.Gender_choices) = true.
Proof.
  split; [apply valid_gender_passes|].
  intros Hin%bool_decide_eq_true_1.
  destruct (falsy gender) eqn:Hfalsy; [left; exact Hfalsy|].
  destruct gender as [g|]; [|discriminate Hfalsy].
  right. exists g. split; [reflexivity|exact Hin].
Qed.

Section EnrolmentMore.
Context {U : Unicode}.

(** The exceptions of the issuer. *)
Lemma generate_admission_number_raises (total_length : Z) (w w' : World) (e : exn) :
  generate_admission_number total_length w = (Raise e, w') →
  e ∈ [ValueError "SCHOOL_CODE must be set and numeric.";
       ValueError "SCHOOL_CODE too long for the configured admission number length.";
       ValueError "invalid literal for int() with base 10"].
Proof.
  rewrite generate_admission_number_eq.
  destruct (environ w !! "SCHOOL_CODE") as [code|]; [|intros [= <- _]; repeat constructor].
  destruct (_ || _); [intros [= <- _]; repeat constructor|].
  cbv zeta. destruct (_ <=? 0); [intros [= <- _]; repeat constructor|].
  pose proof (calculate_luhn_check_digit_cases
                (code ++ random_digits w (Z.to_nat (total_length - Z.of_nat (length code) - 1))))
    as Hcases.
  destruct (calculate_luhn_check_digit _) as [e0|d]; [|discriminate].
  destruct Hcases as [_ ->]. intros [= <- _]. repeat constructor.
Qed.

(** A process whose issuer returned a number gets a number from it at
    every later draw as well. *)
Lemma generate_admission_number_again (total_length : Z) (w w1 w2 : World) (number : str) :
  generate_admission_number total_length w = (Return number, w1) →
  environ w2 = environ w →
  ∃ number2 k, generate_admission_number total_length w2 = (Return number2, set_drawn k w2).
Proof.
  rewrite !generate_admission_number_eq. intros Hfirst ->.
  destruct (environ w !! "SCHOOL_CODE") as [code|]; [|discriminate Hfirst].
  destruct (_ || _); [discriminate Hfirst|].
  cbv zeta in *. destruct (_ <=? 0); [discriminate Hfirst|].
  set (n := Z.to_nat (total_length - Z.of_nat (length code) - 1)) in *.
  pose proof (calculate_luhn_check_digit_cases (code ++ random_digits w n)) as Hcases.
  destruct (calculate_luhn_check_digit (code ++ random_digits w n)); [discriminate Hfirst|].
  destruct Hcases as [Hall _]. apply Forall_app in Hall as [Hcode _].
  destruct (decimal_digits_values code Hcode) as [code_digits Hcode_digits].
  destruct (random_digits_values w2 n) as [random_values Hrandom].
  rewrite (calculate_luhn_check_digit_spec _ (code_digits ++ random_values))
    by (apply Forall2_app; assumption).
  eexists _, _. reflexivity.
Qed.

(** The loop, round by round: a student is returned only by the first
    round, for a number no row carries. *)
Lemma create_until_inserted_full (fuel : nat) (user : User.t) (hs : bool)
    (fn ln g : str) (w : World) :
  in_atomic_block w = true →
  ∃ r w',
    create_until_inserted fuel user hs fn ln g w = (r, w')
    ∧ in_atomic_block w' = true
    ∧ run_on_commit w' = run_on_commit w
    ∧ match r with
      | Return s =>
          needs_rollback w = false ∧ needs_rollback w' = false
          ∧ db w' = with_students (λ rows, rows ++ [s]) (db w)
          ∧ ∃ n, fst (generate_admission_number 16 w) = Return n
                 ∧ (n ∉ Student.admission_number <$> students (db w))
                 ∧ s = Student.init user n hs (str_title (str_strip fn))
                         (str_title (str_strip ln)) g
      | Raise e =>
          db w' = db w
          ∧ e ∈ [ValueError "SCHOOL_CODE must be set and numeric.";
                 ValueError "SCHOOL_CODE too long for the configured admission number length.";
                 ValueError "invalid literal for int() with base 10";
                 TransactionManagementError]
      | Running => db w' = db w ∧ (fuel = 0%nat ∨ (fuel = 1%nat ∧ needs_rollback w = false))
      end.
Proof.
  revert w. induction fuel as [|fuel IH]; intros w Hatomic.
  - exists Running, w. cbn. repeat split; auto.
  - cbn [create_until_inserted]. unfold mbind, M_bind at 1.
    destruct (generate_admission_number_frame 16 w) as (r & k & Hissued & Hends).
    rewrite Hissued.
    destruct r as [n|e|]; [| |done].
    2:{ eexists _, _. split; [reflexivity|]. cbn. repeat split; auto.
        apply generate_admission_number_raises in Hissued.
        clear -Hissued. rewrite !elem_of_cons in *. tauto. }
    unfold try_except. rewrite Student_objects_create_eq. cbn.
    rewrite Hatomic.
    destruct (needs_rollback w) eqn:Hbroken.
    { eexists _, _. split; [reflexivity|]. cbn. repeat split; auto. repeat constructor. }
    destruct (bool_decide _) eqn:Htaken.
    2:{ eexists _, _. split; [reflexivity|]. cbn. repeat split; eauto.
        exists n. split; [reflexivity|]. split; [|reflexivity].
        apply bool_decide_eq_false in Htaken. exact Htaken. }
    destruct (IH (set_needs_rollback true (set_drawn k w))) as (r & w' & Hrun & Hin & Hhooks & Hr);
      [exact Hatomic|].
    exists r, w'. split; [exact Hrun|]. split; [exact Hin|]. split; [exact Hhooks|].
    destruct r as [s|e|]; cbn in Hr.
    + destruct Hr as [Hfalse _]. discriminate.
    + exact Hr.
    + destruct Hr as [Hdb [->|[_ Hfalse]]]; [|discriminate]. auto.
Qed.

Lemma atomic_enter_fields (w : World) :
  db (atomic_enter w) = db w
  ∧ run_on_commit (atomic_enter w) = run_on_commit w
  ∧ environ (atomic_enter w) = environ w
  ∧ entropy (atomic_enter w) = entropy w
  ∧ drawn (atomic_enter w) = drawn w
  ∧ in_atomic_block (atomic_enter w) = true
  ∧ needs_rollback (atomic_enter w) = in_atomic_block w && needs_rollback w.
Proof. unfold atomic_enter. destruct (in_atomic_block w); cbn; auto 10. Qed.

Lemma generate_admission_number_atomic_enter (total_length : Z) (w : World) :
  fst (generate_admission_number total_length (atomic_enter w))
  = fst (generate_admission_number total_length w).
Proof.
  destruct (atomic_enter_fields w) as (_ & _ & Henv & Hentropy & Hdrawn & _).
  destruct (generate_admission_number_same total_length w (atomic_enter w))
    as (r & k & -> & ->); auto.
Qed.

(** The call, outcome by outcome. *)
Lemma create_student_account_full (fuel : nat) (user : User.t)
    (first_name last_name gender : option str) (w : World) :
  let fn := if falsy first_name then lit "Student" else default [] first_name in
  let ln :=
    if falsy last_name
    then (if falsy (User.last_name user) then lit "Account"
          else default [] (User.last_name user))
    else default [] last_name in
  let g := if falsy gender then Student.Gender_OTHER else default [] gender in
  let stored (s : Student.t) :=
    valid_gender gender
    ∧ ∃ n, fst (generate_admission_number 16 w) = Return n
           ∧ (n ∉ Student.admission_number <$> students (db w))
           ∧ s = Student.init user n
                   (bool_decide (Student_filter_parent user (students (db w)) ≠ []))
                   (str_title (str_strip fn)) (str_title (str_strip ln)) g in
  ∃ r w',
    create_student_account fuel user first_name last_name gender w = (r, w')
    ∧ match r with
      | Return s =>
          in_atomic_block w = true ∧ needs_rollback w = false
          ∧ in_atomic_block w' = true ∧ needs_rollback w' = false
          ∧ db w' = with_students (λ rows, rows ++ [s]) (db w)
          ∧ run_on_commit w'
            = run_on_commit w ++ [lambda_send_account_creation_email user s]
          ∧ stored s
      | Raise e =>
          (¬ valid_gender gender ∧ w' = w
           ∧ e = ValueError "Invalid gender value. Allowed: ['female', 'male', 'other']")
          ∨ (valid_gender gender
             ∧ db w' = db w ∧ in_atomic_block w' = in_atomic_block w
             ∧ (in_atomic_block w = true →
                  needs_rollback w' = needs_rollback w
                  ∧ run_on_commit w' = run_on_commit w)
             ∧ (in_atomic_block w = false → run_on_commit w' = [])
             ∧ e ∈ [ValueError "SCHOOL_CODE must be set and numeric.";
                    ValueError "SCHOOL_CODE too long for the configured admission number length.";
                    ValueError "invalid literal for int() with base 10";
                    TransactionManagementError])
          ∨ (in_atomic_block w = false ∧ in_atomic_block w' = false
             ∧ run_on_commit w' = []
             ∧ e = NameError "send_account_creation_email"
             ∧ ∃ s, db w' = with_students (λ rows, rows ++ [s]) (db w) ∧ stored s)
      | Running => (fuel < 2)%nat ∧ db w' = db w
      end.
Proof.
  intros fn ln g stored.
  unfold create_student_account. fold fn ln g.
  destruct (bool_decide (g ∈ fst <$> Student.Gender_choices)) eqn:Hgender; cbn [negb].
  2:{ eexists _, _. split; [reflexivity|]. left. split; [|done].
      intros Hvalid%valid_gender_iff. fold g in Hvalid. congruence. }
  apply valid_gender_iff in Hgender.
  unfold mbind, M_bind at 1.
  match goal with |- context [atomic ?b w] => set (body := b) end.
  unfold atomic.
  destruct (atomic_enter_fields w)
    as (HdbA & HhooksA & _ & _ & _ & HinA & HbrokenA).
  pose proof (generate_admission_number_atomic_enter 16 w) as HissuedA.
  set (wA := atomic_enter w) in *.
  assert (Hbody : ∃ r w1, body wA = (r, w1) ∧ in_atomic_block w1 = true
     ∧ match r with
       | Return s => needs_rollback wA = false ∧ needs_rollback w1 = false
            ∧ db w1 = with_students (λ rows, rows ++ [s]) (db w)
            ∧ run_on_commit w1
              = run_on_commit w ++ [lambda_send_account_creation_email user s]
            ∧ stored s
       | Raise e =>
           db w1 = db w ∧ run_on_commit w1 = run_on_commit w
           ∧ e ∈ [ValueError "SCHOOL_CODE must be set and numeric.";
                  ValueError "SCHOOL_CODE too long for the configured admission number length.";
                  ValueError "invalid literal for int() with base 10";
                  TransactionManagementError]
       | Running => (fuel < 2)%nat ∧ db w1 = db w
       end).
  { subst body. unfold mbind, M_bind at 1. rewrite Student_filter_parent_exists_eq.
    destruct (needs_rollback wA) eqn:Hbroken.
    { eexists _, _. split; [reflexivity|]. split; [exact HinA|].
      split; [exact HdbA|]. split; [exact HhooksA|]. repeat constructor. }
    unfold M_bind at 1.
    edestruct (create_until_inserted_full fuel user) as (r & w1 & -> & Hin & Hhooks & Hr);
      [exact HinA|].
    rewrite HhooksA in Hhooks. rewrite HdbA, ?HissuedA in Hr.
    destruct r as [s|e|].
    - destruct Hr as (_ & Hok & Hdb & n & Hissued & Hfresh & Hs).
      unfold mbind, M_bind. rewrite on_commit_eq, Hin. cbn.
      eexists _, _. split; [reflexivity|]. cbn. rewrite Hin, Hok, Hdb, Hhooks.
      repeat split; try done. exists n. done.
    - eexists _, _. split; [reflexivity|]. destruct Hr. auto.
    - eexists _, _. split; [reflexivity|]. split; [exact Hin|].
      destruct Hr as [Hdb [->|[-> _]]]; (split; [lia|exact Hdb]). }
  destruct Hbody as (r & w1 & -> & Hin & Hr). clearbody body.
  unfold run_and_clear_commit_hooks, get_world, modify_world, mbind, M_bind.
  destruct r as [s|e|]; cbn [is_Return andb].
  - destruct Hr as (Hentry & Hok & Hdb & Hhooks & Hs).
    cbn [needs_rollback set_in_atomic_block]. rewrite Hok. cbn [negb].
    destruct (in_atomic_block w) eqn:Hnested.
    + rewrite Hentry in HbrokenA. cbn [andb] in HbrokenA.
      eexists _, _. split; [reflexivity|]. cbn. auto 10.
    + rewrite run_callbacks_eq. cbn [run_on_commit set_in_atomic_block].
      rewrite Hhooks. destruct (run_on_commit w); cbn [app];
        (eexists _, _; split; [reflexivity|]; right; right; cbn; eauto 10).
  - destruct Hr as (Hdb & Hhooks & He).
    destruct (in_atomic_block w) eqn:Hnested.
    + destruct (needs_rollback w) eqn:Hbroken; cbn [negb andb];
        eexists _, _; (split; [reflexivity|]); right; left; cbn;
        repeat split; try done; auto.
    + eexists _, _. split; [reflexivity|]. right; left. cbn. repeat split; done.
  - eexists _, _. split; [reflexivity|]. exact Hr.
Qed.

(** X4. [generate_admission_number] writes nothing but the position of
    the random source: no row, no callback, no transaction state.  A
    number uses exactly [total_length - len(code) - 1] draws, the ones
    that follow the position the call found, and a refusal of the
    configuration uses none. *)
Theorem generate_admission_number_draws (total_length : Z) (w : World) :
  ∃ r k,
    generate_admission_number total_length w = (r, set_drawn k w)
    ∧ match r with
      | Return number =>
          ∃ code check,
            environ w !! "SCHOOL_CODE" = Some code
            ∧ let remaining := Z.to_nat (total_length - Z.of_nat (length code) - 1) in
              k = (drawn w + remaining)%nat
              ∧ (0 < remaining)%nat
              ∧ number = code ++ random_digits w remaining ++ check
      | Raise e =>
          e = ValueError "invalid literal for int() with base 10" ∨ k = drawn w
      | Running => False
      end.
Proof.
  rewrite generate_admission_number_eq.
  destruct (environ w !! "SCHOOL_CODE") as [code|].
  2:{ eexists _, (drawn w). rewrite set_drawn_same. split; [reflexivity|]. by right. }
  destruct (_ || _).
  { eexists _, (drawn w). rewrite set_drawn_same. split; [reflexivity|]. by right. }
  cbv zeta. destruct (Z.leb_spec (total_length - Z.of_nat (length code) - 1) 0).
  { eexists _, (drawn w). rewrite set_drawn_same. split; [reflexivity|]. by right. }
  pose proof (calculate_luhn_check_digit_cases
                (code ++ random_digits w (Z.to_nat (total_length - Z.of_nat (length code) - 1))))
    as Hcases.
  destruct (calculate_luhn_check_digit _) as [e|d].
  - destruct Hcases as [_ ->]. eexists _, _. split; [reflexivity|]. by left.
  - eexists _, _. split; [reflexivity|]. exists code, (str_of_int d).
    split; [reflexivity|]. split; [reflexivity|]. split; [lia|].
    by rewrite <- app_assoc.
Qed.

(** X5. A gender outside the three choices is refused before anything
    else happens: the call raises the [ValueError] that lists the choices
    and leaves the process exactly as it was, whatever the state of the
    connection; and the call raises that error for no other reason. *)
Theorem invalid_gender_is_refused_first (fuel : nat) (user : User.t)
    (first_name last_name gender : option str) (w : World) :
  let refusal :=
    Raise (ValueError "Invalid gender value. Allowed: ['female', 'male', 'other']") in
  (¬ valid_gender gender
   ↔ create_student_account fuel user first_name last_name gender w = (refusal, w))
  ∧ (¬ valid_gender gender
     ↔ fst (create_student_account fuel user first_name last_name gender w) = refusal).
Proof.
  destruct (create_student_account_full fuel user first_name last_name gender w)
    as (r & w' & Hrun & Hr).
  cbv zeta. rewrite Hrun. cbn [fst].
  assert (Hcases : (¬ valid_gender gender
                    ∧ (r, w') = (Raise (ValueError
                         "Invalid gender value. Allowed: ['female', 'male', 'other']"), w))
                   ∨ (valid_gender gender
                      ∧ r ≠ Raise (ValueError
                         "Invalid gender value. Allowed: ['female', 'male', 'other']"))).
  { destruct r as [s|e|].
    - right. destruct Hr as (_ & _ & _ & _ & _ & _ & Hvalid & _). done.
    - destruct Hr as [(Hnot & -> & ->)|[(Hvalid & _ & _ & _ & _ & He)|(_ & _ & _ & -> & s & _ & Hvalid & _)]].
      + left. done.
      + right. split; [exact Hvalid|]. intros [= ->].
        rewrite !elem_of_cons in He. rewrite elem_of_nil in He.
        destruct He as [He|[He|[He|[He|[]]]]]; discriminate He.
      + right. done.
    - right. split; [|done].
      apply valid_gender_iff. unfold create_student_account in Hrun.
      destruct (bool_decide _); [reflexivity|discriminate Hrun]. }
  destruct Hcases as [[Hnot Heq]|[Hvalid Hne]].
  - rewrite Heq. injection Heq as -> _. done.
  - split; split; try done. intros [= Heq _]. done.
Qed.

(** X6. A collision is never retried with success.  When the first
    number issued is already taken, the insert fails and marks the atomic
    block for rollback; the second round of the loop issues a number, but
    the connection refuses its insert with [TransactionManagementError],
    which the loop does not catch.  The call raises that error and the
    rows are the ones it found. *)
Theorem collision_is_never_retried (fuel : nat) (user : User.t)
    (first_name last_name gender : option str) (w w_issued : World) (number : str) :
  (2 ≤ fuel)%nat →
  valid_gender gender →
  (in_atomic_block w = true → needs_rollback w = false) →
  generate_admission_number 16 w = (Return number, w_issued) →
  number ∈ Student.admission_number <$> students (db w) →
  ∃ w',
    create_student_account fuel user first_name last_name gender w
      = (Raise TransactionManagementError, w')
    ∧ db w' = db w.
Proof.
  intros Hfuel Hgender Husable Hissued Htaken.
  destruct fuel as [|[|fuel]]; [lia|lia|].
  unfold create_student_account.
  rewrite (valid_gender_passes gender Hgender). cbn [negb].
  unfold mbind, M_bind at 1.
  match goal with |- context [atomic ?b w] => set (body := b) end.
  unfold atomic.
  destruct (atomic_enter_fields w)
    as (HdbA & HhooksA & HenvA & HentropyA & HdrawnA & HinA & HbrokenA).
  assert (Hclean : needs_rollback (atomic_enter w) = false).
  { rewrite HbrokenA. destruct (in_atomic_block w); [|reflexivity]. cbn. auto. }
  destruct (generate_admission_number_same 16 w (atomic_enter w)) as (r & k & Hw & HwA);
    [assumption ..|].
  rewrite Hissued in Hw. injection Hw as <- _.
  set (wA := atomic_enter w) in *. clearbody wA.
  set (w2 := set_needs_rollback true (set_drawn k wA)).
  destruct (generate_admission_number_again 16 wA (set_drawn k wA) w2 number HwA)
    as (number2 & k2 & Hsecond); [reflexivity|].
  assert (Hbody : ∃ w3, body wA = (Raise TransactionManagementError, w3) ∧ db w3 = db w).
  { subst body. unfold mbind, M_bind at 1.
    rewrite Student_filter_parent_exists_eq, Hclean.
    unfold M_bind at 1. cbn [create_until_inserted]. unfold mbind, M_bind at 1.
    rewrite HwA. unfold try_except at 1. rewrite Student_objects_create_eq.
    change (in_atomic_block (set_drawn k wA)) with (in_atomic_block wA).
    change (needs_rollback (set_drawn k wA)) with (needs_rollback wA).
    change (db (set_drawn k wA)) with (db wA).
    rewrite Hclean, HdbA, HinA.
    rewrite bool_decide_eq_true_2 by exact Htaken.
    cbv zeta. fold w2. unfold M_bind at 1. rewrite Hsecond.
    unfold try_except. rewrite Student_objects_create_eq.
    change (needs_rollback (set_drawn k2 w2)) with true.
    change (in_atomic_block (set_drawn k2 w2)) with (in_atomic_block wA).
    rewrite HinA. eexists. split; [reflexivity|]. cbn. exact HdbA. }
  destruct Hbody as (w3 & -> & Hdb). clearbody body.
  cbn [is_Return andb].
  destruct (in_atomic_block w) eqn:Hnested.
  - rewrite (Husable eq_refl). cbn [negb andb].
    eexists. split; [reflexivity|]. reflexivity.
  - eexists. split; [reflexivity|]. reflexivity.
Qed.

(** X7. The call keeps the admission numbers of the table distinct,
    however it ends: a row is stored only under a number that no row
    carries. *)
Theorem admission_numbers_stay_distinct (fuel : nat) (user : User.t)
    (first_name last_name gender : option str) (w : World) :
  NoDup (Student.admission_number <$> students (db w)) →
  NoDup (Student.admission_number
           <$> students (db (snd (create_student_account fuel user
                                    first_name last_name gender w)))).
Proof.
  intros Hdistinct.
  destruct (create_student_account_full fuel user first_name last_name gender w)
    as (r & w' & -> & Hr).
  cbn [snd].
  assert (Hstored : ∀ s n,
            db w' = with_students (λ rows, rows ++ [s]) (db w) →
            n ∉ Student.admission_number <$> students (db w) →
            Student.admission_number s = n →
            NoDup (Student.admission_number <$> students (db w'))).
  { intros s n -> Hfresh Hn. cbn. rewrite fmap_app. apply NoDup_app.
    split; [exact Hdistinct|]. split; [|apply NoDup_singleton].
    intros x Hx [->|[]%elem_of_nil]%elem_of_cons. cbn in Hx. congruence. }
  destruct r as [s|e|].
  - destruct Hr as (_ & _ & _ & _ & Hdb & _ & _ & n & _ & Hfresh & ->).
    eapply Hstored; [exact Hdb|exact Hfresh|reflexivity].
  - destruct Hr as [(_ & -> & _)|[(_ & -> & _)|(_ & _ & _ & _ & s & Hdb & _ & n & _ & Hfresh & ->)]];
      [exact Hdistinct|exact Hdistinct|].
    eapply Hstored; [exact Hdb|exact Hfresh|reflexivity].
  - destruct Hr as [_ ->]. exact Hdistinct.
Qed.

(** X8. What the call stores.  Whenever it changes the table of
    students, it has appended one row, whose names are the given ones (or
    the defaults: "Student", the parent's last name, "Account") stripped
    and title-cased, whose gender is the given one (or "other") and is one
    of the three choices, whose number is the first one the issuer gave,
    and whose remaining columns are the defaults of the model. *)
Theorem stored_row_is_normalised (fuel : nat) (user : User.t)
    (first_name last_name gender : option str) (w : World) :
  let result := create_student_account fuel user first_name last_name gender w in
  let given (value : option str) (fallback : str) :=
    if falsy value then fallback else default [] value in
  students (db (snd result)) = students (db w)
  ∨ ∃ s,
      students (db (snd result)) = students (db w) ++ [s]
      ∧ fst (generate_admission_number 16 w) = Return (Student.admission_number s)
      ∧ Student.first_name s = str_title (str_strip (given first_name (lit "Student")))
      ∧ Student.last_name s
        = str_title (str_strip (given last_name (given (User.last_name user) (lit "Account"))))
      ∧ Student.gender s = given gender (lit "other")
      ∧ Student.gender s ∈ [lit "male"; lit "female"; lit "other"]
      ∧ Student.verification_date s = None
      ∧ Student.verification_notes s = []
      ∧ Student.image s = None
      ∧ Student.image_url s = None.
Proof.
  destruct (create_student_account_full fuel user first_name last_name gender w)
    as (r & w' & Hrun & Hr).
  cbv zeta. rewrite Hrun. cbn [fst snd].
  assert (Hstored : ∀ s,
    db w' = with_students (λ rows, rows ++ [s]) (db w) →
    (valid_gender gender
     ∧ ∃ n, fst (generate_admission_number 16 w) = Return n
            ∧ (n ∉ Student.admission_number <$> students (db w))
            ∧ s = Student.init user n
                    (bool_decide (Student_filter_parent user (students (db w)) ≠ []))
                    (str_title (str_strip
                       (if falsy first_name then lit "Student" else default [] first_name)))
                    (str_title (str_strip
                       (if falsy last_name
                        then (if falsy (User.last_name user) then lit "Account"
                              else default [] (User.last_name user))
                        else default [] last_name)))
                    (if falsy gender then Student.Gender_OTHER else default [] gender)) →
    ∃ s, students (db w') = students (db w) ++ [s]
      ∧ fst (generate_admission_number 16 w) = Return (Student.admission_number s)
      ∧ Student.first_name s
        = str_title (str_strip
            (if falsy first_name then lit "Student" else default [] first_name))
      ∧ Student.last_name s
        = str_title (str_strip
            (if falsy last_name
             then (if falsy (User.last_name user) then lit "Account"
                   else default [] (User.last_name user))
             else default [] last_name))
      ∧ Student.gender s = (if falsy gender then lit "other" else default [] gender)
      ∧ Student.gender s ∈ [lit "male"; lit "female"; lit "other"]
      ∧ Student.verification_date s = None
      ∧ Student.verification_notes s = []
      ∧ Student.image s = None
      ∧ Student.image_url s = None).
  { intros s -> (Hvalid & n & Hissued & _ & ->). eexists. split; [reflexivity|].
    cbn. split; [exact Hissued|]. repeat split.
    apply valid_gender_iff, bool_decide_eq_true_1 in Hvalid. exact Hvalid. }
  destruct r as [s|e|].
  - right. destruct Hr as (_ & _ & _ & _ & Hdb & _ & Hs). exact (Hstored s Hdb Hs).
  - destruct Hr as [(_ & -> & _)|[(_ & -> & _)|(_ & _ & _ & _ & s & Hdb & Hs)]];
      [left; reflexivity|left; reflexivity|].
    right. exact (Hstored s Hdb Hs).
  - destruct Hr as [_ ->]. left. reflexivity.
Qed.

(** X9. The e-mail is deferred, never sent inside a block.  Called inside
    an atomic block, the call that returns a student has added exactly one
    callback, for that user and that student, behind the ones that were
    registered; the call that raises leaves the registered callbacks as
    they were. *)
Theorem email_is_deferred_to_commit (fuel : nat) (user : User.t)
    (first_name last_name gender : option str) (w : World) :
  in_atomic_block w = true →
  let result := create_student_account fuel user first_name last_name gender w in
  match fst result with
  | Return s =>
      run_on_commit (snd result)
      = run_on_commit w ++ [lambda_send_account_creation_email user s]
  | Raise _ => run_on_commit (snd result) = run_on_commit w
  | Running => (fuel < 2)%nat
  end.
Proof.
  intros Hnested.
  destruct (create_student_account_full fuel user first_name last_name gender w)
    as (r & w' & Hrun & Hr).
  cbv zeta. rewrite Hrun. cbn [fst snd].
  destruct r as [s|e|].
  - destruct Hr as (_ & _ & _ & _ & _ & Hhooks & _). exact Hhooks.
  - destruct Hr as [(_ & -> & _)|[(_ & _ & _ & Hkept & _)|(Htop & _)]].
    + reflexivity.
    + apply Hkept, Hnested.
    + congruence.
  - apply Hr.
Qed.

(** X10. Outside every atomic block the call never returns a student.
    The commit runs the callback, which calls a name [utils.py] does not
    bind: whenever the call has stored a row, it has raised [NameError],
    the row is committed and no callback is left registered.  It does
    store a row when the gender is valid and the first number issued is
    not taken. *)
Theorem autocommit_enrolment_never_returns (fuel : nat) (user : User.t)
    (first_name last_name gender : option str) (w : World) :
  in_atomic_block w = false →
  let result := create_student_account fuel user first_name last_name gender w in
  (∀ s, fst result ≠ Return s)
  ∧ (students (db (snd result)) ≠ students (db w) →
       fst result = Raise (NameError "send_account_creation_email")
       ∧ run_on_commit (snd result) = []
       ∧ in_atomic_block (snd result) = false)
  ∧ ((1 ≤ fuel)%nat → valid_gender gender →
     (∀ number, fst (generate_admission_number 16 w) = Return number →
        number ∉ Student.admission_number <$> students (db w) →
        fst result = Raise (NameError "send_account_creation_email")
        ∧ ∃ s, students (db (snd result)) = students (db w) ++ [s]
               ∧ Student.admission_number s = number)).
Proof.
  intros Htop.
  destruct (create_student_account_full fuel user first_name last_name gender w)
    as (r & w' & Hrun & Hr).
  cbv zeta. rewrite Hrun. cbn [fst snd].
  assert (Hnever : ∀ s, r ≠ Return s).
  { intros s ->. destruct Hr as (Hnested & _). congruence. }
  assert (Hchanged : students (db w') ≠ students (db w) →
            r = Raise (NameError "send_account_creation_email")
            ∧ run_on_commit w' = [] ∧ in_atomic_block w' = false).
  { intros Hrows. destruct r as [s|e|].
    - by destruct (Hnever s).
    - destruct Hr as [(_ & -> & _)|[(_ & Hdb & _)|(_ & Hout & Hhooks & -> & _)]].
      + done.
      + rewrite Hdb in Hrows. done.
      + done.
    - destruct Hr as [_ Hdb]. rewrite Hdb in Hrows. done. }
  split; [exact Hnever|]. split; [exact Hchanged|].
  intros Hfuel Hvalid number Hissued Hfresh.
  destruct (generate_admission_number 16 w) as [r0 w_issued] eqn:Hgen.
  cbn [fst] in Hissued. subst r0.
  destruct (create_student_account_inserts fuel user first_name last_name gender
              w w_issued number Hfuel Hvalid) as (r1 & w1 & s & Hrun1 & Hrows & Hnumber & _);
    [intros; congruence|exact Hgen|exact Hfresh|].
  rewrite Hrun in Hrun1. injection Hrun1 as <- <-.
  split; [|eauto].
  apply Hchanged. rewrite Hrows. intros Hsame.
  apply (f_equal length) in Hsame. rewrite length_app in Hsame. cbn in Hsame. lia.
Qed.

End EnrolmentMore.

Lemma collision_is_never_retried_witness :
  let w :=
    world_of (Some (lit "4021")) (λ k, k)
      {| students := [student_of other_parent "4021012345678909"];
         transaction_items := []; profiles := []; content_views := [] |} in
  ∃ w',
    @create_student_account ucd_excerpt 2 sample_parent None None None w
      = (Raise TransactionManagementError, w')
    ∧ db w' = db w.
Proof.
  cbv zeta.
  eapply (@collision_is_never_retried ucd_excerpt 2 sample_parent None None None).
  - lia.
  - left. reflexivity.
  - intros _. reflexivity.
  - vm_compute. reflexivity.
  - vm_compute. left.
Defined.

Lemma admission_numbers_stay_distinct_witness :
  NoDup (Student.admission_number
           <$> students (db (snd (@create_student_account ucd_excerpt 2 sample_parent
                                    None None None sample_world)))).
Proof.
  apply (@admission_numbers_stay_distinct ucd_excerpt 2 sample_parent None None None
           sample_world).
  vm_compute. apply NoDup_singleton.
Defined.

Lemma email_is_deferred_to_commit_witness :
  let result :=
    @create_student_account ucd_excerpt 2 sample_parent None None None
      (set_in_atomic_block true sample_world) in
  match fst result with
  | Return s =>
      run_on_commit (snd result)
      = run_on_commit (set_in_atomic_block true sample_world)
        ++ [lambda_send_account_creation_email sample_parent s]
  | Raise _ => run_on_commit (snd result) = run_on_commit (set_in_atomic_block true sample_world)
  | Running => (2 < 2)%nat
  end.
Proof.
  apply (@email_is_deferred_to_commit ucd_excerpt 2 sample_parent None None None
           (set_in_atomic_block true sample_world)).
  reflexivity.
Defined.

Lemma autocommit_enrolment_never_returns_witness :
  fst (@create_student_account ucd_excerpt 2 sample_parent None None None sample_world)
  = Raise (NameError "send_account_creation_email").
Proof.
  apply (@autocommit_enrolment_never_returns ucd_excerpt 2 sample_parent None None None
           sample_world eq_refl).
  vm_compute. intros Hsame. discriminate Hsame.
Defined.

(** ** The transaction ledger, continued *)

Lemma nil_Permutation_decide {A} (l l' : list A) :
  l ≡ₚ l' → bool_decide (l = []) = bool_decide (l' = []).
Proof.
  intros Hperm. apply bool_decide_ext. split; intros ->.
  - apply Permutation_nil_l in Hperm. done.
  - apply Permutation_nil_r in Hperm. done.
Qed.

Lemma foldr_add_Permutation (l l' : list Z) :
  l ≡ₚ l' → foldr Z.add 0 l = foldr Z.add 0 l'.
Proof. induction 1; cbn; lia. Qed.

(** The items of a transaction, in a table put together from two. *)
Lemma Transaction_items_Permutation (table table' others : list TransactionItem.t)
    (self : Transaction.t) :
  (∀ ti, ti ∈ others → Some (TransactionItem.transaction_id ti) ≠ Transaction.pk self) →
  table' ≡ₚ table ++ others →
  Transaction.items table' self ≡ₚ Transaction.items table self.
Proof.
  intros Hothers Hperm. unfold Transaction.items.
  assert (Hnone : filter (λ ti, Some (TransactionItem.transaction_id ti) = Transaction.pk self)
                          others = []).
  { clear Hperm. induction others as [|ti others IH]; [reflexivity|].
    rewrite filter_cons. destruct (decide _) as [Hmine|_].
    - exfalso. revert Hmine. apply Hothers. left.
    - apply IH. intros x Hx. apply Hothers. right. exact Hx. }
  rewrite Hperm, filter_app, Hnone, app_nil_r. reflexivity.
Qed.

(** X11. [clean] reads the line items of its own transaction and nothing
    else of the table, and it does not depend on the order of the rows:
    rows of other transactions can be added, and the rows rearranged,
    without changing what is raised. *)
Theorem clean_reads_own_items_only (table table' others : list TransactionItem.t)
    (self : Transaction.t) :
  (∀ ti, ti ∈ others → Some (TransactionItem.transaction_id ti) ≠ Transaction.pk self) →
  table' ≡ₚ table ++ others →
  Transaction.clean table' self = Transaction.clean table self.
Proof.
  intros Hothers Hperm.
  pose proof (Transaction_items_Permutation table table' others self Hothers Hperm)
    as Hitems.
  rewrite !clean_eq.
  assert (Hnone : bool_decide (Transaction.items table' self = [])
                  = bool_decide (Transaction.items table self = []))
    by (apply nil_Permutation_decide, Hitems).
  assert (Hsum : item_sum table' self = item_sum table self).
  { unfold item_sum. apply foldr_add_Permutation. by rewrite Hitems. }
  assert (Howner : bool_decide (violating_items table' self ≠ [])
                   = bool_decide (violating_items table self ≠ [])).
  { rewrite !bool_decide_not. f_equal. apply nil_Permutation_decide.
    unfold violating_items. by rewrite Hitems. }
  rewrite Hnone, Hsum, Howner. reflexivity.
Qed.

(** X12. A transaction without a row (its key is unset, or 0) is
    validated without reading the table: [clean] gives the same result
    on every table, reports nothing on the three item fields, and raises
    nothing exactly when the payer is a parent and the amount is
    positive. *)
Theorem clean_before_the_first_save (table : list TransactionItem.t) (self : Transaction.t) :
  ¬ persisted self →
  let r := Transaction.clean table self in
  r = Transaction.clean [] self
  ∧ reported r "items" = None
  ∧ reported r "items_amount" = None
  ∧ reported r "items_owner" = None
  ∧ (r = inr ()
     ↔ User.role (Transaction.payer self) = Some (lit "parent")
       ∧ 0 < Transaction.amount self).
Proof.
  intros Hnew r. subst r.
  assert (Hrow : Transaction.pk_truthy self = false).
  { destruct (Transaction.pk_truthy self) eqn:Hrow; [|reflexivity].
    apply persisted_pk_truthy in Hrow. done. }
  destruct (clean_reported table self) as (_ & _ & Hitems & Hsum & Howner & Hraise).
  rewrite Hrow in Hitems, Hsum, Howner, Hraise. cbn [andb orb] in *.
  split; [|split; [exact Hitems|split; [exact Hsum|split; [exact Howner|]]]].
  { rewrite !clean_eq, Hrow. reflexivity. }
  rewrite !orb_false_r in Hraise.
  change (lit "parent") with RoleChoices_PARENT.
  case_bool_decide as Hpayer; cbn [orb] in Hraise.
  - destruct Hraise as [errors ->]. split; [discriminate|]. intros [Hrole _]. done.
  - destruct (Z.leb_spec (Transaction.amount self) 0).
    + destruct Hraise as [errors ->]. split; [discriminate|]. lia.
    + rewrite Hraise. split; [|done]. intros _. split; [exact Hpayer|lia].
Qed.

Lemma clean_reads_own_items_only_witness :
  Transaction.clean (sample_items ++ [item_of 9 (fee_of sample_parent "bus_fee" 100) 100])
    (transaction_of 7 10000)
  = Transaction.clean sample_items (transaction_of 7 10000).
Proof.
  apply (clean_reads_own_items_only sample_items _
           [item_of 9 (fee_of sample_parent "bus_fee" 100) 100]).
  - intros ti [->|[]%elem_of_nil]%elem_of_cons. vm_compute. discriminate.
  - reflexivity.
Defined.

Lemma clean_before_the_first_save_witness :
  let unsaved :=
    {| Transaction.pk := Some 0; Transaction.payer := sample_parent;
       Transaction.amount := 2500; Transaction.description := None;
       Transaction.status := lit "pending"; Transaction.transaction_type := lit "upi" |} in
  Transaction.clean sample_items unsaved = Transaction.clean [] unsaved.
Proof.
  intros unsaved.
  assert (Hnew : ¬ persisted unsaved).
  { intros (k & Hkey & Hk). injection Hkey as <-. exact (Hk eq_refl). }
  exact (proj1 (clean_before_the_first_save sample_items unsaved Hnew)).
Defined.

(** ** The role permissions *)

Lemma role_permission_iff (u : RequestUser.t) (name : str) :
  RequestUser.is_authenticated u
  && bool_decide (is_Some (RequestUser.role u))
  && bool_decide (RequestUser.role u = Some name) = true
  ↔ RequestUser.is_authenticated u = true ∧ RequestUser.role u = Some name.
Proof.
  rewrite !andb_true_iff, !bool_decide_eq_true. split.
  - intros [[Hin _] Hrole]. done.
  - intros [Hin Hrole]. rewrite Hrole. eauto.
Qed.

(** X13. Each of the three permissions is granted to the authenticated
    users of its role and to nobody else, so that a request passes at
    most one of them and an anonymous request passes none. *)
Theorem role_permissions_are_exclusive (u : RequestUser.t) :
  (IsParent.has_permission u = true
   ↔ RequestUser.is_authenticated u = true ∧ RequestUser.role u = Some (lit "parent"))
  ∧ (IsTeacher.has_permission u = true
     ↔ RequestUser.is_authenticated u = true ∧ RequestUser.role u = Some (lit "teacher"))
  ∧ (IsOfficeStaff.has_permission u = true
     ↔ RequestUser.is_authenticated u = true
       ∧ RequestUser.role u = Some (lit "office_staff"))
  ∧ IsParent.has_permission u && IsTeacher.has_permission u = false
  ∧ IsParent.has_permission u && IsOfficeStaff.has_permission u = false
  ∧ IsTeacher.has_permission u && IsOfficeStaff.has_permission u = false
  ∧ (RequestUser.is_authenticated u && bool_decide (is_Some (RequestUser.role u)) = false →
     IsParent.has_permission u = false
     ∧ IsTeacher.has_permission u = false
     ∧ IsOfficeStaff.has_permission u = false).
Proof.
  pose proof (role_permission_iff u (lit "parent")) as Hparent.
  pose proof (role_permission_iff u (lit "teacher")) as Hteacher.
  pose proof (role_permission_iff u (lit "office_staff")) as Hstaff.
  fold (IsParent.has_permission u) in Hparent.
  fold (IsTeacher.has_permission u) in Hteacher.
  fold (IsOfficeStaff.has_permission u) in Hstaff.
  split; [exact Hparent|]. split; [exact Hteacher|]. split; [exact Hstaff|].
  destruct (IsParent.has_permission u), (IsTeacher.has_permission u),
    (IsOfficeStaff.has_permission u); cbn [andb];
    repeat match goal with
    | H : true = true ↔ _ |- _ => destruct (proj1 H eq_refl) as [? ?]; clear H
    | H : false = true ↔ _ |- _ => clear H
    end;
    try (exfalso;
         match goal with
         | H1 : RequestUser.role u = Some ?a, H2 : RequestUser.role u = Some ?b |- _ =>
             rewrite H1 in H2; vm_compute in H2; discriminate H2
         end);
    (split; [reflexivity|]; split; [reflexivity|]; split; [reflexivity|]);
    intros Hanonymous; apply andb_false_iff in Hanonymous as [Hout|Hnone];
    first [ congruence
          | apply bool_decide_eq_false in Hnone; exfalso; apply Hnone;
            match goal with
            | H : RequestUser.role u = Some _ |- _ => rewrite H; eexists; reflexivity
            end
          | done ].
Qed.

(** ** The profile views *)

Lemma before_comma_split (s : str) :
  (44%N ∉ before_comma s)
  ∧ (s = before_comma s ∨ ∃ rest, s = before_comma s ++ lit "," ++ rest).
Proof.
  induction s as [|c s [IHnot IHsplit]]; cbn [before_comma].
  - split; [apply not_elem_of_nil|by left].
  - case_bool_decide as Hc.
    + subst c. split; [apply not_elem_of_nil|]. right. exists s. reflexivity.
    + split.
      * intros [?|?]%elem_of_cons; [congruence|done].
      * destruct IHsplit as [Hall|[rest Hrest]].
        -- left. congruence.
        -- right. exists rest. cbn [app]. congruence.
Qed.

(** X14. The client address is the first entry of [X-Forwarded-For] when
    that header is present and not empty: the text before its first
    comma, as sent (an entry is not stripped, and a header that starts
    with a comma gives the empty string); [REMOTE_ADDR] is then ignored.
    Without the header, or with an empty one, it is [REMOTE_ADDR]. *)
Theorem get_client_ip_first_entry (request : Request) :
  match META_HTTP_X_FORWARDED_FOR request with
  | Some (c :: header) =>
      ∃ ip, get_client_ip request = Some ip
            ∧ (44%N ∉ ip)
            ∧ (c :: header = ip ∨ ∃ rest, c :: header = ip ++ lit "," ++ rest)
  | Some [] | None => get_client_ip request = META_REMOTE_ADDR request
  end.
Proof.
  unfold get_client_ip.
  destruct (META_HTTP_X_FORWARDED_FOR request) as [[|c header]|]; [reflexivity| |reflexivity].
  cbn [falsy negb default]. rewrite bool_decide_eq_false_2 by discriminate. cbn [negb].
  eexists. split; [reflexivity|]. apply before_comma_split.
Qed.

(** Leaving an atomic block keeps what the block did to everything but
    the rows, the flags of the transaction and the registered
    callbacks. *)
Lemma atomic_Running {A} (body : M A) (w : World) :
  fst (atomic body w) = Running → fst (body (atomic_enter w)) = Running.
Proof.
  unfold atomic, run_and_clear_commit_hooks, get_world, modify_world, mbind, M_bind.
  destruct (body (atomic_enter w)) as [[a|e|] w1]; cbn [is_Return andb fst]; [| |done].
  - destruct (negb _); [|destruct (in_atomic_block w); [destruct (_ && _)|]; done].
    destruct (in_atomic_block w); [done|].
    rewrite run_callbacks_eq. cbn [run_on_commit set_in_atomic_block].
    destruct (run_on_commit w1); done.
  - destruct (in_atomic_block w); [destruct (_ && _)|]; done.
Qed.

(** A block that ends well on a connection that takes statements. *)
Lemma atomic_returns {A} (body : M A) (w w1 : World) (a : A) :
  usable w →
  body (atomic_enter w) = (Return a, w1) →
  needs_rollback w1 = false →
  (in_atomic_block w = false → run_on_commit w1 = []) →
  atomic body w = (Return a, set_in_atomic_block (in_atomic_block w) w1).
Proof.
  intros [Hclean Hidle] Hbody Hok Hnone. unfold atomic. rewrite Hbody.
  cbn [is_Return andb needs_rollback set_in_atomic_block]. rewrite Hok. cbn [negb].
  destruct (in_atomic_block w) eqn:Hnested; [reflexivity|].
  unfold run_and_clear_commit_hooks, get_world, modify_world, mbind, M_bind.
  rewrite run_callbacks_eq. cbn [run_on_commit set_in_atomic_block].
  rewrite (Hnone eq_refl). f_equal.
  destruct w1 as [env ent dr clk d inside broken hooks]. cbn in Hnone.
  rewrite (Hnone eq_refl). reflexivity.
Qed.

(** The rows [update_or_create] leaves: the row of this view is stamped,
    or added when there is none. *)
Lemma record_profile_view_eq (request : Request) (profile : Profile.t) (w : World) :
  usable w →
  let same (v : ContentView.t) : bool :=
    bool_decide (ContentView.object_id v = Profile.id profile)
    && User.eq (ContentView.user v) (request_user request)
    && bool_decide (ContentView.viewer_ip v = get_client_ip request) in
  let stamped :=
    {| ContentView.object_id := Profile.id profile;
       ContentView.user := request_user request;
       ContentView.viewer_ip := get_client_ip request;
       ContentView.last_viewed := clock w |} in
  record_profile_view request profile w
  = (Return (),
     set_db (with_content_views
       (λ rows, if existsb same rows
                then (λ v, if same v then stamped else v) <$> rows
                else rows ++ [stamped]) (db w)) w).
Proof.
  intros Husable same stamped. pose proof Husable as [Hclean Hidle].
  unfold record_profile_view.
  match goal with |- context [atomic ?b w] => set (body := b) end.
  destruct (atomic_enter_fields w) as (HdbA & HhooksA & _ & _ & _ & HinA & HbrokenA).
  rewrite Hclean, andb_false_r in HbrokenA.
  assert (HclockA : clock (atomic_enter w) = clock w)
    by (unfold atomic_enter; destruct (in_atomic_block w); reflexivity).
  erewrite (atomic_returns body w); [| exact Husable | | |].
  2:{ subst body. unfold mbind, M_bind, get_world, modify_world.
      rewrite execute_eq, HbrokenA. reflexivity. }
  2:{ exact HbrokenA. }
  2:{ intros Htop. change (run_on_commit (atomic_enter w) = []).
      rewrite HhooksA. exact (Hidle Htop). }
  clear -Hclean. subst same stamped. unfold atomic_enter.
  destruct w as [env ent dr clk d inside broken hooks].
  cbn in Hclean. subst broken. destruct inside; reflexivity.
Qed.

Lemma same_view_decide (request : Request) (profile : Profile.t) (v : ContentView.t) :
  bool_decide (ContentView.object_id v = Profile.id profile)
  && User.eq (ContentView.user v) (request_user request)
  && bool_decide (ContentView.viewer_ip v = get_client_ip request) = true
  ↔ ContentView.object_id v = Profile.id profile
    ∧ User.pk (ContentView.user v) = User.pk (request_user request)
    ∧ ContentView.viewer_ip v = get_client_ip request.
Proof.
  unfold User.eq. rewrite !andb_true_iff, !bool_decide_eq_true. tauto.
Qed.

(** Stamping the rows of one view: what it does to those rows and to the
    others. *)
Lemma views_of_stamped (request : Request) (profile : Profile.t) (now : Z)
    (rows : list ContentView.t) :
  let same (v : ContentView.t) : bool :=
    bool_decide (ContentView.object_id v = Profile.id profile)
    && User.eq (ContentView.user v) (request_user request)
    && bool_decide (ContentView.viewer_ip v = get_client_ip request) in
  let stamped :=
    {| ContentView.object_id := Profile.id profile;
       ContentView.user := request_user request;
       ContentView.viewer_ip := get_client_ip request;
       ContentView.last_viewed := now |} in
  let rows' := (λ v, if same v then stamped else v) <$> rows in
  views_of request profile rows' = (λ _, stamped) <$> views_of request profile rows
  ∧ other_views request profile rows' = other_views request profile rows
  ∧ (existsb same rows = true ↔ views_of request profile rows ≠ [])
  ∧ views_of request profile (rows ++ [stamped])
    = views_of request profile rows ++ [stamped]
  ∧ other_views request profile (rows ++ [stamped]) = other_views request profile rows.
Proof.
  intros same stamped rows'. subst rows'.
  assert (Hstamped : ContentView.object_id stamped = Profile.id profile
                     ∧ User.pk (ContentView.user stamped) = User.pk (request_user request)
                     ∧ ContentView.viewer_ip stamped = get_client_ip request) by done.
  unfold views_of, other_views.
  split; [|split; [|split; [|split]]].
  - induction rows as [|v rows IH]; [reflexivity|].
    rewrite fmap_cons, !filter_cons, IH.
    destruct (same v) eqn:Hv.
    + apply same_view_decide in Hv. rewrite !decide_True by done. reflexivity.
    + assert (Hnot : ¬ (ContentView.object_id v = Profile.id profile
                        ∧ User.pk (ContentView.user v) = User.pk (request_user request)
                        ∧ ContentView.viewer_ip v = get_client_ip request)).
      { intros Hyes%same_view_decide. fold (same v) in Hyes. congruence. }
      rewrite !decide_False by done. reflexivity.
  - induction rows as [|v rows IH]; [reflexivity|].
    rewrite fmap_cons, !filter_cons, IH.
    destruct (same v) eqn:Hv.
    + apply same_view_decide in Hv.
      rewrite !decide_False by (intros Hnot; apply Hnot; done). reflexivity.
    + assert (Hnot : ¬ (ContentView.object_id v = Profile.id profile
                        ∧ User.pk (ContentView.user v) = User.pk (request_user request)
                        ∧ ContentView.viewer_ip v = get_client_ip request)).
      { intros Hyes%same_view_decide. fold (same v) in Hyes. congruence. }
      rewrite !decide_True by done. reflexivity.
  - induction rows as [|v rows IH]; [cbn; split; [discriminate|done]|].
    cbn [existsb]. rewrite filter_cons.
    destruct (same v) eqn:Hv.
    + apply same_view_decide in Hv. rewrite decide_True by done.
      split; [discriminate|reflexivity].
    + assert (Hnot : ¬ (ContentView.object_id v = Profile.id profile
                        ∧ User.pk (ContentView.user v) = User.pk (request_user request)
                        ∧ ContentView.viewer_ip v = get_client_ip request)).
      { intros Hyes%same_view_decide. fold (same v) in Hyes. congruence. }
      rewrite decide_False by done. exact IH.
  - rewrite filter_app, filter_cons, filter_nil, decide_True by done. reflexivity.
  - rewrite filter_app, filter_cons, filter_nil.
    rewrite decide_False by (intros Hnot; apply Hnot; done). apply app_nil_r.
Qed.

Lemma set_db_same (w : World) : set_db (db w) w = w.
Proof. destruct w; reflexivity. Qed.

Lemma with_content_views_same (d : Database) :
  with_content_views (λ _, content_views d) d = d.
Proof. destruct d; reflexivity. Qed.

(** X15. On a connection that takes statements, of which at most one row
    records this view, [record_profile_view] returns and leaves exactly
    one row for the view, stamped with the current time: it updates the
    row there is, or adds the one that is missing.  All other rows, the
    students and the profiles are untouched, and recording the same view
    again at the same instant changes nothing. *)
Theorem profile_view_is_recorded_once (request : Request) (profile : Profile.t) (w : World) :
  usable w →
  (length (views_of request profile (content_views (db w))) ≤ 1)%nat →
  ∃ w',
    record_profile_view request profile w = (Return (), w')
    ∧ views_of request profile (content_views (db w'))
      = [{| ContentView.object_id := Profile.id profile;
            ContentView.user := request_user request;
            ContentView.viewer_ip := get_client_ip request;
            ContentView.last_viewed := clock w |}]
    ∧ other_views request profile (content_views (db w'))
      = other_views request profile (content_views (db w))
    ∧ length (content_views (db w'))
      = (length (content_views (db w))
         + (1 - length (views_of request profile (content_views (db w)))))%nat
    ∧ students (db w') = students (db w)
    ∧ profiles (db w') = profiles (db w)
    ∧ transaction_items (db w') = transaction_items (db w)
    ∧ record_profile_view request profile w' = (Return (), w').
Proof.
  intros Husable Hone.
  pose proof (record_profile_view_eq request profile w Husable) as Hrun.
  pose proof (views_of_stamped request profile (clock w) (content_views (db w)))
    as Hfacts.
  cbv zeta beta in Hrun, Hfacts.
  destruct Hfacts as (Hmine & Hothers & Hexists & Hmine_new & Hothers_new).
  set (stamped := {| ContentView.object_id := Profile.id profile;
                     ContentView.user := request_user request;
                     ContentView.viewer_ip := get_client_ip request;
                     ContentView.last_viewed := clock w |}) in *.
  set (rows := content_views (db w)) in *.
  match type of Hrun with
  | _ = (_, set_db (with_content_views (λ r, @?f r) _) _) => set (rows' := f rows)
  end.
  set (w' := set_db (with_content_views (λ _, rows') (db w)) w).
  assert (Hw' : record_profile_view request profile w = (Return (), w')) by exact Hrun.
  assert (Hviews : views_of request profile rows' = [stamped]
                   ∧ other_views request profile rows' = other_views request profile rows
                   ∧ length rows'
                     = (length rows + (1 - length (views_of request profile rows)))%nat).
  { subst rows'. cbv beta. destruct (existsb _ rows) eqn:Hfound.
    - pose proof (proj1 Hexists eq_refl) as Hsome.
      destruct (views_of request profile rows) as [|v [|v' l]] eqn:Hrows;
        [done| |cbn in Hone; lia].
      rewrite Hmine, Hothers, length_fmap. cbn. split; [reflexivity|]. split; [reflexivity|lia].
    - assert (Hnone : views_of request profile rows = []).
      { destruct (views_of request profile rows) eqn:Hrows; [reflexivity|].
        assert (Hyes : false = true) by (apply Hexists; done). discriminate Hyes. }
      rewrite Hmine_new, Hothers_new, Hnone, length_app. cbn.
      split; [reflexivity|]. split; [reflexivity|lia]. }
  destruct Hviews as (Hviews & Hrest & Hlength).
  exists w'. split; [exact Hw'|]. split; [exact Hviews|]. split; [exact Hrest|].
  split; [exact Hlength|]. split; [reflexivity|]. split; [reflexivity|].
  split; [reflexivity|].
  assert (Husable' : usable w') by exact Husable.
  rewrite (record_profile_view_eq request profile w' Husable'). cbv zeta beta.
  change (clock w') with (clock w). change (content_views (db w')) with rows'.
  fold stamped.
  pose proof (views_of_stamped request profile (clock w) rows') as Hagain.
  cbv zeta beta in Hagain. fold stamped in Hagain.
  destruct Hagain as (_ & _ & Hexists' & _).
  pose proof (proj2 Hexists' ltac:(rewrite Hviews; done)) as Hfound.
  assert (Hfixed : ∀ v, v ∈ rows' →
            (if bool_decide (ContentView.object_id v = Profile.id profile)
                && User.eq (ContentView.user v) (request_user request)
                && bool_decide (ContentView.viewer_ip v = get_client_ip request)
             then stamped else v) = v).
  { intros v Hv.
    destruct (_ && _) eqn:Hsame; [|reflexivity].
    apply same_view_decide in Hsame.
    assert (Hin : v ∈ views_of request profile rows')
      by (apply list_elem_of_filter; done).
    rewrite Hviews in Hin. apply list_elem_of_singleton in Hin. congruence. }
  f_equal.
  replace (with_content_views _ (db w'))
    with (with_content_views (λ _, content_views (db w')) (db w')).
  - rewrite with_content_views_same. apply set_db_same.
  - unfold with_content_views. f_equal.
    change (content_views (db w')) with rows'. rewrite Hfound.
    rewrite <- (list_fmap_id rows') at 1. apply list_fmap_ext.
    intros i v Hv. symmetry. apply Hfixed. eapply list_elem_of_lookup_2, Hv.
Qed.



Lemma profile_view_is_recorded_once_witness :
  ∃ w',
    record_profile_view (request_with_child "female") sample_profile sample_world
      = (Return (), w')
    ∧ length (content_views (db w')) = 1%nat.
Proof.
  destruct (profile_view_is_recorded_once (request_with_child "female") sample_profile
              sample_world) as (w' & Hrun & _ & _ & Hlength & _).
  - split; [reflexivity|]. intros _. reflexivity.
  - cbn. lia.
  - exists w'. split; [exact Hrun|exact Hlength].
Defined.


(** ** The profile update, continued *)

Lemma atomic_Return {A} (body : M A) (w : World) (a : A) :
  fst (atomic body w) = Return a → fst (body (atomic_enter w)) = Return a.
Proof.
  unfold atomic, run_and_clear_commit_hooks, get_world, modify_world, mbind, M_bind.
  destruct (body (atomic_enter w)) as [[a0|e|] w1]; cbn [is_Return andb fst]; [| |done].
  - destruct (negb _); [|destruct (in_atomic_block w); [destruct (_ && _)|]; done].
    destruct (in_atomic_block w); [done|].
    rewrite run_callbacks_eq. cbn [run_on_commit set_in_atomic_block].
    destruct (run_on_commit w1); done.
  - destruct (in_atomic_block w); [destruct (_ && _)|]; done.
Qed.

Section ProfileUpdateMore.
Context {U : Unicode} {PS : ProfileSerializer}.

(** X17. [update] turns every failure after [get_object] into an
    answer: once [get_object] has returned, the call returns a response
    and never raises, and when the serializer rejects the payload the
    response carries its errors and nothing is written after the view
    was recorded.  What [get_object] raises, 404 included, is raised by
    [update] unchanged. *)
Theorem update_always_answers (fuel : nat) (request : Request) (partial : bool) (w : World) :
  (2 ≤ fuel)%nat →
  match get_object request w with
  | (Return instance, wg) =>
      (∃ response w', update fuel request partial w = (Return response, w'))
      ∧ (run_validation partial instance (data_profile request) = None →
         update fuel request partial w = (Return Response_400_errors, wg))
  | (Raise e, wg) => update fuel request partial w = (Raise e, wg)
  | (Running, wg) => update fuel request partial w = (Running, wg)
  end.
Proof.
  intros Hfuel.
  destruct (get_object request w) as [[instance|e|] wg] eqn:Hget;
    [|unfold update; unfold mbind, M_bind at 1; rewrite Hget; reflexivity ..].
  split.
  2:{ intros Hnone. unfold update. unfold mbind, M_bind at 1. rewrite Hget.
      unfold try_except, serializer_is_valid. unfold mbind, M_bind at 1.
      rewrite Hnone. reflexivity. }
  unfold update. unfold mbind, M_bind at 1. rewrite Hget.
  unfold try_except, serializer_is_valid. unfold mbind, M_bind at 1.
  destruct (run_validation partial instance (data_profile request)) as [validated_data|];
    [|eexists _, _; reflexivity].
  cbn [mret M_ret].
  match goal with |- context [atomic ?b wg] => set (body := b) end.
  assert (Hends : fst (atomic body wg) ≠ Running).
  { intros Hruns%atomic_Running. revert Hruns. subst body.
    unfold mbind, M_bind at 1. rewrite serializer_save_eq. cbv zeta.
    destruct (needs_rollback (atomic_enter wg)); [discriminate|].
    destruct (data_create_student request); [|discriminate].
    unfold mbind, M_bind at 1.
    match goal with |- context [create_student_account fuel ?u ?a ?b ?c ?w0] =>
      pose proof (create_student_account_ends fuel u a b c w0 Hfuel) as Hcreated;
      destruct (create_student_account fuel u a b c w0) as [[s|e|] w2]
    end; [|discriminate|done].
    unfold mbind, M_bind at 1. rewrite Student_filter_parent_count_eq.
    destruct (needs_rollback w2); [discriminate|].
    unfold mbind, M_bind.
    destruct (1 <? _); [|discriminate].
    rewrite Student_filter_parent_update_has_sibling_eq.
    destruct (needs_rollback w2); discriminate. }
  destruct (atomic body wg) as [[response|e|] w']; [eexists _, _; reflexivity| |done].
  destruct e; eexists _, _; reflexivity.
Qed.

Lemma fmap_admission_number_flagged (user : User.t) (rows : list Student.t) :
  Student.admission_number
    <$> ((λ s, if bool_decide (User.pk (Student.parent s) = User.pk user)
               then Student.set_has_sibling true s else s) <$> rows)
  = Student.admission_number <$> rows.
Proof.
  rewrite <- list_fmap_compose. apply list_fmap_ext. intros i s _. cbn.
  destruct (bool_decide _); reflexivity.
Qed.

(** The update that enrols a student, up to the end of its block. *)
Lemma update_enrols (fuel : nat) (request : Request) (partial : bool)
    (w wg w_saved w_created : World) (instance updated_instance : Profile.t)
    (validated_data : gmap string (list N)) (s : Student.t) :
  get_object request w = (Return instance, wg) →
  run_validation partial instance (data_profile request) = Some validated_data →
  serializer_save instance validated_data (atomic_enter wg)
    = (Return updated_instance, w_saved) →
  data_create_student request = true →
  create_student_account fuel (Profile.user updated_instance)
    (data_student request !! "first_name") (data_student request !! "last_name")
    (data_student request !! "gender") w_saved = (Return s, w_created) →
  ∃ w2,
    in_atomic_block w2 = true
    ∧ needs_rollback w2 = false
    ∧ run_on_commit w2
      = run_on_commit wg
        ++ [lambda_send_account_creation_email (Profile.user updated_instance) s]
    ∧ profiles (db w2) = profiles (db w_saved)
    ∧ Student.admission_number <$> students (db w2)
      = (Student.admission_number <$> students (db w)) ++ [Student.admission_number s]
    ∧ update fuel request partial w =
      if in_atomic_block wg
      then (Return (Response_200
              "Profile updated and new student created successfully. An email has been sent to your account."
              (Profile.fields updated_instance)), w2)
      else (Return (Response_400_error (NameError "send_account_creation_email")),
            set_run_on_commit [] (set_in_atomic_block false w2)).
Proof.
  intros Hget Hvalid Hsave Hflag Hcreate.
  set (user := Profile.user updated_instance) in *.
  destruct (get_object_rows request w) as (r0 & wg0 & Hget0 & Hstudents & _).
  rewrite Hget in Hget0. injection Hget0 as <- <-.
  destruct (atomic_enter_fields wg) as (HdbA & HhooksA & _ & _ & _ & HinA & _).
  assert (Hsaved : students (db w_saved) = students (db w)
                   ∧ run_on_commit w_saved = run_on_commit wg).
  { rewrite serializer_save_eq in Hsave. cbv zeta in Hsave.
    destruct (needs_rollback (atomic_enter wg)); [discriminate Hsave|].
    injection Hsave as _ <-.
    change (students (db (atomic_enter wg)) = students (db w)
            ∧ run_on_commit (atomic_enter wg) = run_on_commit wg).
    rewrite HdbA, HhooksA, Hstudents. done. }
  destruct Hsaved as [Hrows_saved Hhooks_saved].
  destruct (create_student_account_full fuel user
              (data_student request !! "first_name") (data_student request !! "last_name")
              (data_student request !! "gender") w_saved) as (r & w1 & Hrun & Hr).
  rewrite Hcreate in Hrun. injection Hrun as <- <-.
  destruct Hr as (_ & _ & Hin & Hok & Hdb & Hhooks & _).
  rewrite Hhooks_saved in Hhooks.
  unfold update. unfold mbind, M_bind at 1. rewrite Hget.
  unfold try_except, serializer_is_valid. unfold mbind, M_bind at 1. rewrite Hvalid.
  cbn [mret M_ret].
  match goal with |- context [atomic ?b wg] => set (body := b) end.
  assert (Hbody : ∃ w2,
            body (atomic_enter wg)
            = (Return (Response_200
                 "Profile updated and new student created successfully. An email has been sent to your account."
                 (Profile.fields updated_instance)), w2)
            ∧ in_atomic_block w2 = true
            ∧ needs_rollback w2 = false
            ∧ run_on_commit w2
              = run_on_commit wg ++ [lambda_send_account_creation_email user s]
            ∧ profiles (db w2) = profiles (db w_saved)
            ∧ Student.admission_number <$> students (db w2)
              = (Student.admission_number <$> students (db w))
                ++ [Student.admission_number s]).
  { subst body. unfold mbind, M_bind at 1. rewrite Hsave, Hflag.
    unfold mbind, M_bind at 1. fold user. rewrite Hcreate.
    unfold M_bind at 1. rewrite Student_filter_parent_count_eq, Hok.
    destruct (1 <? _).
    - unfold M_bind. rewrite Student_filter_parent_update_has_sibling_eq, Hok.
      eexists. split; [reflexivity|]. cbn. rewrite Hin, Hok, Hhooks, Hdb. cbn.
      rewrite fmap_admission_number_flagged, fmap_app, Hrows_saved. done.
    - eexists. split; [reflexivity|]. rewrite Hin, Hok, Hhooks, Hdb. cbn.
      rewrite fmap_app, Hrows_saved. done. }
  destruct Hbody as (w2 & Hbody & Hin2 & Hok2 & Hhooks2 & Hprofiles2 & Hnumbers2).
  clearbody body. exists w2.
  split; [exact Hin2|]. split; [exact Hok2|]. split; [exact Hhooks2|].
  split; [exact Hprofiles2|]. split; [exact Hnumbers2|].
  unfold atomic. rewrite Hbody. cbn [is_Return andb needs_rollback set_in_atomic_block].
  rewrite Hok2. cbn [negb].
  destruct (in_atomic_block wg) eqn:Hnested.
  - f_equal. rewrite <- Hin2 at 1. destruct w2; reflexivity.
  - unfold run_and_clear_commit_hooks, get_world, modify_world, mbind, M_bind.
    rewrite run_callbacks_eq. cbn [run_on_commit set_in_atomic_block].
    rewrite Hhooks2. destruct (run_on_commit wg); reflexivity.
Qed.

(** X18. On a connection that is in no atomic block, the update that
    enrols a student is answered 400 although everything is committed.
    The block of the view ends well and commits; the commit runs the
    callback that [create_student_account] registered, which raises
    [NameError], and the view turns that into its error response.  The
    profile is saved and the student row is stored. *)
Theorem committed_enrolment_is_answered_400 (fuel : nat) (request : Request) (partial : bool)
    (w wg w_saved w_created : World) (instance updated_instance : Profile.t)
    (validated_data : gmap string (list N)) (s : Student.t) :
  get_object request w = (Return instance, wg) →
  in_atomic_block wg = false →
  run_validation partial instance (data_profile request) = Some validated_data →
  serializer_save instance validated_data (atomic_enter wg)
    = (Return updated_instance, w_saved) →
  data_create_student request = true →
  create_student_account fuel (Profile.user updated_instance)
    (data_student request !! "first_name") (data_student request !! "last_name")
    (data_student request !! "gender") w_saved = (Return s, w_created) →
  ∃ w',
    update fuel request partial w
      = (Return (Response_400_error (NameError "send_account_creation_email")), w')
    ∧ in_atomic_block w' = false
    ∧ needs_rollback w' = false
    ∧ run_on_commit w' = []
    ∧ profiles (db w') = profiles (db w_saved)
    ∧ Student.admission_number <$> students (db w')
      = (Student.admission_number <$> students (db w)) ++ [Student.admission_number s].
Proof.
  intros Hget Htop Hvalid Hsave Hflag Hcreate.
  destruct (update_enrols fuel request partial w wg w_saved w_created instance
              updated_instance validated_data s Hget Hvalid Hsave Hflag Hcreate)
    as (w2 & _ & Hok & _ & Hprofiles & Hnumbers & Hupdate).
  rewrite Htop in Hupdate. eexists. split; [exact Hupdate|]. cbn. auto.
Qed.

(** X19. Inside an atomic block of the caller, the same update is
    answered 200 with the message that an e-mail has been sent, while
    the e-mail is a callback that still waits for the commit of that
    block; the student row is stored in the block. *)
Theorem nested_enrolment_is_answered_200 (fuel : nat) (request : Request) (partial : bool)
    (w wg w_saved w_created : World) (instance updated_instance : Profile.t)
    (validated_data : gmap string (list N)) (s : Student.t) :
  get_object request w = (Return instance, wg) →
  in_atomic_block wg = true →
  run_validation partial instance (data_profile request) = Some validated_data →
  serializer_save instance validated_data (atomic_enter wg)
    = (Return updated_instance, w_saved) →
  data_create_student request = true →
  create_student_account fuel (Profile.user updated_instance)
    (data_student request !! "first_name") (data_student request !! "last_name")
    (data_student request !! "gender") w_saved = (Return s, w_created) →
  ∃ w',
    update fuel request partial w
      = (Return (Response_200
           "Profile updated and new student created successfully. An email has been sent to your account."
           (Profile.fields updated_instance)), w')
    ∧ in_atomic_block w' = true
    ∧ needs_rollback w' = false
    ∧ run_on_commit w'
      = run_on_commit wg
        ++ [lambda_send_account_creation_email (Profile.user updated_instance) s]
    ∧ profiles (db w') = profiles (db w_saved)
    ∧ Student.admission_number <$> students (db w')
      = (Student.admission_number <$> students (db w)) ++ [Student.admission_number s].
Proof.
  intros Hget Hnested Hvalid Hsave Hflag Hcreate.
  destruct (update_enrols fuel request partial w wg w_saved w_created instance
              updated_instance validated_data s Hget Hvalid Hsave Hflag Hcreate)
    as (w2 & Hin & Hok & Hhooks & Hprofiles & Hnumbers & Hupdate).
  rewrite Hnested in Hupdate. eexists. split; [exact Hupdate|]. auto.
Qed.

(** X20. Without [create_student] in the payload the update enrols
    nobody, however it ends: the table of students is the one the request
    found, the call ends whatever the fuel, and a 200 response carries
    the message of the plain update. *)
Theorem plain_update_enrols_nobody (fuel : nat) (request : Request) (partial : bool)
    (w : World) :
  data_create_student request = false →
  let result := update fuel request partial w in
  students (db (snd result)) = students (db w)
  ∧ fst result ≠ Running
  ∧ ∀ message data,
      fst result = Return (Response_200 message data) →
      message = "Profile updated successfully."%string.
Proof.
  intros Hflag. cbv zeta.
  destruct (get_object_rows request w) as (r & wg & Hget & Hstudents & _).
  assert (Hnever : fst (get_object request w) ≠ Running).
  { unfold get_object, try_except. unfold mbind, M_bind at 1.
    unfold Profile_objects_get. unfold mbind, M_bind, get_world. rewrite execute_eq.
    destruct (needs_rollback w); [done|].
    destruct (filter _ (profiles (db w))) as [|profile l]; [done|].
    cbn [mret M_ret]. unfold record_profile_view.
    match goal with |- context [atomic ?b w] => set (body := b) end.
    assert (Hbody : fst (atomic body w) ≠ Running).
    { intros Hruns%atomic_Running. revert Hruns. subst body.
      unfold mbind, M_bind, get_world, modify_world. rewrite execute_eq.
      destruct (needs_rollback (atomic_enter w)); discriminate. }
    destruct (atomic body w) as [[[]|e|] w1]; [done| |done].
    destruct e; done. }
  remember (update fuel request partial w) as result eqn:Hresult.
  unfold update in Hresult. unfold mbind, M_bind at 1 in Hresult. rewrite Hget in *.
  destruct r as [instance|e|];
    [|subst result; cbn [fst snd]; split; [exact Hstudents|split; [done|intros ? ? [=]]]
     |exfalso; apply Hnever; reflexivity].
  unfold try_except, serializer_is_valid in Hresult.
  unfold mbind, M_bind at 1 in Hresult.
  destruct (run_validation partial instance (data_profile request)) as [validated_data|];
    [|subst result; cbn [fst snd]; split; [exact Hstudents|split; [done|intros ? ? [=]]]].
  cbn [mret M_ret] in Hresult.
  match type of Hresult with context [atomic ?b wg] => set (body := b) in * end.
  assert (Hbody : students (db (snd (body (atomic_enter wg)))) = students (db wg)
                  ∧ fst (body (atomic_enter wg)) ≠ Running
                  ∧ ∀ message data,
                      fst (body (atomic_enter wg)) = Return (Response_200 message data) →
                      message = "Profile updated successfully."%string).
  { subst body. unfold mbind, M_bind. rewrite serializer_save_eq, Hflag. cbv zeta.
    destruct (atomic_enter_fields wg) as (HdbA & _).
    destruct (needs_rollback (atomic_enter wg)).
    - split; [|split; [done|intros ? ? [=]]]. cbn [snd].
      destruct (in_atomic_block (atomic_enter wg));
        change (students (db (atomic_enter wg)) = students (db wg)); by rewrite HdbA.
    - split; [change (students (db (atomic_enter wg)) = students (db wg)); by rewrite HdbA|].
      split; [done|]. cbn [fst]. intros message data [= <- _]. reflexivity. }
  destruct Hbody as (Hrows & Hends & Hmessage).
  pose proof (atomic_rows body wg) as Hleft.
  pose proof (atomic_Running body wg) as Hruns.
  pose proof (atomic_Return body wg) as Hreturns.
  clearbody body.
  assert (Hrows' : students (db (snd (atomic body wg))) = students (db w)).
  { destruct Hleft as [-> | ->]; [rewrite Hrows|]; exact Hstudents. }
  destruct (atomic body wg) as [[response|e|] w'] eqn:Hatomic; cbn [fst snd] in *.
  - subst result. cbn [fst snd]. split; [exact Hrows'|]. split; [done|].
    intros message data [= ->]. eapply Hmessage, Hreturns. reflexivity.
  - destruct e; subst result; cbn [fst snd]; (split; [exact Hrows'|]);
      (split; [done|intros ? ? [=]]).
  - destruct (Hends (Hruns eq_refl)).
Qed.

End ProfileUpdateMore.

Lemma update_always_answers_witness :
  ∃ response w',
    @update ucd_excerpt accept_all 2 (request_with_child "robot") false sample_world
      = (Return response, w').
Proof.
  pose proof (@update_always_answers ucd_excerpt accept_all 2 (request_with_child "robot")
                false sample_world ltac:(lia)) as Hanswer.
  destruct (get_object (request_with_child "robot") sample_world)
    as [[instance|e|] wg] eqn:Hget.
  - exact (proj1 Hanswer).
  - vm_compute in Hget. discriminate Hget.
  - vm_compute in Hget. discriminate Hget.
Defined.

Lemma committed_enrolment_is_answered_400_witness :
  ∃ w',
    @update ucd_excerpt accept_all 2 (request_with_child "female") false sample_world
      = (Return (Response_400_error (NameError "send_account_creation_email")), w')
    ∧ run_on_commit w' = []
    ∧ length (students (db w')) = 2%nat.
Proof.
  edestruct (@committed_enrolment_is_answered_400 ucd_excerpt accept_all 2
               (request_with_child "female") false sample_world)
    as (w' & Hrun & _ & _ & Hhooks & _ & Hnumbers).
  - vm_compute. reflexivity.
  - reflexivity.
  - reflexivity.
  - vm_compute. reflexivity.
  - reflexivity.
  - vm_compute. reflexivity.
  - exists w'. split; [exact Hrun|]. split; [exact Hhooks|].
    apply (f_equal length) in Hnumbers. rewrite length_fmap in Hnumbers.
    exact Hnumbers.
Defined.

Lemma nested_enrolment_is_answered_200_witness :
  ∃ w',
    @update ucd_excerpt accept_all 2 (request_with_child "female") false
      (set_in_atomic_block true sample_world)
      = (Return (Response_200
           "Profile updated and new student created successfully. An email has been sent to your account."
           {["city" := lit "Thrissur"]}), w')
    ∧ length (run_on_commit w') = 1%nat.
Proof.
  edestruct (@nested_enrolment_is_answered_200 ucd_excerpt accept_all 2
               (request_with_child "female") false (set_in_atomic_block true sample_world))
    as (w' & Hrun & _ & _ & Hhooks & _).
  - vm_compute. reflexivity.
  - reflexivity.
  - reflexivity.
  - vm_compute. reflexivity.
  - reflexivity.
  - vm_compute. reflexivity.
  - exists w'. split; [exact Hrun|]. rewrite Hhooks. reflexivity.
Defined.

Lemma plain_update_enrols_nobody_witness :
  let request :=
    {| request_user := sample_parent;
       data_profile := {["city" := lit "Thrissur"]};
       data_create_student := false;
       data_student := ∅;
       META_HTTP_X_FORWARDED_FOR := Some (lit "203.0.113.9, 10.0.0.1");
       META_REMOTE_ADDR := Some (lit "10.0.0.7") |} in
  students (db (snd (@update ucd_excerpt accept_all 0 request false sample_world)))
  = students (db sample_world).
Proof.
  intros request.
  apply (@plain_update_enrols_nobody ucd_excerpt accept_all 0 request false sample_world).
  reflexivity.
Defined.

(** ** The admin of students *)

(** X21. The list of the admin shows a member of staff exactly the
    stored students they may change: all of them to a superuser, to
    anybody else the students they verified.  A student nobody verified
    can be changed by superusers only, and the list page itself (no
    object) is open to everybody. *)
Theorem list_shows_what_can_be_changed (request : StudentAdmin.HttpRequest)
    (table : StudentAdmin.Table) (key : Z) (s : Student.t) :
  let obj := {| StudentAdmin.pk := Some key; StudentAdmin.columns := s |} in
  (StudentAdmin.get_queryset request table !! key = Some s
   ↔ StudentAdmin.rows table !! key = Some s
     ∧ StudentAdmin.has_change_permission request (Some obj) = true)
  ∧ (StudentAdmin.has_change_permission request (Some obj) = true
     ↔ StudentAdmin.user_is_superuser request = true
       ∨ ∃ verifier, Student.verified_by s = Some verifier
                     ∧ User.pk verifier = User.pk (StudentAdmin.user request))
  ∧ StudentAdmin.has_change_permission request None = true.
Proof.
  cbv zeta. unfold StudentAdmin.get_queryset, StudentAdmin.has_change_permission,
    StudentAdmin.filter_verified_by. cbn [StudentAdmin.columns].
  split; [|split; [|reflexivity]].
  - destruct (StudentAdmin.user_is_superuser request); cbn [orb].
    + tauto.
    + rewrite map_lookup_filter_Some. reflexivity.
  - rewrite orb_true_iff. unfold optional_user_eq, User.eq.
    destruct (Student.verified_by s) as [verifier|].
    + rewrite bool_decide_eq_true. split.
      * intros [?|?]; eauto.
      * intros [?|(v & [= <-] & ?)]; auto.
    + split; [intros [?|?]; [auto|done]|intros [?|(v & ? & _)]; [auto|done]].
Qed.

(** What a successful [save] has done. *)
Lemma save_succeeds (obj obj' : StudentAdmin.Instance) (table table' : StudentAdmin.Table) :
  StudentAdmin.save obj table = inr (obj', table') →
  ∃ key,
    StudentAdmin.pk obj' = Some key
    ∧ StudentAdmin.columns obj' = StudentAdmin.columns obj
    ∧ StudentAdmin.rows table' = <[key := StudentAdmin.columns obj]> (StudentAdmin.rows table)
    ∧ (∀ k s, StudentAdmin.rows table !! k = Some s → k ≠ key →
              Student.admission_number s
              ≠ Student.admission_number (StudentAdmin.columns obj))
    ∧ match StudentAdmin.pk obj with
      | Some k => key = k ∧ StudentAdmin.sequence table' = StudentAdmin.sequence table
      | None => key = StudentAdmin.sequence table + 1
                ∧ StudentAdmin.sequence table' = key
                ∧ StudentAdmin.rows table !! key = None
      end.
Proof.
  unfold StudentAdmin.save.
  destruct (StudentAdmin.pk obj) as [k|] eqn:Hpk.
  - case_bool_decide as Htaken; [discriminate|]. intros [= <- <-].
    exists k. cbn. rewrite Hpk. repeat split; try done.
    intros k0 s Hrow Hother Hsame. apply Htaken, map_Exists_lookup. eauto.
  - case_bool_decide as Htaken; [discriminate|].
    case_bool_decide as Hfree; [discriminate|]. cbn [orb]. intros [= <- <-].
    eexists. cbn. repeat split; try done.
    + intros k0 s Hrow Hother Hsame. apply Htaken, map_Exists_lookup. eauto.
    + destruct (StudentAdmin.rows table !! _) eqn:Hrow; [|reflexivity].
      destruct Hfree. eauto.
Qed.

Lemma save_raises (obj : StudentAdmin.Instance) (table : StudentAdmin.Table) (e : exn) :
  StudentAdmin.save obj table = inl e → e = IntegrityError.
Proof.
  unfold StudentAdmin.save. destruct (StudentAdmin.pk obj).
  - destruct (bool_decide _); [by intros [= <-]|discriminate].
  - destruct (_ || _); [by intros [= <-]|discriminate].
Qed.

(** The verifier and the date [save_model] puts on the instance before
    it saves. *)
Lemma save_model_eq (request : StudentAdmin.HttpRequest) (obj : StudentAdmin.Instance)
    (change : bool) (now : Z) (table : StudentAdmin.Table) :
  let prev_verified_by :=
    if change && StudentAdmin.pk_truthy obj
    then (StudentAdmin.pk obj ≫= (StudentAdmin.rows table !!.)) ≫= Student.verified_by
    else None in
  let verifier :=
    match Student.verified_by (StudentAdmin.columns obj) with
    | Some v => Some v
    | None => if StudentAdmin.user_is_staff request
              then Some (StudentAdmin.user request) else None
    end in
  let date :=
    if bool_decide (is_Some verifier)
       && (negb change || negb (optional_user_eq prev_verified_by verifier))
    then Some now
    else Student.verification_date (StudentAdmin.columns obj) in
  StudentAdmin.save_model request obj change now table
  = StudentAdmin.save
      {| StudentAdmin.pk := StudentAdmin.pk obj;
         StudentAdmin.columns :=
           Student_set_verification_date date
             (Student_set_verified_by verifier (StudentAdmin.columns obj)) |}
      table.
Proof.
  cbv zeta. unfold StudentAdmin.save_model.
  assert (Hprev : (if change && StudentAdmin.pk_truthy obj
                   then match StudentAdmin.pk obj ≫= (StudentAdmin.rows table !!.) with
                        | Some prev => Student.verified_by prev
                        | None => None
                        end
                   else None)
                  = (if change && StudentAdmin.pk_truthy obj
                     then (StudentAdmin.pk obj ≫= (StudentAdmin.rows table !!.))
                            ≫= Student.verified_by
                     else None)).
  { destruct (_ && _); [|reflexivity].
    destruct (StudentAdmin.pk obj ≫= _); reflexivity. }
  rewrite Hprev. clear Hprev.
  generalize (if change && StudentAdmin.pk_truthy obj
              then (StudentAdmin.pk obj ≫= (StudentAdmin.rows table !!.))
                     ≫= Student.verified_by
              else None).
  intros prev. destruct obj as [key columns]. cbn [StudentAdmin.pk StudentAdmin.columns].
  destruct columns as [p n fn ln g st hs [v|] d notes fa im url];
    cbn [Student.verified_by Student.verification_date Student_set_verified_by
         Student_set_verification_date negb andb StudentAdmin.columns StudentAdmin.pk
         Student.parent Student.admission_number Student.first_name Student.last_name
         Student.gender Student.account_status Student.has_sibling
         Student.verification_notes Student.fully_activated Student.image
         Student.image_url].
  - rewrite !(bool_decide_eq_true_2 (is_Some (Some v))) by eauto. cbn [negb andb].
    destruct (negb change || _); reflexivity.
  - rewrite !(bool_decide_eq_false_2 (is_Some (@None User.t))) by (intros [? [=]]).
    cbn [negb andb].
    destruct (StudentAdmin.user_is_staff request);
      cbn [Student.verified_by Student.verification_date Student_set_verified_by
           Student_set_verification_date negb andb StudentAdmin.columns StudentAdmin.pk
           Student.parent Student.admission_number Student.first_name Student.last_name
           Student.gender Student.account_status Student.has_sibling
           Student.verification_notes Student.fully_activated Student.image
           Student.image_url].
    + rewrite !(bool_decide_eq_true_2 (is_Some (Some (StudentAdmin.user request))))
        by eauto.
      cbn [andb]. destruct (negb change || _); reflexivity.
    + rewrite ?(bool_decide_eq_false_2 (is_Some (@None User.t))) by (intros [? [=]]).
      reflexivity.
Qed.

(** X22. What [save_model] stores.  On success the instance has a key
    and the table holds the instance under it: an update keeps the key,
    an insert takes the next key of the sequence, which was free; every
    other row is untouched.  The verifier is the submitted one, and the
    user of the request only when none was submitted and the user is
    staff; the columns other than the verifier and its date are stored
    as submitted. *)
Theorem save_model_stores_the_instance (request : StudentAdmin.HttpRequest)
    (obj obj' : StudentAdmin.Instance) (change : bool) (now : Z)
    (table table' : StudentAdmin.Table) :
  StudentAdmin.save_model request obj change now table = inr (obj', table') →
  let before := StudentAdmin.columns obj in
  let after := StudentAdmin.columns obj' in
  ∃ key,
    StudentAdmin.pk obj' = Some key
    ∧ StudentAdmin.rows table' !! key = Some after
    ∧ (∀ k, k ≠ key → StudentAdmin.rows table' !! k = StudentAdmin.rows table !! k)
    ∧ match StudentAdmin.pk obj with
      | Some k => key = k ∧ StudentAdmin.sequence table' = StudentAdmin.sequence table
      | None => key = StudentAdmin.sequence table + 1
                ∧ StudentAdmin.sequence table' = key
                ∧ StudentAdmin.rows table !! key = None
      end
    ∧ Student.verified_by after
      = match Student.verified_by before with
        | Some v => Some v
        | None => if StudentAdmin.user_is_staff request
                  then Some (StudentAdmin.user request) else None
        end
    ∧ Student.parent after = Student.parent before
    ∧ Student.admission_number after = Student.admission_number before
    ∧ Student.first_name after = Student.first_name before
    ∧ Student.last_name after = Student.last_name before
    ∧ Student.gender after = Student.gender before
    ∧ Student.account_status after = Student.account_status before
    ∧ Student.has_sibling after = Student.has_sibling before
    ∧ Student.verification_notes after = Student.verification_notes before
    ∧ Student.fully_activated after = Student.fully_activated before.
Proof.
  rewrite save_model_eq. cbv zeta. intros Hsave.
  apply save_succeeds in Hsave as (key & Hkey & Hcolumns & Hrows & _ & Hpk).
  cbn [StudentAdmin.pk StudentAdmin.columns] in Hcolumns, Hrows, Hpk.
  exists key. split; [exact Hkey|]. rewrite Hrows, Hcolumns.
  split; [apply lookup_insert_eq|].
  split; [intros k Hk; apply lookup_insert_ne; congruence|].
  split; [exact Hpk|]. repeat split.
Qed.

(** X23. The verification date follows the verifier.  A student added
    with a verifier is dated now; a changed student is dated now when
    its verifier differs from the one stored under its key (or none is
    stored), and keeps the submitted date when the verifier is the
    stored one; a student saved without verifier keeps the submitted
    date. *)
Theorem verification_date_follows_the_verifier (request : StudentAdmin.HttpRequest)
    (obj obj' : StudentAdmin.Instance) (change : bool) (now : Z)
    (table table' : StudentAdmin.Table) :
  StudentAdmin.save_model request obj change now table = inr (obj', table') →
  let stored :=
    (StudentAdmin.pk obj ≫= (StudentAdmin.rows table !!.)) ≫= Student.verified_by in
  let submitted := Student.verification_date (StudentAdmin.columns obj) in
  let date := Student.verification_date (StudentAdmin.columns obj') in
  match Student.verified_by (StudentAdmin.columns obj') with
  | None => date = submitted
  | Some verifier =>
      (change = false → date = Some now)
      ∧ (change = true → StudentAdmin.pk_truthy obj = false → date = Some now)
      ∧ (change = true → StudentAdmin.pk_truthy obj = true →
           match stored with
           | Some previous =>
               if bool_decide (User.pk previous = User.pk verifier)
               then date = submitted else date = Some now
           | None => date = Some now
           end)
  end.
Proof.
  rewrite save_model_eq. cbv zeta. intros Hsave.
  apply save_succeeds in Hsave as (key & _ & -> & _).
  cbn [StudentAdmin.columns Student.verified_by Student.verification_date
       Student_set_verification_date Student_set_verified_by].
  set (verifier := match Student.verified_by (StudentAdmin.columns obj) with
                   | Some v => Some v
                   | None => if StudentAdmin.user_is_staff request
                             then Some (StudentAdmin.user request) else None
                   end).
  destruct verifier as [v|].
  2:{ rewrite bool_decide_eq_false_2 by (intros [? [=]]). reflexivity. }
  rewrite bool_decide_eq_true_2 by eauto. cbn [andb].
  split; [intros ->; reflexivity|].
  split; [intros -> ->; reflexivity|].
  intros -> ->. cbn [andb negb orb].
  destruct ((StudentAdmin.pk obj ≫= _) ≫= _) as [previous|]; [|reflexivity].
  cbn [optional_user_eq]. unfold User.eq.
  destruct (bool_decide _); reflexivity.
Qed.

(** X24. [save_model] keeps the admission numbers of the table
    distinct: a save that would give a second row a number in use is
    refused with [IntegrityError], which is the only exception of the
    call, and a save that succeeds leaves no two rows with one number. *)
Theorem save_model_keeps_numbers_distinct (request : StudentAdmin.HttpRequest)
    (obj : StudentAdmin.Instance) (change : bool) (now : Z) (table : StudentAdmin.Table) :
  distinct_numbers (StudentAdmin.rows table) →
  match StudentAdmin.save_model request obj change now table with
  | inr (obj', table') => distinct_numbers (StudentAdmin.rows table')
  | inl e => e = IntegrityError
  end.
Proof.
  intros Hdistinct. rewrite save_model_eq. cbv zeta.
  match goal with |- context [StudentAdmin.save ?o table] => set (saved := o) end.
  destruct (StudentAdmin.save saved table) as [e|[obj' table']] eqn:Hsave.
  - eapply save_raises, Hsave.
  - apply save_succeeds in Hsave as (key & _ & _ & -> & Hfree & _).
    intros k1 k2 s1 s2 H1 H2 Hsame.
    apply lookup_insert_Some in H1 as [[<- <-]|[Hk1 H1]];
      apply lookup_insert_Some in H2 as [[<- <-]|[Hk2 H2]].
    + reflexivity.
    + destruct (Hfree k2 s2 H2); [congruence|congruence].
    + destruct (Hfree k1 s1 H1); [congruence|congruence].
    + eapply Hdistinct; eassumption.
Qed.

(** X25. What a member of staff saves without naming a verifier is
    theirs: they become the verifier, the student is in their list, and
    they may change it, superuser or not. *)
Theorem saved_student_is_listed (request : StudentAdmin.HttpRequest)
    (obj obj' : StudentAdmin.Instance) (change : bool) (now : Z)
    (table table' : StudentAdmin.Table) :
  StudentAdmin.save_model request obj change now table = inr (obj', table') →
  StudentAdmin.user_is_staff request = true →
  Student.verified_by (StudentAdmin.columns obj) = None →
  ∃ key,
    StudentAdmin.pk obj' = Some key
    ∧ Student.verified_by (StudentAdmin.columns obj') = Some (StudentAdmin.user request)
    ∧ StudentAdmin.get_queryset request table' !! key = Some (StudentAdmin.columns obj')
    ∧ StudentAdmin.has_change_permission request (Some obj') = true.
Proof.
  rewrite save_model_eq. cbv zeta. intros Hsave Hstaff Hnone.
  rewrite Hstaff, Hnone in Hsave.
  apply save_succeeds in Hsave as (key & Hkey & Hcolumns & Hrows & _).
  cbn [StudentAdmin.pk StudentAdmin.columns] in Hcolumns, Hrows.
  assert (Hverifier : Student.verified_by (StudentAdmin.columns obj')
                      = Some (StudentAdmin.user request)) by (rewrite Hcolumns; reflexivity).
  assert (Hmine : optional_user_eq (Student.verified_by (StudentAdmin.columns obj'))
                    (Some (StudentAdmin.user request)) = true).
  { rewrite Hverifier. cbn. apply bool_decide_eq_true_2. reflexivity. }
  exists key. split; [exact Hkey|]. split; [exact Hverifier|]. split.
  - unfold StudentAdmin.get_queryset, StudentAdmin.filter_verified_by.
    assert (Hrow : StudentAdmin.rows table' !! key = Some (StudentAdmin.columns obj'))
      by (rewrite Hrows, Hcolumns; apply lookup_insert_eq).
    destruct (StudentAdmin.user_is_superuser request); [exact Hrow|].
    apply map_lookup_filter_Some. split; [exact Hrow|exact Hmine].
  - unfold StudentAdmin.has_change_permission. rewrite Hmine. apply orb_true_r.
Qed.

Lemma save_model_stores_the_instance_witness :
  match StudentAdmin.save_model staff_request
          {| StudentAdmin.pk := None;
             StudentAdmin.columns := student_of other_parent "4021012345678909" |}
          false 1730700000 sample_table with
  | inr (obj', table') =>
      StudentAdmin.pk obj' = Some 2
      ∧ StudentAdmin.rows table' !! 2 = Some (StudentAdmin.columns obj')
  | inl _ => False
  end.
Proof.
  destruct (StudentAdmin.save_model staff_request
              {| StudentAdmin.pk := None;
                 StudentAdmin.columns := student_of other_parent "4021012345678909" |}
              false 1730700000 sample_table) as [e|[obj' table']] eqn:Hsave.
  - vm_compute in Hsave. discriminate Hsave.
  - destruct (save_model_stores_the_instance _ _ _ _ _ _ _ Hsave)
      as (key & Hkey & Hrow & _ & (Hnext & _) & _).
    cbn in Hnext. subst key. split; [exact Hkey|exact Hrow].
Defined.

Lemma verification_date_follows_the_verifier_witness :
  match StudentAdmin.save_model staff_request
          {| StudentAdmin.pk := None;
             StudentAdmin.columns := student_of other_parent "4021012345678909" |}
          false 1730700000 sample_table with
  | inr (obj', _) =>
      Student.verification_date (StudentAdmin.columns obj') = Some 1730700000
  | inl _ => False
  end.
Proof.
  destruct (StudentAdmin.save_model staff_request
              {| StudentAdmin.pk := None;
                 StudentAdmin.columns := student_of other_parent "4021012345678909" |}
              false 1730700000 sample_table) as [e|[obj' table']] eqn:Hsave.
  - vm_compute in Hsave. discriminate Hsave.
  - pose proof (verification_date_follows_the_verifier _ _ _ _ _ _ _ Hsave) as Hdate.
    cbv zeta in Hdate. vm_compute in Hsave. injection Hsave as <- _.
    exact (proj1 Hdate eq_refl).
Defined.

Lemma save_model_keeps_numbers_distinct_witness :
  match StudentAdmin.save_model staff_request
          {| StudentAdmin.pk := None;
             StudentAdmin.columns := student_of other_parent "4021000000000002" |}
          false 1730700000 sample_table with
  | inr (obj', table') => distinct_numbers (StudentAdmin.rows table')
  | inl e => e = IntegrityError
  end.
Proof.
  apply (save_model_keeps_numbers_distinct staff_request).
  intros k1 k2 s1 s2 H1 H2 _.
  unfold sample_table in H1, H2. cbn [StudentAdmin.rows] in H1, H2.
  apply lookup_singleton_Some in H1 as [<- _].
  apply lookup_singleton_Some in H2 as [<- _]. reflexivity.
Defined.

Lemma saved_student_is_listed_witness :
  match StudentAdmin.save_model staff_request
          {| StudentAdmin.pk := None;
             StudentAdmin.columns := student_of other_parent "4021012345678909" |}
          false 1730700000 sample_table with
  | inr (obj', table') =>
      ∃ key, StudentAdmin.get_queryset staff_request table' !! key
             = Some (StudentAdmin.columns obj')
  | inl _ => False
  end.
Proof.
  destruct (StudentAdmin.save_model staff_request
              {| StudentAdmin.pk := None;
                 StudentAdmin.columns := student_of other_parent "4021012345678909" |}
              false 1730700000 sample_table) as [e|[obj' table']] eqn:Hsave.
  - vm_compute in Hsave. discriminate Hsave.
  - destruct (saved_student_is_listed _ _ _ _ _ _ _ Hsave eq_refl eq_refl)
      as (key & _ & _ & Hlisted & _).
    exists key. exact Hlisted.
Defined.
